(** * Plugin dashboard reconciler (pkg/services/plugindashboards/service)

    A shallow embedding of [dashboard_updater.go]: the startup sweep
    [updateAppDashboards], the sync pass [syncPluginDashboards], the event
    handler [handlePluginStateChanged] and the import helper
    [autoUpdateAppDashboard].

    The updater only talks to collaborators through Go interfaces.  Each
    interface is a record of methods over an abstract world [W]; a method takes
    the world and returns its Go results together with the next world.  Every
    collaborator call and every log line is also recorded, in program order, in
    a trace, so that statements about "which calls were made" are statements
    about that trace.  The [context.Context] argument carries no data the
    updater inspects and is left out. *)

From Stdlib Require Import ZArith List String Bool Lia.
From ExtLib Require Import Structures.Monad.
Import ListNotations.
Import MonadNotation.
Local Open Scope monad_scope.
Local Open Scope string_scope.
Local Open Scope Z_scope.
Local Open Scope list_scope.

Set Implicit Arguments.

(** ** Go values *)

(** A Go [error] value, identified by its message; [nil] is [None] of
    [option error]. *)
Definition error := string.

(** A Go [(T, error)] result pair. *)
Inductive Result (A : Type) : Type :=
| Ok (a : A)
| Err (e : error).
Arguments Ok {A} a.
Arguments Err {A} e.

Definition errorOf {A} (r : Result A) : option error :=
  match r with Ok _ => None | Err e => Some e end.

(** ** Data model and collaborator interfaces *)

(** Modelled from the spec: the struct and interface declarations of the
    packages [models], [plugins], [plugindashboards], [dashboardimport],
    [pluginsettings] and [dashboards] are outside this file's source.  The
    records below carry the fields the updater reads or writes and the
    interfaces the methods it calls, under the Go names the source uses, one
    module per Go package and struct (sections 3 and 6 of the specification
    describe the same entities and calls).  Go's [int64] is [Z]: the updater
    only compares and passes these numbers on.  A dashboard's JSON payload is
    an opaque string. *)

Module models.

Inductive RoleType := ROLE_VIEWER | ROLE_EDITOR | ROLE_ADMIN.

Module SignedInUser.
Record t := { UserId : Z; OrgRole : RoleType; OrgId : Z }.
End SignedInUser.

Module PluginSetting.
Record t := { OrgId : Z; PluginId : string; Enabled : bool; PluginVersion : string }.
End PluginSetting.

Module Dashboard.
Record t := { Id : Z; OrgId : Z; Slug : string; Title : string; Data : string }.
End Dashboard.

(** The [Result] field of the Go query structs is the value the service
    hands back, so it is the method's result here. *)
Module GetPluginSettingByIdQuery.
Record t := { PluginId : string; OrgId : Z }.
End GetPluginSettingByIdQuery.

Module UpdatePluginSettingVersionCmd.
Record t := { OrgId : Z; PluginId : string; PluginVersion : string }.
End UpdatePluginSettingVersionCmd.

Module GetDashboardsByPluginIdQuery.
Record t := { PluginId : string; OrgId : Z }.
End GetDashboardsByPluginIdQuery.

Module PluginStateChangedEvent.
Record t := { PluginId : string; OrgId : Z; Enabled : bool }.
End PluginStateChangedEvent.

End models.

Module plugins.

Module Info.
Record t := { Version : string }.
End Info.

Module PluginDTO.
Record t := { ID : string; Info : Info.t }.
End PluginDTO.

(** [plugins.Store]: [Plugin(ctx, id) (PluginDTO, bool)]. *)
Record Store (W : Type) := {
  Plugin : string -> W -> option PluginDTO.t * W
}.

End plugins.

Module plugindashboards.

Module PluginDashboard.
Record t := {
  PluginId : string;
  Reference : string;
  Slug : string;
  DashboardId : Z;
  Revision : Z;
  ImportedRevision : Z;
  Removed : bool
}.
End PluginDashboard.

Module ListPluginDashboardsRequest.
Record t := { OrgID : Z; PluginID : string }.
End ListPluginDashboardsRequest.

Module ListPluginDashboardsResponse.
Record t := { Items : list PluginDashboard.t }.
End ListPluginDashboardsResponse.

Module LoadPluginDashboardRequest.
Record t := { PluginID : string; Reference : string }.
End LoadPluginDashboardRequest.

Module LoadPluginDashboardResponse.
Record t := { Dashboard : models.Dashboard.t }.
End LoadPluginDashboardResponse.

Record Service (W : Type) := {
  ListPluginDashboards :
    ListPluginDashboardsRequest.t -> W -> Result ListPluginDashboardsResponse.t * W;
  LoadPluginDashboard :
    LoadPluginDashboardRequest.t -> W -> Result LoadPluginDashboardResponse.t * W
}.

End plugindashboards.

Module dashboardimport.

Module ImportDashboardInput.
Record t := { Name : string; Value : string }.
End ImportDashboardInput.

Module ImportDashboardRequest.
Record t := {
  PluginId : string;
  User : models.SignedInUser.t;
  Path : string;
  FolderId : Z;
  Dashboard : string;
  Overwrite : bool;
  Inputs : list ImportDashboardInput.t
}.
End ImportDashboardRequest.

Module ImportDashboardResponse.
Record t := { DashboardId : Z }.
End ImportDashboardResponse.

Record Service (W : Type) := {
  ImportDashboard :
    ImportDashboardRequest.t -> W -> Result ImportDashboardResponse.t * W
}.

End dashboardimport.

Module pluginsettings.

Record Service (W : Type) := {
  GetPluginSettings : Z -> W -> Result (list models.PluginSetting.t) * W;
  GetPluginSettingById :
    models.GetPluginSettingByIdQuery.t -> W -> Result models.PluginSetting.t * W;
  UpdatePluginSettingVersion :
    models.UpdatePluginSettingVersionCmd.t -> W -> option error * W
}.

End pluginsettings.

Module dashboards.

Record PluginService (W : Type) := {
  GetDashboardsByPluginID :
    models.GetDashboardsByPluginIdQuery.t -> W -> Result (list models.Dashboard.t) * W
}.

Record DashboardService (W : Type) := {
  DeleteDashboard : Z -> Z -> W -> option error * W
}.

End dashboards.

Import models plugins plugindashboards dashboardimport.

(** ** Traces *)

Inductive Level := Debug | Info | Error.

(** A value of a key/value pair given to the logger. *)
Inductive LogVal :=
| LStr (s : string)
| LBool (b : bool)
| LInt (n : Z)
| LErr (e : error).

(** The collaborator calls the updater can make, with their arguments. *)
Inductive Call :=
| CallGetPluginSettings (orgID : Z)
| CallPlugin (pluginID : string)
| CallListPluginDashboards (req : ListPluginDashboardsRequest.t)
| CallLoadPluginDashboard (req : LoadPluginDashboardRequest.t)
| CallImportDashboard (req : ImportDashboardRequest.t)
| CallDeleteDashboard (dashboardId orgId : Z)
| CallGetPluginSettingById (query : GetPluginSettingByIdQuery.t)
| CallUpdatePluginSettingVersion (cmd : UpdatePluginSettingVersionCmd.t)
| CallGetDashboardsByPluginID (query : GetDashboardsByPluginIdQuery.t).

(** One entry of the trace: a call together with the error it returned
    ([None] when it returned [nil]), or a log line. *)
Inductive Event :=
| Called (c : Call) (err : option error)
| Logged (lvl : Level) (msg : string) (ctx : list (string * LogVal)).

(** ** The monad of the updater: world passing plus the trace emitted *)

Definition Run (W A : Type) : Type := W -> A * W * list Event.

Definition valueOf {W A} (r : A * W * list Event) : A := fst (fst r).
Definition worldOf {W A} (r : A * W * list Event) : W := snd (fst r).
Definition traceOf {W A} (r : A * W * list Event) : list Event := snd r.

#[global] Instance Monad_Run (W : Type) : Monad (Run W) := {
  ret := fun _ a w => (a, w, []);
  bind := fun _ _ m k w =>
            let r1 := m w in
            let r2 := k (valueOf r1) (worldOf r1) in
            (valueOf r2, worldOf r2, traceOf r1 ++ traceOf r2)
}.

(** A collaborator call: run the method, record the call and its error. *)
Definition call {W R} (c : Call) (errof : R -> option error) (f : W -> R * W) : Run W R :=
  fun w => let '(r, w1) := f w in (r, w1, [Called c (errof r)]).

(** [du.logger.<Level>(msg, ctx...)]. *)
Definition log {W} (lvl : Level) (msg : string) (ctx : list (string * LogVal)) : Run W unit :=
  fun w => (tt, w, [Logged lvl msg ctx]).

(** ** The updater *)

(** [type DashboardUpdater struct]; the logger writes to the trace. *)
Record DashboardUpdater (W : Type) := {
  pluginStore : plugins.Store W;
  pluginDashboardService : plugindashboards.Service W;
  dashboardImportService : dashboardimport.Service W;
  pluginSettingsService : pluginsettings.Service W;
  dashboardPluginService : dashboards.PluginService W;
  dashboardService : dashboards.DashboardService W
}.

Section Updater.

Context {W : Type}.
Variable du : DashboardUpdater W.

(** The method calls [du.<service>.<Method>(ctx, ...)], recorded. *)

Definition GetPluginSettings (orgID : Z) : Run W (Result (list PluginSetting.t)) :=
  call (CallGetPluginSettings orgID) errorOf
       (pluginsettings.GetPluginSettings (pluginSettingsService du) orgID).

Definition Plugin (pluginID : string) : Run W (option PluginDTO.t) :=
  call (CallPlugin pluginID) (fun _ => None)
       (plugins.Plugin (pluginStore du) pluginID).

Definition ListPluginDashboards (req : ListPluginDashboardsRequest.t)
  : Run W (Result ListPluginDashboardsResponse.t) :=
  call (CallListPluginDashboards req) errorOf
       (plugindashboards.ListPluginDashboards (pluginDashboardService du) req).

Definition LoadPluginDashboard (req : LoadPluginDashboardRequest.t)
  : Run W (Result LoadPluginDashboardResponse.t) :=
  call (CallLoadPluginDashboard req) errorOf
       (plugindashboards.LoadPluginDashboard (pluginDashboardService du) req).

Definition ImportDashboard (req : ImportDashboardRequest.t)
  : Run W (Result ImportDashboardResponse.t) :=
  call (CallImportDashboard req) errorOf
       (dashboardimport.ImportDashboard (dashboardImportService du) req).

Definition DeleteDashboard (dashboardId orgId : Z) : Run W (option error) :=
  call (CallDeleteDashboard dashboardId orgId) (fun e => e)
       (dashboards.DeleteDashboard (dashboardService du) dashboardId orgId).

Definition GetPluginSettingById (query : GetPluginSettingByIdQuery.t)
  : Run W (Result PluginSetting.t) :=
  call (CallGetPluginSettingById query) errorOf
       (pluginsettings.GetPluginSettingById (pluginSettingsService du) query).

Definition UpdatePluginSettingVersion (cmd : UpdatePluginSettingVersionCmd.t)
  : Run W (option error) :=
  call (CallUpdatePluginSettingVersion cmd) (fun e => e)
       (pluginsettings.UpdatePluginSettingVersion (pluginSettingsService du) cmd).

Definition GetDashboardsByPluginID (query : GetDashboardsByPluginIdQuery.t)
  : Run W (Result (list Dashboard.t)) :=
  call (CallGetDashboardsByPluginID query) errorOf
       (dashboards.GetDashboardsByPluginID (dashboardPluginService du) query).

(** [func (du *DashboardUpdater) autoUpdateAppDashboard] *)
Definition autoUpdateAppDashboard (pluginDashInfo : PluginDashboard.t) (orgID : Z)
  : Run W (option error) :=
  let req := {| LoadPluginDashboardRequest.PluginID := PluginDashboard.PluginId pluginDashInfo;
                LoadPluginDashboardRequest.Reference := PluginDashboard.Reference pluginDashInfo |} in
  resp <- LoadPluginDashboard req ;;
  match resp with
  | Err err => ret (Some err)
  | Ok resp =>
      let dash := LoadPluginDashboardResponse.Dashboard resp in
      log Info "Auto updating App dashboard"
          [("dashboard", LStr (Dashboard.Title dash));
           ("newRev", LInt (PluginDashboard.Revision pluginDashInfo));
           ("oldRev", LInt (PluginDashboard.ImportedRevision pluginDashInfo))] ;;
      r <- ImportDashboard
             {| ImportDashboardRequest.PluginId := PluginDashboard.PluginId pluginDashInfo;
                ImportDashboardRequest.User :=
                  {| SignedInUser.UserId := 0;
                     SignedInUser.OrgRole := ROLE_ADMIN;
                     SignedInUser.OrgId := orgID |};
                ImportDashboardRequest.Path := PluginDashboard.Reference pluginDashInfo;
                ImportDashboardRequest.FolderId := 0;
                ImportDashboardRequest.Dashboard := Dashboard.Data dash;
                ImportDashboardRequest.Overwrite := true;
                ImportDashboardRequest.Inputs := [] |} ;;
      ret (errorOf r)
  end.

(** The body of the [for _, dash := range resp.Items] loop of
    [syncPluginDashboards].  [true]: go on with the next record ([continue],
    or the end of the body); [false]: the function returned. *)
Definition syncDashboard (plugin : PluginDTO.t) (orgID : Z) (dash : PluginDashboard.t)
  : Run W bool :=
  if PluginDashboard.Removed dash then
    log Info "Deleting plugin dashboard"
        [("pluginId", LStr (PluginDTO.ID plugin));
         ("dashboard", LStr (PluginDashboard.Slug dash))] ;;
    err <- DeleteDashboard (PluginDashboard.DashboardId dash) orgID ;;
    match err with
    | Some err =>
        log Error "Failed to auto update app dashboard"
            [("pluginId", LStr (PluginDTO.ID plugin)); ("error", LErr err)] ;;
        ret false
    | None => ret true
    end
  else if negb (PluginDashboard.ImportedRevision dash =? PluginDashboard.Revision dash) then
    err <- autoUpdateAppDashboard dash orgID ;;
    match err with
    | Some err =>
        log Error "Failed to auto update app dashboard"
            [("pluginId", LStr (PluginDTO.ID plugin)); ("error", LErr err)] ;;
        ret false
    | None => ret true
    end
  else ret true.

(** The loop over [resp.Items]: [true] when it ran to its end, [false] when
    the function returned from inside it. *)
Fixpoint syncDashboards (plugin : PluginDTO.t) (orgID : Z) (items : list PluginDashboard.t)
  : Run W bool :=
  match items with
  | [] => ret true
  | dash :: rest =>
      go <- syncDashboard plugin orgID dash ;;
      if go : bool then syncDashboards plugin orgID rest else ret false
  end.

(** The last block of [syncPluginDashboards], "update version in
    plugin_setting table to mark that we have processed the update". *)
Definition markProcessed (plugin : PluginDTO.t) (orgID : Z) : Run W unit :=
  let query := {| GetPluginSettingByIdQuery.PluginId := PluginDTO.ID plugin;
                  GetPluginSettingByIdQuery.OrgId := orgID |} in
  r <- GetPluginSettingById query ;;
  match r with
  | Err err => log Error "Failed to read plugin setting by ID" [("error", LErr err)]
  | Ok appSetting =>
      let cmd := {| UpdatePluginSettingVersionCmd.OrgId := PluginSetting.OrgId appSetting;
                    UpdatePluginSettingVersionCmd.PluginId := PluginSetting.PluginId appSetting;
                    UpdatePluginSettingVersionCmd.PluginVersion :=
                      Info.Version (PluginDTO.Info plugin) |} in
      err <- UpdatePluginSettingVersion cmd ;;
      match err with
      | Some err => log Error "Failed to update plugin setting version" [("error", LErr err)]
      | None => ret tt
      end
  end.

(** [func (du *DashboardUpdater) syncPluginDashboards] *)
Definition syncPluginDashboards (plugin : PluginDTO.t) (orgID : Z) : Run W unit :=
  log Info "Syncing plugin dashboards to DB" [("pluginId", LStr (PluginDTO.ID plugin))] ;;
  let req := {| ListPluginDashboardsRequest.OrgID := orgID;
                ListPluginDashboardsRequest.PluginID := PluginDTO.ID plugin |} in
  resp <- ListPluginDashboards req ;;
  match resp with
  | Err err => log Error "Failed to load app dashboards" [("error", LErr err)]
  | Ok resp =>
      finished <- syncDashboards plugin orgID (ListPluginDashboardsResponse.Items resp) ;;
      if finished : bool then markProcessed plugin orgID else ret tt
  end.

(** The body of the [for _, pluginSetting := range pluginSettings] loop of
    [updateAppDashboards]. *)
Definition updateAppDashboard (pluginSetting : PluginSetting.t) : Run W unit :=
  if negb (PluginSetting.Enabled pluginSetting) then ret tt
  else
    found <- Plugin (PluginSetting.PluginId pluginSetting) ;;
    match found with
    | Some pluginDef =>
        if negb (String.eqb (Info.Version (PluginDTO.Info pluginDef))
                            (PluginSetting.PluginVersion pluginSetting))
        then syncPluginDashboards pluginDef (PluginSetting.OrgId pluginSetting)
        else ret tt
    | None => ret tt
    end.

Fixpoint forEachSetting (pluginSettings : list PluginSetting.t) : Run W unit :=
  match pluginSettings with
  | [] => ret tt
  | pluginSetting :: rest => updateAppDashboard pluginSetting ;; forEachSetting rest
  end.

(** [func (du *DashboardUpdater) updateAppDashboards] *)
Definition updateAppDashboards : Run W unit :=
  log Debug "Looking for app dashboard updates" [] ;;
  r <- GetPluginSettings 0 ;;
  match r with
  | Err err => log Error "Failed to get all plugin settings" [("error", LErr err)]
  | Ok pluginSettings => forEachSetting pluginSettings
  end.

(** The [for _, dash := range query.Result] loop of the disabled branch of
    [handlePluginStateChanged]; its value is what the handler returns. *)
Fixpoint deleteDashboards (pluginId : string) (result : list Dashboard.t)
  : Run W (option error) :=
  match result with
  | [] => ret None
  | dash :: rest =>
      log Info "Deleting plugin dashboard"
          [("pluginId", LStr pluginId); ("dashboard", LStr (Dashboard.Slug dash))] ;;
      err <- DeleteDashboard (Dashboard.Id dash) (Dashboard.OrgId dash) ;;
      match err with
      | Some err => ret (Some err)
      | None => deleteDashboards pluginId rest
      end
  end.

(** [fmt.Errorf("plugin %s not found. Could not sync plugin dashboards", id)] *)
Definition pluginNotFound (pluginId : string) : error :=
  String.append "plugin "
    (String.append pluginId " not found. Could not sync plugin dashboards").

(** [func (du *DashboardUpdater) handlePluginStateChanged] *)
Definition handlePluginStateChanged (event : PluginStateChangedEvent.t)
  : Run W (option error) :=
  log Info "Plugin state changed"
      [("pluginId", LStr (PluginStateChangedEvent.PluginId event));
       ("enabled", LBool (PluginStateChangedEvent.Enabled event))] ;;
  if PluginStateChangedEvent.Enabled event then
    found <- Plugin (PluginStateChangedEvent.PluginId event) ;;
    match found with
    | None => ret (Some (pluginNotFound (PluginStateChangedEvent.PluginId event)))
    | Some p =>
        syncPluginDashboards p (PluginStateChangedEvent.OrgId event) ;;
        ret None
    end
  else
    let query := {| GetDashboardsByPluginIdQuery.PluginId := PluginStateChangedEvent.PluginId event;
                    GetDashboardsByPluginIdQuery.OrgId := PluginStateChangedEvent.OrgId event |} in
    r <- GetDashboardsByPluginID query ;;
    match r with
    | Err err => ret (Some err)
    | Ok result => deleteDashboards (PluginStateChangedEvent.PluginId event) result
    end.

End Updater.

(** ** Reading traces *)

Definition isLog (ev : Event) : bool :=
  match ev with Logged _ _ _ => true | Called _ _ => false end.

(** The calls of step 2 of a sync pass: a deletion, or the two calls that make
    up an import (loading the payload, then importing it). *)
Definition isStep2 (c : Call) : bool :=
  match c with
  | CallDeleteDashboard _ _ | CallLoadPluginDashboard _ | CallImportDashboard _ => true
  | _ => false
  end.

(** The calls that write to a store. *)
Definition isMutation (c : Call) : bool :=
  match c with
  | CallDeleteDashboard _ _ | CallImportDashboard _ | CallUpdatePluginSettingVersion _ => true
  | _ => false
  end.

Definition isDelete (c : Call) : bool :=
  match c with CallDeleteDashboard _ _ => true | _ => false end.

Definition isImport (c : Call) : bool :=
  match c with CallLoadPluginDashboard _ | CallImportDashboard _ => true | _ => false end.

Definition isVersionWrite (c : Call) : bool :=
  match c with CallUpdatePluginSettingVersion _ => true | _ => false end.

Definition isSettingsCall (c : Call) : bool :=
  match c with
  | CallGetPluginSettingById _ | CallUpdatePluginSettingVersion _ => true
  | _ => false
  end.

(** The calls of a trace, in order, without the log lines. *)
Fixpoint calls (tr : list Event) : list Call :=
  match tr with
  | [] => []
  | Called c _ :: tr => c :: calls tr
  | Logged _ _ _ :: tr => calls tr
  end.

(** [failedCall p ev]: [ev] is a call selected by [p] that returned an error. *)
Definition failedCall (p : Call -> bool) (ev : Event) : bool :=
  match ev with
  | Called c (Some _) => p c
  | _ => false
  end.

(** The first error a call of the trace returned, if any. *)
Fixpoint firstError (tr : list Event) : option error :=
  match tr with
  | [] => None
  | Called _ (Some e) :: _ => Some e
  | _ :: tr => firstError tr
  end.

(** The deletions of a trace: dashboard identifier, organization, outcome. *)
Fixpoint deletions (tr : list Event) : list (Z * Z * option error) :=
  match tr with
  | [] => []
  | Called (CallDeleteDashboard id org) err :: tr => (id, org, err) :: deletions tr
  | _ :: tr => deletions tr
  end.

(** The import requests of a trace. *)
Fixpoint imports (tr : list Event) : list ImportDashboardRequest.t :=
  match tr with
  | [] => []
  | Called (CallImportDashboard req) _ :: tr => req :: imports tr
  | _ :: tr => imports tr
  end.

(** A sync pass starts by listing the plugin's dashboards for its
    (organization, plugin) pair, and lists them nowhere else: the listing
    requests of a trace are the sync passes that were started. *)
Fixpoint syncPasses (tr : list Event) : list (Z * string) :=
  match tr with
  | [] => []
  | Called (CallListPluginDashboards req) _ :: tr =>
      (ListPluginDashboardsRequest.OrgID req, ListPluginDashboardsRequest.PluginID req)
        :: syncPasses tr
  | _ :: tr => syncPasses tr
  end.

(** ** Replaying a trace on a world *)

Section Replay.

Context {W : Type}.
Variable du : DashboardUpdater W.

(** The world a collaborator call leaves behind. *)
Definition exec (c : Call) (w : W) : W :=
  match c with
  | CallGetPluginSettings orgID =>
      snd (pluginsettings.GetPluginSettings (pluginSettingsService du) orgID w)
  | CallPlugin pluginID =>
      snd (plugins.Plugin (pluginStore du) pluginID w)
  | CallListPluginDashboards req =>
      snd (plugindashboards.ListPluginDashboards (pluginDashboardService du) req w)
  | CallLoadPluginDashboard req =>
      snd (plugindashboards.LoadPluginDashboard (pluginDashboardService du) req w)
  | CallImportDashboard req =>
      snd (dashboardimport.ImportDashboard (dashboardImportService du) req w)
  | CallDeleteDashboard dashboardId orgId =>
      snd (dashboards.DeleteDashboard (dashboardService du) dashboardId orgId w)
  | CallGetPluginSettingById query =>
      snd (pluginsettings.GetPluginSettingById (pluginSettingsService du) query w)
  | CallUpdatePluginSettingVersion cmd =>
      snd (pluginsettings.UpdatePluginSettingVersion (pluginSettingsService du) cmd w)
  | CallGetDashboardsByPluginID query =>
      snd (dashboards.GetDashboardsByPluginID (dashboardPluginService du) query w)
  end.

(** The world after the calls of a trace, made in order from [w]. *)
Definition replay (tr : list Event) (w : W) : W :=
  fold_left (fun w c => exec c w) (calls tr) w.

(** A program is faithful when the world it ends in is the one its recorded
    calls produce: it changes nothing behind the trace's back. *)
Definition Faithful {A} (m : Run W A) : Prop :=
  forall w, worldOf (m w) = replay (traceOf (m w)) w.

End Replay.

(** ** In-memory collaborators *)

(** Modelled from the spec: the implementations of the six collaborator
    interfaces are outside this file's source.  The module below gives them
    an in-memory implementation after sections 3 and 6 of the specification
    (records recomputed by the catalog from the plugin's bundled dashboards and
    the dashboard store; import as an upsert at the reference; deletion by
    stored identifier and organization), with switches to make a collaborator
    fail.  It is used to run the updater on concrete inputs; the theorems about
    the updater hold for every implementation. *)

Module Mem.

(** A dashboard definition bundled in an installed plugin. *)
Module Bundled.
Record t := { PluginId : string; Reference : string; Title : string;
              Data : string; Revision : Z }.
End Bundled.

(** A row of the dashboard store. *)
Module Stored.
Record t := { Id : Z; OrgId : Z; PluginId : string; Reference : string;
              Data : string; Revision : Z }.
End Stored.

Record World := {
  stored : list Stored.t;
  settings : list PluginSetting.t;
  catalogDown : bool;          (* catalog queries fail *)
  settingsDown : bool;         (* settings reads fail *)
  settingsReadOnly : bool;     (* settings writes fail *)
  protected : list Z;          (* dashboards whose deletion fails *)
  rejected : list string       (* references whose import is rejected *)
}.

Definition withStored (w : World) (l : list Stored.t) : World :=
  {| stored := l; settings := settings w; catalogDown := catalogDown w;
     settingsDown := settingsDown w; settingsReadOnly := settingsReadOnly w;
     protected := protected w; rejected := rejected w |}.

Definition withSettings (w : World) (l : list PluginSetting.t) : World :=
  {| stored := stored w; settings := l; catalogDown := catalogDown w;
     settingsDown := settingsDown w; settingsReadOnly := settingsReadOnly w;
     protected := protected w; rejected := rejected w |}.

Section Collaborators.

(** The installed plugins and their bundled dashboards do not change
    while the updater runs. *)
Variable registry : list PluginDTO.t.
Variable bundled : list Bundled.t.

Definition lookupPlugin (pluginID : string) : option PluginDTO.t :=
  find (fun p => String.eqb (PluginDTO.ID p) pluginID) registry.

Definition isBundled (pluginID reference : string) (b : Bundled.t) : bool :=
  String.eqb (Bundled.PluginId b) pluginID && String.eqb (Bundled.Reference b) reference.

Definition isStoredAt (orgID : Z) (pluginID reference : string) (s : Stored.t) : bool :=
  (Stored.OrgId s =? orgID) && String.eqb (Stored.PluginId s) pluginID
  && String.eqb (Stored.Reference s) reference.

Definition bundledRecord (w : World) (orgID : Z) (b : Bundled.t) : PluginDashboard.t :=
  match find (isStoredAt orgID (Bundled.PluginId b) (Bundled.Reference b)) (stored w) with
  | Some s =>
      {| PluginDashboard.PluginId := Bundled.PluginId b;
         PluginDashboard.Reference := Bundled.Reference b;
         PluginDashboard.Slug := Bundled.Reference b;
         PluginDashboard.DashboardId := Stored.Id s;
         PluginDashboard.Revision := Bundled.Revision b;
         PluginDashboard.ImportedRevision := Stored.Revision s;
         PluginDashboard.Removed := false |}
  | None =>
      {| PluginDashboard.PluginId := Bundled.PluginId b;
         PluginDashboard.Reference := Bundled.Reference b;
         PluginDashboard.Slug := Bundled.Reference b;
         PluginDashboard.DashboardId := 0;
         PluginDashboard.Revision := Bundled.Revision b;
         PluginDashboard.ImportedRevision := 0;
         PluginDashboard.Removed := false |}
  end.

Definition removedRecord (s : Stored.t) : PluginDashboard.t :=
  {| PluginDashboard.PluginId := Stored.PluginId s;
     PluginDashboard.Reference := Stored.Reference s;
     PluginDashboard.Slug := Stored.Reference s;
     PluginDashboard.DashboardId := Stored.Id s;
     PluginDashboard.Revision := Stored.Revision s;
     PluginDashboard.ImportedRevision := Stored.Revision s;
     PluginDashboard.Removed := true |}.

Definition isOrphan (orgID : Z) (pluginID : string) (s : Stored.t) : bool :=
  (Stored.OrgId s =? orgID) && String.eqb (Stored.PluginId s) pluginID
  && negb (existsb (isBundled pluginID (Stored.Reference s)) bundled).

Definition listPluginDashboards (req : ListPluginDashboardsRequest.t) (w : World)
  : Result ListPluginDashboardsResponse.t * World :=
  if catalogDown w then (Err "catalog unavailable", w)
  else
    let orgID := ListPluginDashboardsRequest.OrgID req in
    let pluginID := ListPluginDashboardsRequest.PluginID req in
    (Ok {| ListPluginDashboardsResponse.Items :=
             map (bundledRecord w orgID)
                 (filter (fun b => String.eqb (Bundled.PluginId b) pluginID) bundled)
             ++ map removedRecord (filter (isOrphan orgID pluginID) (stored w)) |}, w).

Definition loadPluginDashboard (req : LoadPluginDashboardRequest.t) (w : World)
  : Result LoadPluginDashboardResponse.t * World :=
  if catalogDown w then (Err "catalog unavailable", w)
  else
    match find (isBundled (LoadPluginDashboardRequest.PluginID req)
                          (LoadPluginDashboardRequest.Reference req)) bundled with
    | Some b =>
        (Ok {| LoadPluginDashboardResponse.Dashboard :=
                 {| Dashboard.Id := 0; Dashboard.OrgId := 0;
                    Dashboard.Slug := Bundled.Reference b;
                    Dashboard.Title := Bundled.Title b;
                    Dashboard.Data := Bundled.Data b |} |}, w)
    | None => (Err "plugin dashboard not found", w)
    end.

Definition nextId (l : list Stored.t) : Z :=
  1 + fold_right (fun s m => Z.max (Stored.Id s) m) 0 l.

Definition importDashboard (req : ImportDashboardRequest.t) (w : World)
  : Result ImportDashboardResponse.t * World :=
  let orgID := SignedInUser.OrgId (ImportDashboardRequest.User req) in
  let pluginID := ImportDashboardRequest.PluginId req in
  let path := ImportDashboardRequest.Path req in
  if existsb (String.eqb path) (rejected w) then (Err "dashboard validation failed", w)
  else
    match find (isBundled pluginID path) bundled with
    | None => (Err "plugin dashboard not found", w)
    | Some b =>
        match find (isStoredAt orgID pluginID path) (stored w) with
        | Some old =>
            if ImportDashboardRequest.Overwrite req then
              (Ok {| ImportDashboardResponse.DashboardId := Stored.Id old |},
               withStored w
                 (map (fun s => if isStoredAt orgID pluginID path s
                                then {| Stored.Id := Stored.Id s; Stored.OrgId := orgID;
                                        Stored.PluginId := pluginID; Stored.Reference := path;
                                        Stored.Data := ImportDashboardRequest.Dashboard req;
                                        Stored.Revision := Bundled.Revision b |}
                                else s) (stored w)))
            else (Err "dashboard already exists", w)
        | None =>
            let id := nextId (stored w) in
            (Ok {| ImportDashboardResponse.DashboardId := id |},
             withStored w
               (stored w ++ [{| Stored.Id := id; Stored.OrgId := orgID;
                                Stored.PluginId := pluginID; Stored.Reference := path;
                                Stored.Data := ImportDashboardRequest.Dashboard req;
                                Stored.Revision := Bundled.Revision b |}]))
        end
    end.

Definition isRow (dashboardId orgId : Z) (s : Stored.t) : bool :=
  (Stored.Id s =? dashboardId) && (Stored.OrgId s =? orgId).

Definition deleteDashboard (dashboardId orgId : Z) (w : World) : option error * World :=
  if existsb (Z.eqb dashboardId) (protected w) then (Some "dashboard store unavailable", w)
  else if existsb (isRow dashboardId orgId) (stored w)
       then (None, withStored w (filter (fun s => negb (isRow dashboardId orgId s)) (stored w)))
       else (Some "dashboard not found", w).

Definition isSetting (orgId : Z) (pluginId : string) (s : PluginSetting.t) : bool :=
  (PluginSetting.OrgId s =? orgId) && String.eqb (PluginSetting.PluginId s) pluginId.

Definition getPluginSettings (orgID : Z) (w : World)
  : Result (list PluginSetting.t) * World :=
  if settingsDown w then (Err "settings store unavailable", w)
  else if orgID =? 0 then (Ok (settings w), w)
       else (Ok (filter (fun s => PluginSetting.OrgId s =? orgID) (settings w)), w).

Definition getPluginSettingById (query : GetPluginSettingByIdQuery.t) (w : World)
  : Result PluginSetting.t * World :=
  if settingsDown w then (Err "settings store unavailable", w)
  else
    match find (isSetting (GetPluginSettingByIdQuery.OrgId query)
                          (GetPluginSettingByIdQuery.PluginId query)) (settings w) with
    | Some s => (Ok s, w)
    | None => (Err "plugin setting not found", w)
    end.

Definition updatePluginSettingVersion (cmd : UpdatePluginSettingVersionCmd.t) (w : World)
  : option error * World :=
  let orgId := UpdatePluginSettingVersionCmd.OrgId cmd in
  let pluginId := UpdatePluginSettingVersionCmd.PluginId cmd in
  if settingsReadOnly w then (Some "settings store unavailable", w)
  else if existsb (isSetting orgId pluginId) (settings w)
       then (None,
             withSettings w
               (map (fun s => if isSetting orgId pluginId s
                              then {| PluginSetting.OrgId := PluginSetting.OrgId s;
                                      PluginSetting.PluginId := PluginSetting.PluginId s;
                                      PluginSetting.Enabled := PluginSetting.Enabled s;
                                      PluginSetting.PluginVersion :=
                                        UpdatePluginSettingVersionCmd.PluginVersion cmd |}
                              else s) (settings w)))
       else (Some "plugin setting not found", w).

Definition toDashboard (s : Stored.t) : Dashboard.t :=
  {| Dashboard.Id := Stored.Id s; Dashboard.OrgId := Stored.OrgId s;
     Dashboard.Slug := Stored.Reference s; Dashboard.Title := Stored.Reference s;
     Dashboard.Data := Stored.Data s |}.

Definition getDashboardsByPluginID (query : GetDashboardsByPluginIdQuery.t) (w : World)
  : Result (list Dashboard.t) * World :=
  (Ok (map toDashboard
           (filter (fun s => (Stored.OrgId s =? GetDashboardsByPluginIdQuery.OrgId query)
                             && String.eqb (Stored.PluginId s)
                                           (GetDashboardsByPluginIdQuery.PluginId query))
                   (stored w))), w).

Definition updater : DashboardUpdater World :=
  {| pluginStore := {| plugins.Plugin := fun id w => (lookupPlugin id, w) |};
     pluginDashboardService :=
       {| plugindashboards.ListPluginDashboards := listPluginDashboards;
          plugindashboards.LoadPluginDashboard := loadPluginDashboard |};
     dashboardImportService := {| dashboardimport.ImportDashboard := importDashboard |};
     pluginSettingsService :=
       {| pluginsettings.GetPluginSettings := getPluginSettings;
          pluginsettings.GetPluginSettingById := getPluginSettingById;
          pluginsettings.UpdatePluginSettingVersion := updatePluginSettingVersion |};
     dashboardPluginService :=
       {| dashboards.GetDashboardsByPluginID := getDashboardsByPluginID |};
     dashboardService := {| dashboards.DeleteDashboard := deleteDashboard |} |}.

(** The version recorded for an (organization, plugin) pair. *)
Definition recorded (w : World) (orgId : Z) (pluginId : string) : option string :=
  option_map PluginSetting.PluginVersion (find (isSetting orgId pluginId) (settings w)).

End Collaborators.

(** *** A small installation used in the examples

    One app plugin at version 2.0.0 that bundles two dashboards; organization
    1 last synchronized it at 1.0.0, holds an older revision of the first
    dashboard and one dashboard the plugin no longer bundles. *)

Definition app : PluginDTO.t :=
  {| PluginDTO.ID := "app"; PluginDTO.Info := {| Info.Version := "2.0.0" |} |}.

Definition theRegistry : list PluginDTO.t := [app].

Definition theBundle : list Bundled.t :=
  [ {| Bundled.PluginId := "app"; Bundled.Reference := "dashboards/overview.json";
       Bundled.Title := "Overview"; Bundled.Data := "overview-r3"; Bundled.Revision := 3 |};
    {| Bundled.PluginId := "app"; Bundled.Reference := "dashboards/nodes.json";
       Bundled.Title := "Nodes"; Bundled.Data := "nodes-r1"; Bundled.Revision := 1 |} ].

Definition start : World :=
  {| stored :=
       [ {| Stored.Id := 10; Stored.OrgId := 1; Stored.PluginId := "app";
            Stored.Reference := "dashboards/legacy.json"; Stored.Data := "legacy-r1";
            Stored.Revision := 1 |};
         {| Stored.Id := 11; Stored.OrgId := 1; Stored.PluginId := "app";
            Stored.Reference := "dashboards/overview.json"; Stored.Data := "overview-r2";
            Stored.Revision := 2 |} ];
     settings :=
       [ {| PluginSetting.OrgId := 1; PluginSetting.PluginId := "app";
            PluginSetting.Enabled := true; PluginSetting.PluginVersion := "1.0.0" |};
         {| PluginSetting.OrgId := 2; PluginSetting.PluginId := "app";
            PluginSetting.Enabled := false; PluginSetting.PluginVersion := "1.0.0" |};
         {| PluginSetting.OrgId := 1; PluginSetting.PluginId := "gone";
            PluginSetting.Enabled := true; PluginSetting.PluginVersion := "0.1.0" |};
         {| PluginSetting.OrgId := 3; PluginSetting.PluginId := "app";
            PluginSetting.Enabled := true; PluginSetting.PluginVersion := "2.0.0" |} ];
     catalogDown := false; settingsDown := false; settingsReadOnly := false;
     protected := []; rejected := [] |}.

Definition du : DashboardUpdater World := updater theRegistry theBundle.

(** The same installation with one collaborator failing. *)

Definition withFaults (catalog settingsRead settingsWrite : bool)
           (undeletable : list Z) (unimportable : list string) : World :=
  {| stored := stored start; settings := settings start;
     catalogDown := catalog; settingsDown := settingsRead;
     settingsReadOnly := settingsWrite;
     protected := undeletable; rejected := unimportable |}.

Definition catalogOffline : World := withFaults true false false [] [].
Definition settingsOffline : World := withFaults false true false [] [].
Definition settingsFrozen : World := withFaults false false true [] [].
Definition legacyProtected : World := withFaults false false false [10] [].
Definition overviewProtected : World := withFaults false false false [11] [].
Definition overviewRejected : World :=
  withFaults false false false [] ["dashboards/overview.json"].

(** Notifications. *)

Definition enableApp : PluginStateChangedEvent.t :=
  {| PluginStateChangedEvent.PluginId := "app"; PluginStateChangedEvent.OrgId := 1;
     PluginStateChangedEvent.Enabled := true |}.

Definition disableApp : PluginStateChangedEvent.t :=
  {| PluginStateChangedEvent.PluginId := "app"; PluginStateChangedEvent.OrgId := 1;
     PluginStateChangedEvent.Enabled := false |}.

Definition enableGone : PluginStateChangedEvent.t :=
  {| PluginStateChangedEvent.PluginId := "gone"; PluginStateChangedEvent.OrgId := 1;
     PluginStateChangedEvent.Enabled := true |}.

(** A catalog record that is removed and whose revisions differ. *)

Definition staleRemoved : PluginDashboard.t :=
  {| PluginDashboard.PluginId := "app";
     PluginDashboard.Reference := "dashboards/legacy.json";
     PluginDashboard.Slug := "legacy";
     PluginDashboard.DashboardId := 10;
     PluginDashboard.Revision := 2;
     PluginDashboard.ImportedRevision := 1;
     PluginDashboard.Removed := true |}.

(** The import request for the first bundled dashboard in organization 1. *)

Definition overviewImport : ImportDashboardRequest.t :=
  {| ImportDashboardRequest.PluginId := "app";
     ImportDashboardRequest.User :=
       {| SignedInUser.UserId := 0; SignedInUser.OrgRole := ROLE_ADMIN;
          SignedInUser.OrgId := 1 |};
     ImportDashboardRequest.Path := "dashboards/overview.json";
     ImportDashboardRequest.FolderId := 0;
     ImportDashboardRequest.Dashboard := "overview-r3";
     ImportDashboardRequest.Overwrite := true;
     ImportDashboardRequest.Inputs := [] |}.

(** A plugin that bundles no dashboard, and organization 1's setting for it. *)

Definition bare : PluginDTO.t :=
  {| PluginDTO.ID := "bare"; PluginDTO.Info := {| Info.Version := "0.2.0" |} |}.

Definition bareSetting : PluginSetting.t :=
  {| PluginSetting.OrgId := 1; PluginSetting.PluginId := "bare";
     PluginSetting.Enabled := true; PluginSetting.PluginVersion := "0.1.0" |}.

Definition bareWorld : World :=
  {| stored := []; settings := [bareSetting];
     catalogDown := false; settingsDown := false; settingsReadOnly := false;
     protected := []; rejected := [] |}.

End Mem.

(** ** Shapes of traces *)

(** A log line, or a step-2 call that returned no error. *)
Definition okStep2 (ev : Event) : bool :=
  match ev with
  | Logged _ _ _ => true
  | Called c None => isStep2 c
  | Called _ (Some _) => false
  end.

(** Every call that returned an error is directly followed by a log line at
    level [Error]. *)
Fixpoint failuresLogged (tr : list Event) : bool :=
  match tr with
  | [] => true
  | Called _ (Some _) :: rest =>
      match rest with
      | Logged Error _ _ :: _ => failuresLogged rest
      | _ => false
      end
  | _ :: rest => failuresLogged rest
  end.

Section SyncShape.

Variable plugin : PluginDTO.t.
Variable orgID : Z.

Definition syncHeader (err : option error) : list Event :=
  [ Logged Info "Syncing plugin dashboards to DB" [("pluginId", LStr (PluginDTO.ID plugin))];
    Called (CallListPluginDashboards
              {| ListPluginDashboardsRequest.OrgID := orgID;
                 ListPluginDashboardsRequest.PluginID := PluginDTO.ID plugin |}) err ].

Definition settingQuery : GetPluginSettingByIdQuery.t :=
  {| GetPluginSettingByIdQuery.PluginId := PluginDTO.ID plugin;
     GetPluginSettingByIdQuery.OrgId := orgID |}.

Definition versionCmd (appSetting : PluginSetting.t) : UpdatePluginSettingVersionCmd.t :=
  {| UpdatePluginSettingVersionCmd.OrgId := PluginSetting.OrgId appSetting;
     UpdatePluginSettingVersionCmd.PluginId := PluginSetting.PluginId appSetting;
     UpdatePluginSettingVersionCmd.PluginVersion := Info.Version (PluginDTO.Info plugin) |}.

Definition step2Failure (c : Call) (e : error) : list Event :=
  [ Called c (Some e);
    Logged Error "Failed to auto update app dashboard"
           [("pluginId", LStr (PluginDTO.ID plugin)); ("error", LErr e)] ].

(** The five ways a sync pass can go, as the trace it leaves: the catalog
    query failed; a step-2 call failed after the calls of [body] succeeded;
    step 2 succeeded and the settings read failed; the read succeeded and the
    version write failed; everything succeeded. *)
Inductive SyncTrace : list Event -> Prop :=
| CatalogFailed e :
    SyncTrace (syncHeader (Some e)
               ++ [Logged Error "Failed to load app dashboards" [("error", LErr e)]])
| Step2Failed body c e :
    forallb okStep2 body = true -> isStep2 c = true ->
    SyncTrace (syncHeader None ++ body ++ step2Failure c e)
| ReadFailed body e :
    forallb okStep2 body = true ->
    SyncTrace (syncHeader None ++ body
               ++ [Called (CallGetPluginSettingById settingQuery) (Some e);
                   Logged Error "Failed to read plugin setting by ID" [("error", LErr e)]])
| WriteFailed body appSetting e :
    forallb okStep2 body = true ->
    SyncTrace (syncHeader None ++ body
               ++ [Called (CallGetPluginSettingById settingQuery) None;
                   Called (CallUpdatePluginSettingVersion (versionCmd appSetting)) (Some e);
                   Logged Error "Failed to update plugin setting version" [("error", LErr e)]])
| Completed body appSetting :
    forallb okStep2 body = true ->
    SyncTrace (syncHeader None ++ body
               ++ [Called (CallGetPluginSettingById settingQuery) None;
                   Called (CallUpdatePluginSettingVersion (versionCmd appSetting)) None]).

End SyncShape.

(** ** The startup sweep's test, in the specification's words *)

(** A settings row asks for a sync pass when it is enabled, its plugin is in
    the registry, and the registry's version is not the one recorded. *)
Definition needsSync (registry : string -> option PluginDTO.t) (s : PluginSetting.t) : bool :=
  PluginSetting.Enabled s
  && match registry (PluginSetting.PluginId s) with
     | Some p => negb (String.eqb (Info.Version (PluginDTO.Info p)) (PluginSetting.PluginVersion s))
     | None => false
     end.

(** ** Error propagation, as the specification words it *)

(** The handler hands its caller the first error any call returned while it
    handled the notification. *)
Definition PropagatesFirstError {W} (du : DashboardUpdater W)
           (event : PluginStateChangedEvent.t) (w : W) : Prop :=
  forall e, firstError (traceOf (handlePluginStateChanged du event w)) = Some e ->
            valueOf (handlePluginStateChanged du event w) = Some e.

(** The principal and options every import of organization [orgID] is issued
    with. *)
Definition systemImport (orgID : Z) (req : ImportDashboardRequest.t) : Prop :=
  ImportDashboardRequest.User req
  = {| SignedInUser.UserId := 0; SignedInUser.OrgRole := ROLE_ADMIN; SignedInUser.OrgId := orgID |}
  /\ ImportDashboardRequest.FolderId req = 0
  /\ ImportDashboardRequest.Overwrite req = true
  /\ ImportDashboardRequest.Inputs req = [].

(** Two worlds keep the same things in the stores: the same stored dashboards
    and, for every (organization, plugin) pair, the same recorded version. *)
Definition SameStores {W D : Type} (storedOf : W -> D)
           (versionOf : W -> Z -> string -> option string) (w' w : W) : Prop :=
  storedOf w' = storedOf w /\ forall o p, versionOf w' o p = versionOf w o p.

(** The call a recorded deletion stands for, and the record of the successful
    deletion of a stored dashboard. *)
Definition deleteCall (d : Z * Z * option error) : Call :=
  CallDeleteDashboard (fst (fst d)) (snd (fst d)).

Definition deleted (dash : Dashboard.t) : Z * Z * option error :=
  (Dashboard.Id dash, Dashboard.OrgId dash, None).

(** A record that is in sync: not removed, and imported at its revision. *)
Definition inSync (dash : PluginDashboard.t) : bool :=
  negb (PluginDashboard.Removed dash)
  && (PluginDashboard.ImportedRevision dash =? PluginDashboard.Revision dash).

(** ** More readers of traces *)

(** A call that returned an error, whichever call it is. *)
Definition isFailure (ev : Event) : bool := failedCall (fun _ => true) ev.

(** A call of UpdatePluginSettingVersion, whatever it returned. *)
Definition isVersionWriteEvent (ev : Event) : bool :=
  match ev with
  | Called c _ => isVersionWrite c
  | Logged _ _ _ => false
  end.

(** The plugin identifiers looked up in the registry, in order. *)
Fixpoint registryLookups (tr : list Event) : list string :=
  match tr with
  | [] => []
  | Called (CallPlugin pluginID) _ :: tr => pluginID :: registryLookups tr
  | _ :: tr => registryLookups tr
  end.

(** The organization filters the settings list was read with, in order. *)
Fixpoint settingsListings (tr : list Event) : list Z :=
  match tr with
  | [] => []
  | Called (CallGetPluginSettings orgID) _ :: tr => orgID :: settingsListings tr
  | _ :: tr => settingsListings tr
  end.

(** The (plugin, reference) pairs whose payload was loaded successfully. *)
Fixpoint loaded (tr : list Event) : list (string * string) :=
  match tr with
  | [] => []
  | Called (CallLoadPluginDashboard req) None :: tr =>
      (LoadPluginDashboardRequest.PluginID req, LoadPluginDashboardRequest.Reference req)
        :: loaded tr
  | _ :: tr => loaded tr
  end.

(** The (plugin, path) pairs an import was requested for. *)
Definition imported (tr : list Event) : list (string * string) :=
  map (fun req => (ImportDashboardRequest.PluginId req, ImportDashboardRequest.Path req))
      (imports tr).

(** A record step 2 imports: not removed, and imported at another revision
    than its own. *)
Definition stale (dash : PluginDashboard.t) : bool :=
  negb (PluginDashboard.Removed dash)
  && negb (PluginDashboard.ImportedRevision dash =? PluginDashboard.Revision dash).

(** The request the sync pass of [(orgID, plugin)] sends to the catalog. *)
Definition listRequest (plugin : PluginDTO.t) (orgID : Z) : ListPluginDashboardsRequest.t :=
  {| ListPluginDashboardsRequest.OrgID := orgID;
     ListPluginDashboardsRequest.PluginID := PluginDTO.ID plugin |}.

(** The query the disabled branch of the handler sends for an event. *)
Definition teardownQuery (event : PluginStateChangedEvent.t) : GetDashboardsByPluginIdQuery.t :=
  {| GetDashboardsByPluginIdQuery.PluginId := PluginStateChangedEvent.PluginId event;
     GetDashboardsByPluginIdQuery.OrgId := PluginStateChangedEvent.OrgId event |}.

(** The first line the handler logs for an event. *)
Definition stateChangedLine (event : PluginStateChangedEvent.t) : Event :=
  Logged Info "Plugin state changed"
         [("pluginId", LStr (PluginStateChangedEvent.PluginId event));
          ("enabled", LBool (PluginStateChangedEvent.Enabled event))].

(** The example installation with a dashboard store whose lookup by plugin
    fails. *)
Definition lookupDown : DashboardUpdater Mem.World :=
  {| pluginStore := pluginStore Mem.du;
     pluginDashboardService := pluginDashboardService Mem.du;
     dashboardImportService := dashboardImportService Mem.du;
     pluginSettingsService := pluginSettingsService Mem.du;
     dashboardPluginService :=
       {| dashboards.GetDashboardsByPluginID :=
            fun _ w => (Err "dashboard store unavailable", w) |};
     dashboardService := dashboardService Mem.du |}.

(** What the catalog lists for the app plugin in organization 1 of the
    example installation. *)
Definition startRecords : ListPluginDashboardsResponse.t :=
  match fst (plugindashboards.ListPluginDashboards (pluginDashboardService Mem.du)
               (listRequest Mem.app 1) Mem.start) with
  | Ok resp => resp
  | Err _ => {| ListPluginDashboardsResponse.Items := [] |}
  end.

(** The example installation after a sync pass of the app plugin in
    organization 1. *)
Definition synced : Mem.World := worldOf (syncPluginDashboards Mem.du Mem.app 1 Mem.start).

(** The catalog record of the first bundled dashboard in organization 1, and
    the payload the catalog loads for it. *)
Definition overviewRecord : PluginDashboard.t :=
  {| PluginDashboard.PluginId := "app";
     PluginDashboard.Reference := "dashboards/overview.json";
     PluginDashboard.Slug := "dashboards/overview.json";
     PluginDashboard.DashboardId := 11;
     PluginDashboard.Revision := 3;
     PluginDashboard.ImportedRevision := 2;
     PluginDashboard.Removed := false |}.

Definition overviewPayload : LoadPluginDashboardResponse.t :=
  {| LoadPluginDashboardResponse.Dashboard :=
       {| Dashboard.Id := 0; Dashboard.OrgId := 0;
          Dashboard.Slug := "dashboards/overview.json";
          Dashboard.Title := "Overview";
          Dashboard.Data := "overview-r3" |} |}.

(** The request [autoUpdateAppDashboard] builds for a record, an organization
    and the payload loaded for the record. *)
Definition importRequest (pluginDashInfo : PluginDashboard.t) (orgID : Z)
           (resp : LoadPluginDashboardResponse.t) : ImportDashboardRequest.t :=
  {| ImportDashboardRequest.PluginId := PluginDashboard.PluginId pluginDashInfo;
     ImportDashboardRequest.User :=
       {| SignedInUser.UserId := 0; SignedInUser.OrgRole := ROLE_ADMIN;
          SignedInUser.OrgId := orgID |};
     ImportDashboardRequest.Path := PluginDashboard.Reference pluginDashInfo;
     ImportDashboardRequest.FolderId := 0;
     ImportDashboardRequest.Dashboard :=
       Dashboard.Data (LoadPluginDashboardResponse.Dashboard resp);
     ImportDashboardRequest.Overwrite := true;
     ImportDashboardRequest.Inputs := [] |}.

(** The request [autoUpdateAppDashboard] sends to load a record's payload. *)
Definition loadRequest (pluginDashInfo : PluginDashboard.t) : LoadPluginDashboardRequest.t :=
  {| LoadPluginDashboardRequest.PluginID := PluginDashboard.PluginId pluginDashInfo;
     LoadPluginDashboardRequest.Reference := PluginDashboard.Reference pluginDashInfo |}.

(** What [syncPluginDashboards] does from its record loop on: the loop over
    the records, then the final block when the loop ran to its end. *)
Definition restOfPass {W : Type} (du : DashboardUpdater W) (plugin : PluginDTO.t) (orgID : Z)
           (items : list PluginDashboard.t) : Run W unit :=
  finished <- syncDashboards du plugin orgID items ;;
  if finished : bool then markProcessed du plugin orgID else ret tt.

(** The line the sync pass logs before it deletes a removed record, and the
    line it logs when a step-2 call of the pass failed. *)
Definition deletingLine (plugin : PluginDTO.t) (dash : PluginDashboard.t) : Event :=
  Logged Info "Deleting plugin dashboard"
         [("pluginId", LStr (PluginDTO.ID plugin));
          ("dashboard", LStr (PluginDashboard.Slug dash))].

Definition step2ErrorLine (plugin : PluginDTO.t) (e : error) : Event :=
  Logged Error "Failed to auto update app dashboard"
         [("pluginId", LStr (PluginDTO.ID plugin)); ("error", LErr e)].

(** The example installation with a catalog that lists, for every plugin and
    organization, a removed record whose revisions differ followed by the
    record of the first bundled dashboard. *)
Definition staleCatalog : DashboardUpdater Mem.World :=
  {| pluginStore := pluginStore Mem.du;
     pluginDashboardService :=
       {| plugindashboards.ListPluginDashboards :=
            fun _ w => (Ok {| ListPluginDashboardsResponse.Items :=
                                [Mem.staleRemoved; overviewRecord] |}, w);
          plugindashboards.LoadPluginDashboard :=
            plugindashboards.LoadPluginDashboard (pluginDashboardService Mem.du) |};
     dashboardImportService := dashboardImportService Mem.du;
     pluginSettingsService := pluginSettingsService Mem.du;
     dashboardPluginService := dashboardPluginService Mem.du;
     dashboardService := dashboardService Mem.du |}.

(** ** Contracts of the catalog *)

(** A call that writes to the dashboard store: a deletion or an import. *)
Definition isDashboardWrite (c : Call) : bool :=
  match c with
  | CallDeleteDashboard _ _ | CallImportDashboard _ => true
  | _ => false
  end.

(** What is left to bring in sync while the record loop runs: the records
    still to process are listed, none twice, and every listed record is
    either in sync or still to process. *)
Definition LeftToSync {W : Type} (WF : W -> Prop) (catalogOf : W -> list PluginDashboard.t)
           (items : list PluginDashboard.t) (w : W) : Prop :=
  WF w
  /\ NoDup items
  /\ (forall r, In r items -> In r (catalogOf w))
  /\ (forall r, In r (catalogOf w) -> inSync r = true \/ In r items).

(** What the in-memory catalog lists for a plugin in an organization. *)
Definition memCatalog (bundled : list Mem.Bundled.t) (orgID : Z) (pluginID : string)
           (w : Mem.World) : list PluginDashboard.t :=
  map (Mem.bundledRecord w orgID)
      (filter (fun b => String.eqb (Mem.Bundled.PluginId b) pluginID) bundled)
  ++ map Mem.removedRecord (filter (Mem.isOrphan bundled orgID pluginID) (Mem.stored w)).

(** Well-formed in-memory stores: no two stored dashboards share an
    identifier; well-formed bundles: a plugin bundles no reference twice. *)
Definition uniqueIds (w : Mem.World) : Prop := NoDup (map Mem.Stored.Id (Mem.stored w)).

Definition uniqueReferences (bundled : list Mem.Bundled.t) (pluginID : string) : Prop :=
  NoDup (map Mem.Bundled.Reference
             (filter (fun b => String.eqb (Mem.Bundled.PluginId b) pluginID) bundled)).

(** * Properties *)

Unset Implicit Arguments.

(** ** The monad *)

Lemma valueOf_bind {W A B} (m : Run W A) (k : A -> Run W B) (w : W) :
  valueOf (bind m k w) = valueOf (k (valueOf (m w)) (worldOf (m w))).
Proof. reflexivity. Qed.

Lemma worldOf_bind {W A B} (m : Run W A) (k : A -> Run W B) (w : W) :
  worldOf (bind m k w) = worldOf (k (valueOf (m w)) (worldOf (m w))).
Proof. reflexivity. Qed.

Lemma traceOf_bind {W A B} (m : Run W A) (k : A -> Run W B) (w : W) :
  traceOf (bind m k w) = traceOf (m w) ++ traceOf (k (valueOf (m w)) (worldOf (m w))).
Proof. reflexivity. Qed.

Lemma run_call {W R} (c : Call) (errof : R -> option error) (f : W -> R * W) (w : W) :
  call c errof f w = (fst (f w), snd (f w), [Called c (errof (fst (f w)))]).
Proof. unfold call. destruct (f w); reflexivity. Qed.

(** ** Reading traces: concatenation *)

Lemma calls_app (t1 t2 : list Event) : calls (t1 ++ t2) = calls t1 ++ calls t2.
Proof.
  induction t1 as [|[c o|l m x] t1 IH]; simpl; [reflexivity| |assumption].
  now rewrite IH.
Qed.

Lemma deletions_app (t1 t2 : list Event) :
  deletions (t1 ++ t2) = deletions t1 ++ deletions t2.
Proof.
  induction t1 as [|[c o|l m x] t1 IH]; simpl; [reflexivity| |assumption].
  destruct c; simpl; now rewrite IH.
Qed.

Lemma imports_app (t1 t2 : list Event) : imports (t1 ++ t2) = imports t1 ++ imports t2.
Proof.
  induction t1 as [|[c o|l m x] t1 IH]; simpl; [reflexivity| |assumption].
  destruct c; simpl; now rewrite IH.
Qed.

Lemma syncPasses_app (t1 t2 : list Event) :
  syncPasses (t1 ++ t2) = syncPasses t1 ++ syncPasses t2.
Proof.
  induction t1 as [|[c o|l m x] t1 IH]; simpl; [reflexivity| |assumption].
  destruct c; simpl; now rewrite IH.
Qed.

Lemma okStep2_not_failed (p : Call -> bool) (ev : Event) :
  okStep2 ev = true -> failedCall p ev = false.
Proof. destruct ev as [c [e|]|]; simpl; congruence. Qed.

Lemma okStep2_none_failed (p : Call -> bool) (tr : list Event) :
  forallb okStep2 tr = true -> forallb (fun ev => negb (failedCall p ev)) tr = true.
Proof.
  induction tr as [|ev tr IH]; simpl; [reflexivity|].
  intros H. apply andb_true_iff in H. destruct H as [H1 H2].
  rewrite (okStep2_not_failed p ev H1). simpl. auto.
Qed.

Lemma okStep2_firstError (tr rest : list Event) :
  forallb okStep2 tr = true -> firstError (tr ++ rest) = firstError rest.
Proof.
  induction tr as [|[c [e|]|l m x] tr IH]; simpl; intros H;
    try discriminate; try reflexivity.
  - apply andb_true_iff in H. now apply IH.
  - now apply IH.
Qed.

Lemma okStep2_syncPasses (tr : list Event) :
  forallb okStep2 tr = true -> syncPasses tr = [].
Proof.
  induction tr as [|[c [e|]|l m x] tr IH]; simpl; intros H;
    try discriminate; try reflexivity.
  - apply andb_true_iff in H. destruct H as [H1 H2].
    destruct c; simpl in *; try discriminate; auto.
  - auto.
Qed.

Lemma okStep2_failuresLogged (tr rest : list Event) :
  forallb okStep2 tr = true -> failuresLogged (tr ++ rest) = failuresLogged rest.
Proof.
  induction tr as [|[c [e|]|l m x] tr IH]; simpl; intros H;
    try discriminate; try reflexivity.
  - apply andb_true_iff in H. now apply IH.
  - now apply IH.
Qed.

(** ** Splitting a trace at its only failure *)

Lemma no_failure_in (Q : Event -> bool) (l p q : list Event) (y : Event) :
  forallb (fun ev => negb (Q ev)) l = true -> l = p ++ y :: q -> Q y = true -> False.
Proof.
  intros Hall -> Hy. rewrite forallb_app in Hall. simpl in Hall.
  rewrite Hy in Hall. simpl in Hall. now rewrite andb_false_r in Hall.
Qed.

Lemma split_at_failure (Q : Event -> bool) (l1 l2 p q : list Event) (x y : Event) :
  l1 ++ x :: l2 = p ++ y :: q ->
  forallb (fun ev => negb (Q ev)) l1 = true ->
  forallb (fun ev => negb (Q ev)) l2 = true ->
  Q y = true ->
  p = l1 /\ y = x /\ q = l2.
Proof.
  revert p. induction l1 as [|a l1 IH]; intros [|b p] Heq H1 H2 Hy; simpl in *.
  - injection Heq as -> ->. auto.
  - injection Heq as -> ->. exfalso. eapply (no_failure_in Q); eauto.
  - injection Heq as -> _. apply andb_true_iff in H1. destruct H1 as [H1 _].
    rewrite Hy in H1. discriminate.
  - injection Heq as -> Heq. apply andb_true_iff in H1. destruct H1 as [_ H1].
    destruct (IH p Heq H1 H2 Hy) as (-> & -> & ->). auto.
Qed.

(** ** The shape of a sync pass *)

Ltac unfold_calls :=
  unfold GetPluginSettings, Plugin, ListPluginDashboards, LoadPluginDashboard, ImportDashboard,
    DeleteDashboard, GetPluginSettingById, UpdatePluginSettingVersion, GetDashboardsByPluginID,
    call, log in *.

Ltac step_call :=
  match goal with
  | |- context [match ?X with (_, _) => _ end] =>
      let r := fresh "r" in
      let w := fresh "w" in
      let E := fresh "E" in
      destruct X as [r w] eqn:E; cbn
  end.

Section Shape.

Context {W : Type}.
Variable du : DashboardUpdater W.

Lemma autoUpdateAppDashboard_shape (dash : PluginDashboard.t) (orgID : Z) (w : W) :
  let r := autoUpdateAppDashboard du dash orgID w in
  match valueOf r with
  | None => forallb okStep2 (traceOf r) = true
  | Some e => exists body c, forallb okStep2 body = true /\ isStep2 c = true
                             /\ traceOf r = body ++ [Called c (Some e)]
  end.
Proof.
  unfold autoUpdateAppDashboard. unfold_calls. cbn.
  step_call. destruct r as [resp|err]; cbn.
  - step_call. destruct r as [resp'|err]; cbn.
    + reflexivity.
    + eexists [_; _], _. cbn. repeat split; reflexivity.
  - exists [], (CallLoadPluginDashboard
        {| LoadPluginDashboardRequest.PluginID := PluginDashboard.PluginId dash;
           LoadPluginDashboardRequest.Reference := PluginDashboard.Reference dash |}).
    repeat split; reflexivity.
Qed.

Lemma syncDashboard_shape (plugin : PluginDTO.t) (orgID : Z) (dash : PluginDashboard.t) (w : W) :
  let r := syncDashboard du plugin orgID dash w in
  exists body, forallb okStep2 body = true /\
    ((valueOf r = true /\ traceOf r = body) \/
     (valueOf r = false /\ exists c e, isStep2 c = true
                                       /\ traceOf r = body ++ step2Failure plugin c e)).
Proof.
  unfold syncDashboard. destruct (PluginDashboard.Removed dash).
  - unfold_calls. cbn. step_call. destruct r as [err|]; cbn.
    + exists [Logged Info "Deleting plugin dashboard"
                [("pluginId", LStr (PluginDTO.ID plugin));
                 ("dashboard", LStr (PluginDashboard.Slug dash))]].
      split; [reflexivity|]. right. split; [reflexivity|].
      exists (CallDeleteDashboard (PluginDashboard.DashboardId dash) orgID), err.
      split; reflexivity.
    + eexists. split; [|left; split; reflexivity]. reflexivity.
  - destruct (negb _).
    + pose proof (autoUpdateAppDashboard_shape dash orgID w) as H. cbv zeta in H |- *.
      rewrite valueOf_bind, traceOf_bind.
      destruct (valueOf (autoUpdateAppDashboard du dash orgID w)) as [err|].
      * destruct H as (body & c & Hb & Hc & ->). exists body. split; [assumption|].
        right. split; [reflexivity|]. exists c, err. split; [assumption|].
        cbn. now rewrite <- app_assoc.
      * eexists. split; [exact H|]. left. split; [reflexivity|]. cbn. apply app_nil_r.
    + exists []. split; [reflexivity|]. left. split; reflexivity.
Qed.

Lemma syncDashboards_shape (plugin : PluginDTO.t) (orgID : Z)
      (items : list PluginDashboard.t) (w : W) :
  let r := syncDashboards du plugin orgID items w in
  exists body, forallb okStep2 body = true /\
    ((valueOf r = true /\ traceOf r = body) \/
     (valueOf r = false /\ exists c e, isStep2 c = true
                                       /\ traceOf r = body ++ step2Failure plugin c e)).
Proof.
  revert w. induction items as [|dash rest IH]; intros w.
  - exists []. split; [reflexivity|]. left. split; reflexivity.
  - cbv zeta. cbn [syncDashboards]. rewrite valueOf_bind, traceOf_bind.
    destruct (syncDashboard_shape plugin orgID dash w)
      as (b1 & Hb1 & [[Hv Ht]|[Hv (c & e & Hc & Ht)]]); rewrite Hv, Ht.
    + destruct (IH (worldOf (syncDashboard du plugin orgID dash w)))
        as (b2 & Hb2 & [[Hv2 Ht2]|[Hv2 (c & e & Hc & Ht2)]]); rewrite Hv2, Ht2.
      * exists (b1 ++ b2). rewrite forallb_app, Hb1, Hb2. split; [reflexivity|]. left. auto.
      * exists (b1 ++ b2). rewrite forallb_app, Hb1, Hb2. split; [reflexivity|]. right.
        split; [reflexivity|]. exists c, e. split; [assumption|]. now rewrite app_assoc.
    + exists b1. split; [assumption|]. right. split; [reflexivity|]. exists c, e.
      split; [assumption|]. cbn. now rewrite app_nil_r.
Qed.

Lemma markProcessed_trace (plugin : PluginDTO.t) (orgID : Z) (w : W) :
  let tr := traceOf (markProcessed du plugin orgID w) in
  (exists e, tr = [Called (CallGetPluginSettingById (settingQuery plugin orgID)) (Some e);
                   Logged Error "Failed to read plugin setting by ID" [("error", LErr e)]])
  \/ (exists appSetting e,
         tr = [Called (CallGetPluginSettingById (settingQuery plugin orgID)) None;
               Called (CallUpdatePluginSettingVersion (versionCmd plugin appSetting)) (Some e);
               Logged Error "Failed to update plugin setting version" [("error", LErr e)]])
  \/ (exists appSetting,
         tr = [Called (CallGetPluginSettingById (settingQuery plugin orgID)) None;
               Called (CallUpdatePluginSettingVersion (versionCmd plugin appSetting)) None]).
Proof.
  unfold markProcessed. unfold_calls. cbn. step_call. destruct r as [appSetting|err]; cbn.
  - step_call. destruct r as [err|]; cbn.
    + right. left. exists appSetting, err. reflexivity.
    + right. right. exists appSetting. reflexivity.
  - left. exists err. reflexivity.
Qed.

Lemma syncPluginDashboards_trace (plugin : PluginDTO.t) (orgID : Z) (w : W) :
  SyncTrace plugin orgID (traceOf (syncPluginDashboards du plugin orgID w)).
Proof.
  unfold syncPluginDashboards.
  rewrite traceOf_bind, traceOf_bind.
  unfold ListPluginDashboards. rewrite !run_call.
  cbn [log valueOf worldOf traceOf fst snd app].
  destruct (plugindashboards.ListPluginDashboards _ _ w) as [[resp|err] w0];
    cbn [errorOf fst snd].
  - rewrite traceOf_bind.
    destruct (syncDashboards_shape plugin orgID (ListPluginDashboardsResponse.Items resp) w0)
      as (body & Hb & [[Hv Ht]|[Hv (c & e & Hc & Ht)]]); rewrite Hv, Ht.
    + destruct (markProcessed_trace plugin orgID
                  (worldOf (syncDashboards du plugin orgID
                              (ListPluginDashboardsResponse.Items resp) w0)))
        as [(e & ->)|[(s & e & ->)|(s & ->)]].
      * now apply (ReadFailed plugin orgID body e).
      * now apply (WriteFailed plugin orgID body s e).
      * now apply (Completed plugin orgID body s).
    + cbn [ret Monad_Run traceOf snd]. rewrite app_nil_r.
      now apply (Step2Failed plugin orgID body c e).
  - apply (CatalogFailed plugin orgID err).
Qed.

End Shape.

(** ** The world changes only through the recorded calls *)

Section Faithfulness.

Context {W : Type}.
Variable du : DashboardUpdater W.

Lemma replay_app (t1 t2 : list Event) (w : W) :
  replay du (t1 ++ t2) w = replay du t2 (replay du t1 w).
Proof. unfold replay. now rewrite calls_app, fold_left_app. Qed.

Lemma replay_logs (tr : list Event) (w : W) :
  forallb isLog tr = true -> replay du tr w = w.
Proof.
  unfold replay. induction tr as [|[c o|l m x] tr IH]; simpl; intros H;
    try discriminate; auto.
Qed.

Lemma Faithful_ret {A} (a : A) : Faithful du (ret a).
Proof. intros w. reflexivity. Qed.

Lemma Faithful_log (lvl : Level) (msg : string) (ctx : list (string * LogVal)) :
  Faithful du (log lvl msg ctx).
Proof. intros w. reflexivity. Qed.

Lemma Faithful_bind {A B} (m : Run W A) (k : A -> Run W B) :
  Faithful du m -> (forall a, Faithful du (k a)) -> Faithful du (bind m k).
Proof.
  intros Hm Hk w. rewrite worldOf_bind, traceOf_bind, replay_app, <- Hm. apply Hk.
Qed.

Lemma Faithful_call {R} (c : Call) (errof : R -> option error) (f : W -> R * W) :
  (forall w, exec du c w = snd (f w)) -> Faithful du (call c errof f).
Proof. intros H w. rewrite run_call. unfold replay. simpl. now rewrite H. Qed.

Ltac faithful :=
  repeat first
    [ solve [auto]
    | apply Faithful_ret
    | apply Faithful_log
    | apply Faithful_call; reflexivity
    | apply Faithful_bind; [|intros ?]
    | match goal with
      | |- Faithful _ (match ?x with _ => _ end) => destruct x
      | |- Faithful _ (if ?x then _ else _) => destruct x
      end ].

Lemma Faithful_autoUpdateAppDashboard (dash : PluginDashboard.t) (orgID : Z) :
  Faithful du (autoUpdateAppDashboard du dash orgID).
Proof. unfold autoUpdateAppDashboard, LoadPluginDashboard, ImportDashboard. faithful. Qed.

Lemma Faithful_syncDashboard (plugin : PluginDTO.t) (orgID : Z) (dash : PluginDashboard.t) :
  Faithful du (syncDashboard du plugin orgID dash).
Proof.
  pose proof (Faithful_autoUpdateAppDashboard dash orgID).
  unfold syncDashboard, DeleteDashboard. faithful.
Qed.

Lemma Faithful_syncDashboards (plugin : PluginDTO.t) (orgID : Z)
      (items : list PluginDashboard.t) :
  Faithful du (syncDashboards du plugin orgID items).
Proof.
  induction items as [|dash rest IH]; cbn [syncDashboards].
  - apply Faithful_ret.
  - pose proof (Faithful_syncDashboard plugin orgID dash). faithful.
Qed.

Lemma Faithful_markProcessed (plugin : PluginDTO.t) (orgID : Z) :
  Faithful du (markProcessed du plugin orgID).
Proof. unfold markProcessed, GetPluginSettingById, UpdatePluginSettingVersion. faithful. Qed.

Lemma Faithful_syncPluginDashboards (plugin : PluginDTO.t) (orgID : Z) :
  Faithful du (syncPluginDashboards du plugin orgID).
Proof.
  pose proof (Faithful_markProcessed plugin orgID).
  pose proof (Faithful_syncDashboards plugin orgID).
  unfold syncPluginDashboards, ListPluginDashboards. faithful.
Qed.

Lemma Faithful_deleteDashboards (pluginId : string) (result : list Dashboard.t) :
  Faithful du (deleteDashboards du pluginId result).
Proof.
  induction result as [|dash rest IH]; cbn [deleteDashboards].
  - apply Faithful_ret.
  - unfold DeleteDashboard. faithful.
Qed.

Lemma Faithful_handlePluginStateChanged (event : PluginStateChangedEvent.t) :
  Faithful du (handlePluginStateChanged du event).
Proof.
  pose proof Faithful_syncPluginDashboards. pose proof Faithful_deleteDashboards.
  unfold handlePluginStateChanged, Plugin, GetDashboardsByPluginID. faithful.
Qed.

End Faithfulness.

(** ** Failures inside a sync pass *)

Lemma okStep2_calls (tr : list Event) :
  forallb okStep2 tr = true -> forallb isStep2 (calls tr) = true.
Proof.
  induction tr as [|[c [e|]|l m x] tr IH]; simpl; intros H;
    try discriminate; try reflexivity; auto.
  apply andb_true_iff in H. destruct H as [H1 H2]. rewrite H1. simpl. auto.
Qed.

Lemma isStep2_not_versionWrite (cs : list Call) :
  forallb isStep2 cs = true -> forallb (fun c => negb (isVersionWrite c)) cs = true.
Proof.
  induction cs as [|c cs IH]; simpl; [reflexivity|]. intros H.
  apply andb_true_iff in H. destruct H as [H1 H2]. rewrite (IH H2).
  destruct c; simpl in *; congruence.
Qed.

Ltac none_failed :=
  repeat rewrite forallb_app;
  repeat match goal with
         | H : forallb okStep2 ?b = true |- context [forallb _ ?b] =>
             rewrite (okStep2_none_failed _ b H)
         end;
  reflexivity.

(** A failed step-2 call of a sync pass comes right after the catalog query
    and the successful step-2 calls, and only the error's log line follows. *)
Lemma SyncTrace_step2_failure (plugin : PluginDTO.t) (orgID : Z)
      (pre post : list Event) (c : Call) (e : error) :
  SyncTrace plugin orgID (pre ++ Called c (Some e) :: post) ->
  isStep2 c = true ->
  exists body, forallb okStep2 body = true
               /\ pre = syncHeader plugin orgID None ++ body
               /\ Called c (Some e) :: post = step2Failure plugin c e.
Proof.
  intros S Hc.
  assert (HQ : failedCall isStep2 (Called c (Some e)) = true) by exact Hc.
  inversion S as [e0 Heq|body c0 e0 Hb Hc0 Heq|body e0 Hb Heq
                  |body s e0 Hb Heq|body s Hb Heq].
  - exfalso. eapply (@no_failure_in (failedCall isStep2)); [|exact Heq|exact HQ].
    reflexivity.
  - destruct (@split_at_failure (failedCall isStep2)
                (syncHeader plugin orgID None ++ body)
                [Logged Error "Failed to auto update app dashboard"
                        [("pluginId", LStr (PluginDTO.ID plugin)); ("error", LErr e0)]]
                pre post (Called c0 (Some e0)) (Called c (Some e)))
      as (-> & Hev & ->); [exact Heq|none_failed|reflexivity|exact HQ|].
    injection Hev as -> ->. exists body. auto.
  - exfalso. eapply (@no_failure_in (failedCall isStep2)); [|exact Heq|exact HQ].
    change (forallb (fun ev => negb (failedCall isStep2 ev))
                    (syncHeader plugin orgID None ++ body ++ 
                     [Called (CallGetPluginSettingById (settingQuery plugin orgID)) (Some e0);
                      Logged Error "Failed to read plugin setting by ID" [("error", LErr e0)]]) = true).
    none_failed.
  - exfalso. eapply (@no_failure_in (failedCall isStep2)); [|exact Heq|exact HQ].
    change (forallb (fun ev => negb (failedCall isStep2 ev))
                    (syncHeader plugin orgID None ++ body ++
                     [Called (CallGetPluginSettingById (settingQuery plugin orgID)) None;
                      Called (CallUpdatePluginSettingVersion (versionCmd plugin s)) (Some e0);
                      Logged Error "Failed to update plugin setting version" [("error", LErr e0)]]) = true).
    none_failed.
  - exfalso. eapply (@no_failure_in (failedCall isStep2)); [|exact Heq|exact HQ].
    change (forallb (fun ev => negb (failedCall isStep2 ev))
                    (syncHeader plugin orgID None ++ body ++
                     [Called (CallGetPluginSettingById (settingQuery plugin orgID)) None;
                      Called (CallUpdatePluginSettingVersion (versionCmd plugin s)) None]) = true).
    none_failed.
Qed.

(** C1.  In a sync pass, when a step-2 call (the deletion of a removed record,
    or the load or import of a record whose revision changed) returns an
    error, nothing but log lines follows it in the trace: no call is made for
    any later record; the pass never calls UpdatePluginSettingVersion; and the
    world it ends in is the one the failed call left. *)
Theorem sync_step2_failure_stops_pass
        {W : Type} (du : DashboardUpdater W) (plugin : PluginDTO.t) (orgID : Z) (w : W)
        (pre post : list Event) (c : Call) (e : error) :
  traceOf (syncPluginDashboards du plugin orgID w) = pre ++ Called c (Some e) :: post ->
  isStep2 c = true ->
  forallb isLog post = true
  /\ forallb (fun c' => negb (isVersionWrite c'))
             (calls (traceOf (syncPluginDashboards du plugin orgID w))) = true
  /\ worldOf (syncPluginDashboards du plugin orgID w) = exec du c (replay du pre w).
Proof.
  intros Htr Hc.
  pose proof (syncPluginDashboards_trace du plugin orgID w) as S. rewrite Htr in S.
  apply SyncTrace_step2_failure in S; [|exact Hc].
  destruct S as (body & Hb & Hpre & Hpost).
  injection Hpost as Hpost. subst post.
  split; [reflexivity|]. split.
  - rewrite Htr, Hpre, !calls_app. simpl. rewrite forallb_app.
    rewrite (isStep2_not_versionWrite _ (okStep2_calls _ Hb)). simpl.
    destruct c; simpl in *; congruence.
  - rewrite (Faithful_syncPluginDashboards du plugin orgID w), Htr.
    rewrite replay_app. reflexivity.
Qed.

Lemma isStep2_filter_versionWrite (cs : list Call) :
  forallb isStep2 cs = true -> filter isVersionWrite cs = [].
Proof.
  induction cs as [|c cs IH]; simpl; [reflexivity|]. intros H.
  apply andb_true_iff in H. destruct H as [H1 H2].
  destruct c; simpl in *; try discriminate; auto.
Qed.

(** A failed settings call of a sync pass is either the read, right after
    step 2, or the write, right after the read; only the error's log line
    follows it. *)
Lemma SyncTrace_settings_failure (plugin : PluginDTO.t) (orgID : Z)
      (pre post : list Event) (c : Call) (e : error) :
  SyncTrace plugin orgID (pre ++ Called c (Some e) :: post) ->
  isSettingsCall c = true ->
  exists body,
    forallb okStep2 body = true
    /\ forallb isLog post = true
    /\ ((pre = syncHeader plugin orgID None ++ body
         /\ c = CallGetPluginSettingById (settingQuery plugin orgID))
        \/ (exists appSetting,
               pre = syncHeader plugin orgID None ++ body
                     ++ [Called (CallGetPluginSettingById (settingQuery plugin orgID)) None]
               /\ c = CallUpdatePluginSettingVersion (versionCmd plugin appSetting))).
Proof.
  intros S Hc.
  assert (HQ : failedCall isSettingsCall (Called c (Some e)) = true) by exact Hc.
  inversion S as [e0 Heq|body c0 e0 Hb Hc0 Heq|body e0 Hb Heq
                  |body s e0 Hb Heq|body s Hb Heq].
  - exfalso. eapply (@no_failure_in (failedCall isSettingsCall)); [|exact Heq|exact HQ].
    reflexivity.
  - exfalso. eapply (@no_failure_in (failedCall isSettingsCall)); [|exact Heq|exact HQ].
    change (forallb (fun ev => negb (failedCall isSettingsCall ev))
                    (syncHeader plugin orgID None ++ body ++ step2Failure plugin c0 e0) = true).
    repeat rewrite forallb_app. rewrite (okStep2_none_failed _ body Hb).
    destruct c0; simpl in *; congruence.
  - destruct (@split_at_failure (failedCall isSettingsCall)
                (syncHeader plugin orgID None ++ body)
                [Logged Error "Failed to read plugin setting by ID" [("error", LErr e0)]]
                pre post
                (Called (CallGetPluginSettingById (settingQuery plugin orgID)) (Some e0))
                (Called c (Some e)))
      as (-> & Hev & ->); [exact Heq|none_failed|reflexivity|exact HQ|].
    injection Hev as -> ->. exists body. auto.
  - destruct (@split_at_failure (failedCall isSettingsCall)
                (syncHeader plugin orgID None ++ body
                 ++ [Called (CallGetPluginSettingById (settingQuery plugin orgID)) None])
                [Logged Error "Failed to update plugin setting version" [("error", LErr e0)]]
                pre post
                (Called (CallUpdatePluginSettingVersion (versionCmd plugin s)) (Some e0))
                (Called c (Some e)))
      as (-> & Hev & ->); [|none_failed|reflexivity|exact HQ|].
    + rewrite <- Heq. simpl. now rewrite <- app_assoc.
    + injection Hev as -> ->. exists body. split; [assumption|]. split; [reflexivity|].
      right. exists s. auto.
  - exfalso. eapply (@no_failure_in (failedCall isSettingsCall)); [|exact Heq|exact HQ].
    change (forallb (fun ev => negb (failedCall isSettingsCall ev))
                    (syncHeader plugin orgID None ++ body ++
                     [Called (CallGetPluginSettingById (settingQuery plugin orgID)) None;
                      Called (CallUpdatePluginSettingVersion (versionCmd plugin s)) None]) = true).
    none_failed.
Qed.

(** C9.  In a sync pass, when the final read of the plugin setting or the
    write of the new version returns an error, every step-2 call before it
    had succeeded, only log lines follow it (no call undoes a deletion or an
    import, and the write is not tried again: the pass makes at most one
    version write), and the world the pass ends in is the one the failed call
    left, with the effects of step 2 in place. *)
Theorem sync_settings_failure_keeps_step2
        {W : Type} (du : DashboardUpdater W) (plugin : PluginDTO.t) (orgID : Z) (w : W)
        (pre post : list Event) (c : Call) (e : error) :
  traceOf (syncPluginDashboards du plugin orgID w) = pre ++ Called c (Some e) :: post ->
  isSettingsCall c = true ->
  firstError pre = None
  /\ forallb isLog post = true
  /\ (List.length (filter isVersionWrite
                     (calls (traceOf (syncPluginDashboards du plugin orgID w)))) <= 1)%nat
  /\ deletions (traceOf (syncPluginDashboards du plugin orgID w)) = deletions pre
  /\ imports (traceOf (syncPluginDashboards du plugin orgID w)) = imports pre
  /\ worldOf (syncPluginDashboards du plugin orgID w) = exec du c (replay du pre w).
Proof.
  intros Htr Hc.
  pose proof (syncPluginDashboards_trace du plugin orgID w) as S. rewrite Htr in S.
  apply SyncTrace_settings_failure in S; [|exact Hc].
  destruct S as (body & Hb & Hpost & Hshape).
  assert (Hw : worldOf (syncPluginDashboards du plugin orgID w) = exec du c (replay du pre w)).
  { rewrite (Faithful_syncPluginDashboards du plugin orgID w), Htr.
    rewrite replay_app. unfold replay at 1. simpl.
    change (replay du post (exec du c (replay du pre w)) = exec du c (replay du pre w)).
    now apply replay_logs. }
  assert (Hd : forall l, forallb isLog l = true -> deletions l = [] /\ imports l = []
                         /\ calls l = []).
  { induction l as [|[c0 o|l0 m x] l IH]; simpl; intros H; try discriminate; auto. }
  destruct (Hd post Hpost) as (Hd1 & Hd2 & Hd3).
  assert (Hdc : deletions (Called c (Some e) :: post) = []
                /\ imports (Called c (Some e) :: post) = []).
  { destruct c; simpl in *; try discriminate; auto. }
  destruct Hdc as [Hdc1 Hdc2].
  assert (Hn : filter isVersionWrite (calls (syncHeader plugin orgID None ++ body)) = []).
  { rewrite calls_app. simpl. now apply isStep2_filter_versionWrite, okStep2_calls. }
  rewrite Htr, deletions_app, imports_app, Hdc1, Hdc2, !app_nil_r, calls_app, filter_app.
  change (calls (Called c (Some e) :: post)) with (c :: calls post). rewrite Hd3.
  split; [|split; [assumption|split; [|auto]]].
  - destruct Hshape as [[-> _]|(s & -> & _)].
    + pose proof (okStep2_firstError body [] Hb) as X. rewrite app_nil_r in X. exact X.
    + simpl. rewrite okStep2_firstError by assumption. reflexivity.
  - destruct Hshape as [[-> ->]|(s & -> & ->)].
    + rewrite Hn. simpl. lia.
    + rewrite app_assoc, calls_app, filter_app, Hn. simpl. lia.
Qed.

(** ** What step 2 does with a record *)

Section Step2.

Context {W : Type}.
Variable du : DashboardUpdater W.

Lemma autoUpdateAppDashboard_imports (dash : PluginDashboard.t) (orgID : Z) (w : W) :
  Forall (fun req => systemImport orgID req
                     /\ ImportDashboardRequest.PluginId req = PluginDashboard.PluginId dash
                     /\ ImportDashboardRequest.Path req = PluginDashboard.Reference dash)
         (imports (traceOf (autoUpdateAppDashboard du dash orgID w)))
  /\ deletions (traceOf (autoUpdateAppDashboard du dash orgID w)) = [].
Proof.
  unfold autoUpdateAppDashboard. unfold_calls. cbn.
  step_call. destruct r as [resp|err]; cbn.
  - step_call. split; [|reflexivity]. constructor; [|constructor].
    unfold systemImport. cbn. auto 6.
  - split; [constructor|reflexivity].
Qed.

Lemma syncDashboard_removed (plugin : PluginDTO.t) (orgID : Z) (dash : PluginDashboard.t) (w : W) :
  PluginDashboard.Removed dash = true ->
  calls (traceOf (syncDashboard du plugin orgID dash w))
  = [CallDeleteDashboard (PluginDashboard.DashboardId dash) orgID].
Proof.
  intros H. unfold syncDashboard. rewrite H. unfold_calls. cbn.
  step_call. destruct r; reflexivity.
Qed.

Lemma syncDashboard_imports (plugin : PluginDTO.t) (orgID : Z) (dash : PluginDashboard.t) (w : W) :
  Forall (fun req => systemImport orgID req
                     /\ PluginDashboard.Removed dash = false
                     /\ PluginDashboard.ImportedRevision dash <> PluginDashboard.Revision dash
                     /\ ImportDashboardRequest.PluginId req = PluginDashboard.PluginId dash
                     /\ ImportDashboardRequest.Path req = PluginDashboard.Reference dash)
         (imports (traceOf (syncDashboard du plugin orgID dash w))).
Proof.
  unfold syncDashboard. destruct (PluginDashboard.Removed dash) eqn:Hrem.
  - unfold_calls. cbn. step_call. destruct r; constructor.
  - destruct (Z.eqb_spec (PluginDashboard.ImportedRevision dash)
                         (PluginDashboard.Revision dash)) as [Heq|Hne]; cbn [negb].
    + constructor.
    + rewrite traceOf_bind, imports_app.
      destruct (autoUpdateAppDashboard_imports dash orgID w) as [Hi _].
      apply Forall_app. split.
      * eapply Forall_impl; [|exact Hi]. cbv beta. intros req (H1 & H2 & H3). auto 6.
      * destruct (valueOf _); constructor.
Qed.

Lemma syncDashboards_imports (plugin : PluginDTO.t) (orgID : Z)
      (items : list PluginDashboard.t) (w : W) :
  Forall (fun req => systemImport orgID req
                     /\ exists dash, In dash items
                          /\ PluginDashboard.Removed dash = false
                          /\ PluginDashboard.ImportedRevision dash <> PluginDashboard.Revision dash
                          /\ ImportDashboardRequest.PluginId req = PluginDashboard.PluginId dash
                          /\ ImportDashboardRequest.Path req = PluginDashboard.Reference dash)
         (imports (traceOf (syncDashboards du plugin orgID items w))).
Proof.
  revert w. induction items as [|dash rest IH]; intros w; cbn [syncDashboards].
  - constructor.
  - rewrite traceOf_bind, imports_app. apply Forall_app. split.
    + eapply Forall_impl; [|apply syncDashboard_imports]. cbv beta.
      intros req (H1 & H2). split; [assumption|]. exists dash. split; [now left|assumption].
    + destruct (valueOf _); [|constructor].
      eapply Forall_impl; [|apply IH]. cbv beta.
      intros req (H1 & dash' & Hin & H2). split; [assumption|].
      exists dash'. split; [now right|assumption].
Qed.

End Step2.

(** C10.  Every import request issued during a sync pass for organization
    [orgID] carries the signed-in user with identifier 0, role Admin and that
    organization, folder identifier 0, overwrite set, and no inputs. *)
Theorem sync_imports_as_org_admin
        {W : Type} (du : DashboardUpdater W) (plugin : PluginDTO.t) (orgID : Z) (w : W) :
  Forall (fun req =>
            ImportDashboardRequest.User req
            = {| SignedInUser.UserId := 0; SignedInUser.OrgRole := ROLE_ADMIN;
                 SignedInUser.OrgId := orgID |}
            /\ ImportDashboardRequest.FolderId req = 0
            /\ ImportDashboardRequest.Overwrite req = true
            /\ ImportDashboardRequest.Inputs req = [])
         (imports (traceOf (syncPluginDashboards du plugin orgID w))).
Proof.
  change (Forall (systemImport orgID)
                 (imports (traceOf (syncPluginDashboards du plugin orgID w)))).
  unfold syncPluginDashboards.
  rewrite traceOf_bind, traceOf_bind.
  unfold ListPluginDashboards. rewrite !run_call.
  cbn [log valueOf worldOf traceOf fst snd app].
  destruct (plugindashboards.ListPluginDashboards _ _ w) as [[resp|err] w0];
    cbn [errorOf fst snd imports]; [|constructor].
  rewrite traceOf_bind, imports_app. apply Forall_app. split.
  - eapply Forall_impl; [|apply syncDashboards_imports]. cbv beta. now intros req [H _].
  - destruct (valueOf _); [|constructor].
    destruct (markProcessed_trace du plugin orgID
                (worldOf (syncDashboards du plugin orgID
                            (ListPluginDashboardsResponse.Items resp) w0)))
      as [(e & ->)|[(s & e & ->)|(s & ->)]]; constructor.
Qed.

(** ** Passes over nothing, and notifications *)

(** C8.  When the catalog lists no dashboard record for the plugin, the sync
    pass makes no deletion and no import, goes on to read the plugin setting
    and, the read having succeeded, calls UpdatePluginSettingVersion once, for
    the setting read and with the plugin's current version; the pass ends in
    the world that write leaves. *)
Theorem sync_of_no_records_writes_version
        {W : Type} (du : DashboardUpdater W) (plugin : PluginDTO.t) (orgID : Z)
        (w w1 w2 : W) (appSetting : PluginSetting.t) :
  plugindashboards.ListPluginDashboards (pluginDashboardService du)
    {| ListPluginDashboardsRequest.OrgID := orgID;
       ListPluginDashboardsRequest.PluginID := PluginDTO.ID plugin |} w
  = (Ok {| ListPluginDashboardsResponse.Items := [] |}, w1) ->
  pluginsettings.GetPluginSettingById (pluginSettingsService du)
    {| GetPluginSettingByIdQuery.PluginId := PluginDTO.ID plugin;
       GetPluginSettingByIdQuery.OrgId := orgID |} w1
  = (Ok appSetting, w2) ->
  let r := syncPluginDashboards du plugin orgID w in
  let cmd := {| UpdatePluginSettingVersionCmd.OrgId := PluginSetting.OrgId appSetting;
                UpdatePluginSettingVersionCmd.PluginId := PluginSetting.PluginId appSetting;
                UpdatePluginSettingVersionCmd.PluginVersion :=
                  Info.Version (PluginDTO.Info plugin) |} in
  deletions (traceOf r) = []
  /\ imports (traceOf r) = []
  /\ calls (traceOf r)
     = [ CallListPluginDashboards
           {| ListPluginDashboardsRequest.OrgID := orgID;
              ListPluginDashboardsRequest.PluginID := PluginDTO.ID plugin |};
         CallGetPluginSettingById
           {| GetPluginSettingByIdQuery.PluginId := PluginDTO.ID plugin;
              GetPluginSettingByIdQuery.OrgId := orgID |};
         CallUpdatePluginSettingVersion cmd ]
  /\ worldOf r
     = snd (pluginsettings.UpdatePluginSettingVersion (pluginSettingsService du) cmd w2).
Proof.
  intros Hlist Hget. cbv zeta.
  unfold syncPluginDashboards, markProcessed. unfold_calls. cbn.
  rewrite Hlist. cbn. rewrite Hget. cbn.
  destruct (pluginsettings.UpdatePluginSettingVersion _ _ w2) as [[err|] w3]; cbn; auto.
Qed.

(** C7.  An enabled notification whose plugin the registry does not know makes
    the handler return the error "plugin <id> not found. Could not sync plugin
    dashboards"; the only call it made is the registry lookup, so no deletion,
    import or settings write happened, and the world is the one the lookup
    left. *)
Theorem enable_unknown_plugin_not_found
        {W : Type} (du : DashboardUpdater W) (event : PluginStateChangedEvent.t) (w : W) :
  PluginStateChangedEvent.Enabled event = true ->
  fst (plugins.Plugin (pluginStore du) (PluginStateChangedEvent.PluginId event) w) = None ->
  let r := handlePluginStateChanged du event w in
  valueOf r = Some (pluginNotFound (PluginStateChangedEvent.PluginId event))
  /\ calls (traceOf r) = [CallPlugin (PluginStateChangedEvent.PluginId event)]
  /\ forallb (fun c => negb (isMutation c)) (calls (traceOf r)) = true
  /\ worldOf r
     = snd (plugins.Plugin (pluginStore du) (PluginStateChangedEvent.PluginId event) w).
Proof.
  intros Hen Hno. cbv zeta. unfold handlePluginStateChanged. rewrite Hen.
  unfold_calls. cbn.
  destruct (plugins.Plugin _ _ w) as [found w1]. cbn in *. subst found. cbn. auto.
Qed.

(** ** The teardown pass *)

Lemma deleteDashboards_trace {W : Type} (du : DashboardUpdater W)
      (pluginId : string) (result : list Dashboard.t) (w : W) :
  let r := deleteDashboards du pluginId result w in
  calls (traceOf r) = map deleteCall (deletions (traceOf r))
  /\ valueOf r = firstError (traceOf r)
  /\ ((valueOf r = None /\ deletions (traceOf r) = map deleted result)
      \/ (exists done dash rest e,
             result = done ++ dash :: rest
             /\ valueOf r = Some e
             /\ deletions (traceOf r)
                = map deleted done ++ [(Dashboard.Id dash, Dashboard.OrgId dash, Some e)])).
Proof.
  revert w. induction result as [|dash rest IH]; intros w; cbv zeta.
  - cbn. split; [reflexivity|]. split; [reflexivity|]. left. split; reflexivity.
  - cbn [deleteDashboards]. unfold DeleteDashboard, call, log.
    rewrite valueOf_bind, traceOf_bind. cbn [valueOf worldOf traceOf fst snd app].
    rewrite valueOf_bind, traceOf_bind.
    destruct (dashboards.DeleteDashboard _ _ _ w) as [[err|] w1];
      cbn [valueOf worldOf traceOf fst snd app calls deletions firstError map deleteCall].
    + split; [reflexivity|]. split; [reflexivity|]. right.
      exists [], dash, rest, err. repeat split; reflexivity.
    + destruct (IH w1) as (Hc & Hv & Hd). rewrite Hc, Hv. split; [reflexivity|].
      split; [reflexivity|].
      destruct Hd as [[Hn Hd]|(done & d & rest' & e & Hres & He & Hd)].
      * left. rewrite <- Hv, Hn, Hd. split; reflexivity.
      * right. exists (dash :: done), d, rest', e. rewrite <- Hv, He, Hd, Hres.
        repeat split; reflexivity.
Qed.

(** C3.  On a disabled notification, once the lookup of the plugin's stored
    dashboards has returned its N dashboards, the handler's calls are that
    lookup and deletions only (no load, no import).  Either every deletion
    succeeded: then there is one deletion per stored dashboard, in order, N in
    all, and the handler returns nil.  Or a deletion failed: then it is the
    last call made, the dashboards before it were deleted, the ones after it
    were not touched, and its error is returned.  In both cases the world the
    handler ends in is the one its recorded calls leave: nothing is undone. *)
Theorem disable_deletes_stored_dashboards
        {W : Type} (du : DashboardUpdater W) (event : PluginStateChangedEvent.t) (w w1 : W)
        (result : list Dashboard.t) :
  PluginStateChangedEvent.Enabled event = false ->
  dashboards.GetDashboardsByPluginID (dashboardPluginService du)
    {| GetDashboardsByPluginIdQuery.PluginId := PluginStateChangedEvent.PluginId event;
       GetDashboardsByPluginIdQuery.OrgId := PluginStateChangedEvent.OrgId event |} w
  = (Ok result, w1) ->
  let r := handlePluginStateChanged du event w in
  calls (traceOf r)
  = CallGetDashboardsByPluginID
      {| GetDashboardsByPluginIdQuery.PluginId := PluginStateChangedEvent.PluginId event;
         GetDashboardsByPluginIdQuery.OrgId := PluginStateChangedEvent.OrgId event |}
      :: map deleteCall (deletions (traceOf r))
  /\ imports (traceOf r) = []
  /\ ((valueOf r = None
       /\ deletions (traceOf r) = map deleted result
       /\ List.length (deletions (traceOf r)) = List.length result)
      \/ (exists done dash rest e,
             result = done ++ dash :: rest
             /\ valueOf r = Some e
             /\ deletions (traceOf r)
                = map deleted done ++ [(Dashboard.Id dash, Dashboard.OrgId dash, Some e)]))
  /\ worldOf r = replay du (traceOf r) w.
Proof.
  intros Hdis Hget. cbv zeta.
  assert (Hw := Faithful_handlePluginStateChanged du event w).
  assert (Hcalls : calls (traceOf (handlePluginStateChanged du event w))
                   = CallGetDashboardsByPluginID
                       {| GetDashboardsByPluginIdQuery.PluginId :=
                            PluginStateChangedEvent.PluginId event;
                          GetDashboardsByPluginIdQuery.OrgId :=
                            PluginStateChangedEvent.OrgId event |}
                       :: map deleteCall (deletions (traceOf (handlePluginStateChanged du event w)))
                   /\ valueOf (handlePluginStateChanged du event w)
                      = valueOf (deleteDashboards du (PluginStateChangedEvent.PluginId event) result w1)
                   /\ deletions (traceOf (handlePluginStateChanged du event w))
                      = deletions (traceOf (deleteDashboards du
                                              (PluginStateChangedEvent.PluginId event) result w1))).
  { unfold handlePluginStateChanged. rewrite Hdis.
    unfold GetDashboardsByPluginID, call, log.
    rewrite !traceOf_bind, !valueOf_bind. cbn [valueOf worldOf traceOf fst snd app].
    rewrite Hget. cbn [valueOf worldOf traceOf fst snd app calls deletions errorOf].
    destruct (deleteDashboards_trace du (PluginStateChangedEvent.PluginId event) result w1)
      as (Hc & _). cbv zeta in Hc. rewrite Hc. auto. }
  destruct Hcalls as (Hc & Hv & Hd).
  split; [exact Hc|]. split.
  - assert (Hi : forall tr cs, calls tr = cs -> forallb (fun c => negb (isImport c)) cs = true ->
                               imports tr = []).
    { induction tr as [|[c o|l m x] tr IH]; simpl; intros cs Hcs Hall; auto.
      - subst cs. simpl in Hall. apply andb_true_iff in Hall. destruct Hall as [H1 H2].
        destruct c; simpl in *; try discriminate; eauto.
      - eauto. }
    apply (Hi _ _ Hc). simpl. rewrite forallb_forall. intros c Hin.
    apply in_map_iff in Hin. destruct Hin as (d & <- & _). reflexivity.
  - split; [|exact Hw].
    destruct (deleteDashboards_trace du (PluginStateChangedEvent.PluginId event) result w1)
      as (_ & _ & Hcase). cbv zeta in Hcase. rewrite Hv, Hd.
    destruct Hcase as [[Hn Hdel]|Hfail].
    + left. rewrite Hdel, length_map. auto.
    + right. exact Hfail.
Qed.

(** ** What the handler returns *)

Lemma SyncTrace_failuresLogged (plugin : PluginDTO.t) (orgID : Z) (tr : list Event) :
  SyncTrace plugin orgID tr -> failuresLogged tr = true.
Proof.
  intros S. destruct S as [e|body c e Hb Hc|body e Hb|body s e Hb|body s Hb];
    try reflexivity;
    unfold syncHeader; cbn [app failuresLogged];
    rewrite (okStep2_failuresLogged body _ Hb); reflexivity.
Qed.

(** C2, as the code has it.  The handler returns an error in two cases only.
    On a disabled notification it returns the first error a call returned
    (the lookup of the stored dashboards, or a deletion), nil when none did.
    On an enabled notification it returns the not-found error when the
    registry does not know the plugin; when it does, the handler runs the sync
    pass and returns nil whatever happened in the pass: a call that failed
    there is followed by a log line at level Error, and the error goes no
    further. *)
Theorem handler_returns_teardown_errors_only
        {W : Type} (du : DashboardUpdater W) (event : PluginStateChangedEvent.t) (w : W) :
  let r := handlePluginStateChanged du event w in
  if PluginStateChangedEvent.Enabled event then
    match fst (plugins.Plugin (pluginStore du) (PluginStateChangedEvent.PluginId event) w) with
    | None => valueOf r = Some (pluginNotFound (PluginStateChangedEvent.PluginId event))
    | Some _ => valueOf r = None /\ failuresLogged (traceOf r) = true
    end
  else valueOf r = firstError (traceOf r).
Proof.
  cbv zeta. unfold handlePluginStateChanged.
  destruct (PluginStateChangedEvent.Enabled event).
  - unfold Plugin, call, log. rewrite !valueOf_bind, !traceOf_bind.
    cbn [valueOf worldOf traceOf fst snd app].
    destruct (plugins.Plugin _ _ w) as [[p|] w1]; cbn [valueOf worldOf traceOf fst snd app].
    + split; [reflexivity|]. rewrite traceOf_bind. cbn [ret Monad_Run traceOf snd].
      rewrite app_nil_r. cbn [failuresLogged].
      apply (SyncTrace_failuresLogged _ _ _ (syncPluginDashboards_trace du p _ w1)).
    + reflexivity.
  - unfold GetDashboardsByPluginID, call, log. rewrite !valueOf_bind, !traceOf_bind.
    cbn [valueOf worldOf traceOf fst snd app].
    destruct (dashboards.GetDashboardsByPluginID _ _ w) as [[result|err] w1];
      cbn [valueOf worldOf traceOf fst snd app errorOf firstError].
    + destruct (deleteDashboards_trace du (PluginStateChangedEvent.PluginId event) result w1)
        as (_ & Hv & _). exact Hv.
    + reflexivity.
Qed.

(** ** The startup sweep *)

Lemma syncPluginDashboards_syncPasses {W : Type} (du : DashboardUpdater W)
      (plugin : PluginDTO.t) (orgID : Z) (w : W) :
  syncPasses (traceOf (syncPluginDashboards du plugin orgID w)) = [(orgID, PluginDTO.ID plugin)].
Proof.
  destruct (syncPluginDashboards_trace du plugin orgID w)
    as [e|body c e Hb Hc|body e Hb|body s e Hb|body s Hb];
    try reflexivity;
    unfold syncHeader; cbn [app syncPasses ListPluginDashboardsRequest.OrgID
                                ListPluginDashboardsRequest.PluginID];
    rewrite syncPasses_app, (okStep2_syncPasses _ Hb); try reflexivity.
  destruct c; simpl in *; try discriminate; reflexivity.
Qed.

Section StartupSweep.

Context {W : Type}.
Variable du : DashboardUpdater W.

(** The registry answers by plugin identifier, the same way in every world,
    with the descriptor of the plugin asked for. *)
Variable registry : string -> option PluginDTO.t.
Hypothesis registry_stable :
  forall id w, fst (plugins.Plugin (pluginStore du) id w) = registry id.
Hypothesis registry_keyed :
  forall id p, registry id = Some p -> PluginDTO.ID p = id.

Lemma updateAppDashboard_trace (s : PluginSetting.t) (w : W) :
  traceOf (updateAppDashboard du s w)
  = if PluginSetting.Enabled s then
      Called (CallPlugin (PluginSetting.PluginId s)) None
        :: match registry (PluginSetting.PluginId s) with
           | Some p =>
               if String.eqb (Info.Version (PluginDTO.Info p)) (PluginSetting.PluginVersion s)
               then []
               else traceOf (syncPluginDashboards du p (PluginSetting.OrgId s)
                               (snd (plugins.Plugin (pluginStore du)
                                                    (PluginSetting.PluginId s) w)))
           | None => []
           end
    else [].
Proof.
  unfold updateAppDashboard. destruct (PluginSetting.Enabled s); cbn [negb]; [|reflexivity].
  unfold Plugin. rewrite traceOf_bind, run_call. cbn [valueOf worldOf traceOf fst snd app].
  rewrite registry_stable. destruct (registry (PluginSetting.PluginId s)) as [p|];
    [|reflexivity].
  destruct (String.eqb _ _); reflexivity.
Qed.

Lemma updateAppDashboard_syncPasses (s : PluginSetting.t) (w : W) :
  syncPasses (traceOf (updateAppDashboard du s w))
  = if needsSync registry s
    then [(PluginSetting.OrgId s, PluginSetting.PluginId s)] else [].
Proof.
  rewrite updateAppDashboard_trace. unfold needsSync.
  destruct (PluginSetting.Enabled s); cbn [andb syncPasses]; [|reflexivity].
  destruct (registry (PluginSetting.PluginId s)) as [p|] eqn:Hp; [|reflexivity].
  destruct (String.eqb _ _); cbn [negb]; [reflexivity|].
  rewrite syncPluginDashboards_syncPasses. now rewrite (registry_keyed _ _ Hp).
Qed.

Lemma forEachSetting_syncPasses (rows : list PluginSetting.t) (w : W) :
  syncPasses (traceOf (forEachSetting du rows w))
  = map (fun s => (PluginSetting.OrgId s, PluginSetting.PluginId s))
        (filter (needsSync registry) rows).
Proof.
  revert w. induction rows as [|s rows IH]; intros w; [reflexivity|].
  cbn [forEachSetting filter]. rewrite traceOf_bind, syncPasses_app.
  rewrite updateAppDashboard_syncPasses, IH.
  destruct (needsSync registry s); reflexivity.
Qed.

(** C5.  Once the sweep has read the settings rows, the sync passes it starts
    are, in order, exactly those of the rows that are enabled, whose plugin
    the registry knows, and whose recorded version differs from the
    registry's; each for the row's (organization, plugin) pair.  A row whose
    plugin the registry does not know, or whose recorded version is the
    registry's, leaves at most the registry lookup in the trace: no sync
    pass, no log line, no error. *)
Theorem sweep_syncs_outdated_enabled_plugins
        (w w1 : W) (rows : list PluginSetting.t) :
  pluginsettings.GetPluginSettings (pluginSettingsService du) 0 w = (Ok rows, w1) ->
  syncPasses (traceOf (updateAppDashboards du w))
  = map (fun s => (PluginSetting.OrgId s, PluginSetting.PluginId s))
        (filter (needsSync registry) rows)
  /\ (forall orgID pluginID,
        In (orgID, pluginID) (syncPasses (traceOf (updateAppDashboards du w)))
        <-> exists s, In s rows
                      /\ PluginSetting.OrgId s = orgID
                      /\ PluginSetting.PluginId s = pluginID
                      /\ PluginSetting.Enabled s = true
                      /\ exists p, registry pluginID = Some p
                                   /\ Info.Version (PluginDTO.Info p)
                                      <> PluginSetting.PluginVersion s)
  /\ (forall s w',
        needsSync registry s = false ->
        traceOf (updateAppDashboard du s w')
        = if PluginSetting.Enabled s
          then [Called (CallPlugin (PluginSetting.PluginId s)) None] else []).
Proof.
  intros Hget.
  assert (Hsweep : syncPasses (traceOf (updateAppDashboards du w))
                   = map (fun s => (PluginSetting.OrgId s, PluginSetting.PluginId s))
                         (filter (needsSync registry) rows)).
  { unfold updateAppDashboards, GetPluginSettings, log.
    rewrite !traceOf_bind. unfold call. cbn [log valueOf worldOf traceOf fst snd].
    rewrite Hget. cbn [valueOf worldOf traceOf fst snd app syncPasses errorOf].
    apply forEachSetting_syncPasses. }
  split; [exact Hsweep|]. split.
  - intros orgID pluginID. rewrite Hsweep, in_map_iff. split.
    + intros (s & Hkey & Hf). apply filter_In in Hf. destruct Hf as [Hin Hneed].
      injection Hkey as <- <-. exists s.
      unfold needsSync in Hneed. apply andb_true_iff in Hneed. destruct Hneed as [Hen Hneed].
      repeat split; auto.
      destruct (registry (PluginSetting.PluginId s)) as [p|]; [|discriminate].
      exists p. split; [reflexivity|]. intros Heq. rewrite Heq, String.eqb_refl in Hneed.
      discriminate.
    + intros (s & Hin & <- & <- & Hen & p & Hp & Hne). exists s. split; [reflexivity|].
      apply filter_In. split; [assumption|]. unfold needsSync. rewrite Hen, Hp.
      cbn [andb]. destruct (String.eqb_spec (Info.Version (PluginDTO.Info p))
                                            (PluginSetting.PluginVersion s));
        [contradiction|reflexivity].
  - intros s w' Hno. rewrite updateAppDashboard_trace. unfold needsSync in Hno.
    destruct (PluginSetting.Enabled s); [|reflexivity]. cbn [andb] in Hno.
    destruct (registry (PluginSetting.PluginId s)) as [p|]; [|reflexivity].
    destruct (String.eqb _ _); [reflexivity|discriminate].
Qed.

End StartupSweep.

(** ** Running a sync pass again *)

Lemma syncDashboards_inSync {W : Type} (du : DashboardUpdater W)
      (plugin : PluginDTO.t) (orgID : Z) (items : list PluginDashboard.t) (w : W) :
  forallb inSync items = true ->
  syncDashboards du plugin orgID items w = (true, w, []).
Proof.
  induction items as [|dash rest IH]; intros H; [reflexivity|].
  simpl in H. apply andb_true_iff in H. destruct H as [Hd Hrest].
  unfold inSync in Hd. apply andb_true_iff in Hd. destruct Hd as [Hrem Hrev].
  cbn [syncDashboards]. unfold syncDashboard.
  destruct (PluginDashboard.Removed dash); [discriminate|]. rewrite Hrev. cbn [negb].
  cbn. rewrite (IH Hrest). reflexivity.
Qed.

(** A sync pass none of whose calls failed listed the records, ran step 2 to
    its end, read the setting and wrote the version, successfully. *)
Lemma syncPluginDashboards_success {W : Type} (du : DashboardUpdater W)
      (plugin : PluginDTO.t) (orgID : Z) (w : W) :
  firstError (traceOf (syncPluginDashboards du plugin orgID w)) = None ->
  exists resp wa appSetting wc,
    plugindashboards.ListPluginDashboards (pluginDashboardService du)
      {| ListPluginDashboardsRequest.OrgID := orgID;
         ListPluginDashboardsRequest.PluginID := PluginDTO.ID plugin |} w = (Ok resp, wa)
    /\ pluginsettings.GetPluginSettingById (pluginSettingsService du)
         (settingQuery plugin orgID)
         (worldOf (syncDashboards du plugin orgID (ListPluginDashboardsResponse.Items resp) wa))
       = (Ok appSetting, wc)
    /\ pluginsettings.UpdatePluginSettingVersion (pluginSettingsService du)
         (versionCmd plugin appSetting) wc
       = (None, worldOf (syncPluginDashboards du plugin orgID w)).
Proof.
  unfold syncPluginDashboards.
  rewrite traceOf_bind, traceOf_bind, worldOf_bind, worldOf_bind.
  unfold ListPluginDashboards. rewrite !run_call.
  cbn [log valueOf worldOf traceOf fst snd app firstError].
  destruct (plugindashboards.ListPluginDashboards _ _ w) as [[resp|err] wa];
    cbn [errorOf fst snd firstError]; [|discriminate].
  rewrite traceOf_bind, worldOf_bind.
  destruct (syncDashboards_shape du plugin orgID (ListPluginDashboardsResponse.Items resp) wa)
    as (body & Hb & [[Hv Ht]|[Hv (c & e & Hc & Ht)]]); rewrite Hv, Ht.
  - rewrite (okStep2_firstError _ _ Hb).
    unfold markProcessed, GetPluginSettingById, UpdatePluginSettingVersion.
    rewrite traceOf_bind, worldOf_bind, !run_call.
    cbn [valueOf worldOf traceOf fst snd app].
    fold (settingQuery plugin orgID).
    destruct (pluginsettings.GetPluginSettingById _ _ _) as [[appSetting|err] wc] eqn:Hget;
      cbn [errorOf fst snd firstError app]; [|discriminate].
    rewrite traceOf_bind, worldOf_bind, !run_call.
    cbn [valueOf worldOf traceOf fst snd app].
    fold (versionCmd plugin appSetting).
    destruct (pluginsettings.UpdatePluginSettingVersion _ _ wc) as [[err|] wd] eqn:Hup;
      cbn [fst snd firstError app]; [discriminate|].
    intros _. exists resp, wa, appSetting, wc. repeat split; assumption.
  - rewrite <- app_assoc, (okStep2_firstError _ _ Hb). discriminate.
Qed.

Section Idempotence.

Context {W : Type}.
Variable du : DashboardUpdater W.

(** What is kept in the stores: the stored dashboards, and the version
    recorded for each (organization, plugin) pair. *)
Variable D : Type.
Variable storedOf : W -> D.
Variable versionOf : W -> Z -> string -> option string.

(** The contracts of the collaborators the second pass relies on: the
    catalog query and the settings read change nothing in the stores; the
    settings read returns the row asked for; the version write touches no
    dashboard and no other row, records the version when it succeeds and
    leaves it when it fails. *)
Hypothesis catalog_reads_only :
  forall req w,
    SameStores storedOf versionOf
      (snd (plugindashboards.ListPluginDashboards (pluginDashboardService du) req w)) w.
Hypothesis settings_read_only :
  forall query w,
    SameStores storedOf versionOf
      (snd (pluginsettings.GetPluginSettingById (pluginSettingsService du) query w)) w.
Hypothesis settings_read_by_key :
  forall query w s,
    fst (pluginsettings.GetPluginSettingById (pluginSettingsService du) query w) = Ok s ->
    PluginSetting.OrgId s = GetPluginSettingByIdQuery.OrgId query
    /\ PluginSetting.PluginId s = GetPluginSettingByIdQuery.PluginId query.
Hypothesis write_keeps_dashboards :
  forall cmd w,
    storedOf (snd (pluginsettings.UpdatePluginSettingVersion (pluginSettingsService du) cmd w))
    = storedOf w.
Hypothesis write_keeps_other_rows :
  forall cmd w o p,
    o <> UpdatePluginSettingVersionCmd.OrgId cmd
    \/ p <> UpdatePluginSettingVersionCmd.PluginId cmd ->
    versionOf (snd (pluginsettings.UpdatePluginSettingVersion (pluginSettingsService du) cmd w))
              o p
    = versionOf w o p.
Hypothesis write_records_version :
  forall cmd w,
    fst (pluginsettings.UpdatePluginSettingVersion (pluginSettingsService du) cmd w) = None ->
    versionOf (snd (pluginsettings.UpdatePluginSettingVersion (pluginSettingsService du) cmd w))
              (UpdatePluginSettingVersionCmd.OrgId cmd)
              (UpdatePluginSettingVersionCmd.PluginId cmd)
    = Some (UpdatePluginSettingVersionCmd.PluginVersion cmd).
Hypothesis failed_write_keeps_version :
  forall cmd w e,
    fst (pluginsettings.UpdatePluginSettingVersion (pluginSettingsService du) cmd w) = Some e ->
    versionOf (snd (pluginsettings.UpdatePluginSettingVersion (pluginSettingsService du) cmd w))
              (UpdatePluginSettingVersionCmd.OrgId cmd)
              (UpdatePluginSettingVersionCmd.PluginId cmd)
    = versionOf w (UpdatePluginSettingVersionCmd.OrgId cmd)
                  (UpdatePluginSettingVersionCmd.PluginId cmd).

Lemma sameStores_trans (w1 w2 w3 : W) :
  SameStores storedOf versionOf w1 w2 ->
  SameStores storedOf versionOf w2 w3 ->
  SameStores storedOf versionOf w1 w3.
Proof.
  intros [H1 H2] [H3 H4]. split; [congruence|]. intros o p. now rewrite H2, H4.
Qed.

(** After a successful first pass the version of the pass's pair is the
    plugin's. *)
Lemma first_pass_records_version (plugin : PluginDTO.t) (orgID : Z) (w : W) :
  firstError (traceOf (syncPluginDashboards du plugin orgID w)) = None ->
  versionOf (worldOf (syncPluginDashboards du plugin orgID w)) orgID (PluginDTO.ID plugin)
  = Some (Info.Version (PluginDTO.Info plugin)).
Proof.
  intros Hok. destruct (syncPluginDashboards_success du plugin orgID w Hok)
    as (resp & wa & s & wc & _ & Hget & Hup).
  destruct (settings_read_by_key (settingQuery plugin orgID) _ s
              (f_equal fst Hget)) as [Ho Hp]. cbn in Ho, Hp.
  pose proof (write_records_version (versionCmd plugin s) wc) as Hrec.
  rewrite Hup in Hrec. cbn in Hrec. rewrite Ho, Hp in Hrec. now apply Hrec.
Qed.

(** The final block of a pass, run where the version is already recorded. *)
Lemma markProcessed_again (plugin : PluginDTO.t) (orgID : Z) (w : W) :
  versionOf w orgID (PluginDTO.ID plugin) = Some (Info.Version (PluginDTO.Info plugin)) ->
  SameStores storedOf versionOf (worldOf (markProcessed du plugin orgID w)) w.
Proof.
  intros Hv. unfold markProcessed, GetPluginSettingById, UpdatePluginSettingVersion.
  rewrite worldOf_bind, !run_call. cbn [valueOf worldOf fst snd].
  pose proof (settings_read_only (settingQuery plugin orgID) w) as Hro.
  pose proof (settings_read_by_key (settingQuery plugin orgID) w) as Hkey.
  fold (settingQuery plugin orgID).
  destruct (pluginsettings.GetPluginSettingById _ _ w) as [[s|err] wc];
    cbn [fst snd] in *; [|exact Hro].
  destruct (Hkey s eq_refl) as [Ho Hp]. cbn in Ho, Hp.
  rewrite worldOf_bind, !run_call. cbn [valueOf worldOf fst snd].
  fold (versionCmd plugin s).
  pose proof (write_keeps_dashboards (versionCmd plugin s) wc) as Hd.
  pose proof (write_keeps_other_rows (versionCmd plugin s) wc) as Hother.
  pose proof (write_records_version (versionCmd plugin s) wc) as Hrec.
  pose proof (failed_write_keeps_version (versionCmd plugin s) wc) as Hfail.
  cbn [versionCmd UpdatePluginSettingVersionCmd.OrgId UpdatePluginSettingVersionCmd.PluginId
       UpdatePluginSettingVersionCmd.PluginVersion] in Hother, Hrec, Hfail.
  rewrite Ho, Hp in Hother, Hrec, Hfail.
  assert (Hend : SameStores storedOf versionOf (snd (pluginsettings.UpdatePluginSettingVersion
                                    (pluginSettingsService du) (versionCmd plugin s) wc)) wc).
  { split; [exact Hd|]. intros o p.
    destruct (Z.eq_dec o orgID) as [->|Hno]; [|apply Hother; now left].
    destruct (string_dec p (PluginDTO.ID plugin)) as [->|Hnp]; [|apply Hother; now right].
    destruct Hro as [_ Hro]. 
    destruct (fst (pluginsettings.UpdatePluginSettingVersion
                     (pluginSettingsService du) (versionCmd plugin s) wc)) as [e|] eqn:Hres.
    - now apply (Hfail e).
    - rewrite Hrec by reflexivity. now rewrite Hro, Hv. }
  destruct (pluginsettings.UpdatePluginSettingVersion _ _ wc) as [[e|] wd];
    cbn [fst snd worldOf log ret Monad_Run] in *;
    exact (sameStores_trans _ _ _ Hend Hro).
Qed.

(** The second pass where the catalog lists only records in sync: running
    the sync pass again on the world a fully successful pass left, the catalog
    then reporting every record as not removed and imported at its revision,
    makes no deletion and no import, and ends in a world with the same stored
    dashboards and the same recorded versions as after the first pass. *)
Lemma second_pass_over_in_sync_catalog (plugin : PluginDTO.t) (orgID : Z) (w : W) :
  let first := syncPluginDashboards du plugin orgID w in
  let second := syncPluginDashboards du plugin orgID (worldOf first) in
  firstError (traceOf first) = None ->
  (forall resp,
      fst (plugindashboards.ListPluginDashboards (pluginDashboardService du)
             {| ListPluginDashboardsRequest.OrgID := orgID;
                ListPluginDashboardsRequest.PluginID := PluginDTO.ID plugin |}
             (worldOf first)) = Ok resp ->
      forallb inSync (ListPluginDashboardsResponse.Items resp) = true) ->
  deletions (traceOf second) = []
  /\ imports (traceOf second) = []
  /\ storedOf (worldOf second) = storedOf (worldOf first)
  /\ (forall o p, versionOf (worldOf second) o p = versionOf (worldOf first) o p).
Proof.
  cbv zeta. intros Hok Hsynced.
  pose proof (first_pass_records_version plugin orgID w Hok) as Hv.
  set (w1 := worldOf (syncPluginDashboards du plugin orgID w)) in *.
  pose proof (catalog_reads_only
                {| ListPluginDashboardsRequest.OrgID := orgID;
                   ListPluginDashboardsRequest.PluginID := PluginDTO.ID plugin |} w1) as Hro.
  assert (Hmain : deletions (traceOf (syncPluginDashboards du plugin orgID w1)) = []
                  /\ imports (traceOf (syncPluginDashboards du plugin orgID w1)) = []
                  /\ SameStores storedOf versionOf (worldOf (syncPluginDashboards du plugin orgID w1)) w1).
  { unfold syncPluginDashboards.
    rewrite traceOf_bind, traceOf_bind, worldOf_bind, worldOf_bind.
    unfold ListPluginDashboards. rewrite !run_call.
    cbn [log valueOf worldOf traceOf fst snd app deletions imports].
    destruct (plugindashboards.ListPluginDashboards _ _ w1) as [[resp|err] wa];
      cbn [errorOf fst snd log worldOf traceOf deletions imports] in *; [|auto].
    rewrite traceOf_bind, worldOf_bind.
    rewrite (syncDashboards_inSync du plugin orgID _ wa (Hsynced resp eq_refl)).
    cbn [valueOf worldOf traceOf fst snd app].
    assert (Hva : versionOf wa orgID (PluginDTO.ID plugin)
                  = Some (Info.Version (PluginDTO.Info plugin))).
    { destruct Hro as [_ Hro]. now rewrite Hro. }
    split; [|split].
    - destruct (markProcessed_trace du plugin orgID wa)
        as [(e & ->)|[(s & e & ->)|(s & ->)]]; reflexivity.
    - destruct (markProcessed_trace du plugin orgID wa)
        as [(e & ->)|[(s & e & ->)|(s & ->)]]; reflexivity.
    - exact (sameStores_trans _ _ _ (markProcessed_again plugin orgID wa Hva) Hro). }
  destruct Hmain as (Hd & Hi & Hs & Hver). auto.
Qed.

End Idempotence.

(** * The in-memory collaborators honour the contracts *)

Section MemContracts.

Variable registry : list PluginDTO.t.
Variable bundled : list Mem.Bundled.t.

Lemma Mem_registry_keyed (id : string) (p : PluginDTO.t) :
  Mem.lookupPlugin registry id = Some p -> PluginDTO.ID p = id.
Proof.
  unfold Mem.lookupPlugin. intros H. apply find_some in H. destruct H as [_ H].
  now apply String.eqb_eq.
Qed.

Lemma Mem_catalog_reads_only (req : ListPluginDashboardsRequest.t) (w : Mem.World) :
  SameStores Mem.stored Mem.recorded
             (snd (plugindashboards.ListPluginDashboards
                     (pluginDashboardService (Mem.updater registry bundled)) req w)) w.
Proof.
  cbn. unfold Mem.listPluginDashboards. destruct (Mem.catalogDown w); split; reflexivity.
Qed.

Lemma Mem_settings_read_only (query : GetPluginSettingByIdQuery.t) (w : Mem.World) :
  SameStores Mem.stored Mem.recorded
             (snd (pluginsettings.GetPluginSettingById
                     (pluginSettingsService (Mem.updater registry bundled)) query w)) w.
Proof.
  cbn. unfold Mem.getPluginSettingById. destruct (Mem.settingsDown w);
    [split; reflexivity|]. destruct (find _ _); split; reflexivity.
Qed.

Lemma Mem_isSetting_spec (orgId : Z) (pluginId : string) (s : PluginSetting.t) :
  Mem.isSetting orgId pluginId s = true
  <-> PluginSetting.OrgId s = orgId /\ PluginSetting.PluginId s = pluginId.
Proof.
  unfold Mem.isSetting. rewrite andb_true_iff, Z.eqb_eq, String.eqb_eq. reflexivity.
Qed.

Lemma Mem_settings_read_by_key (query : GetPluginSettingByIdQuery.t) (w : Mem.World)
      (s : PluginSetting.t) :
  fst (pluginsettings.GetPluginSettingById
         (pluginSettingsService (Mem.updater registry bundled)) query w) = Ok s ->
  PluginSetting.OrgId s = GetPluginSettingByIdQuery.OrgId query
  /\ PluginSetting.PluginId s = GetPluginSettingByIdQuery.PluginId query.
Proof.
  cbn. unfold Mem.getPluginSettingById. destruct (Mem.settingsDown w); [discriminate|].
  destruct (find _ _) as [s'|] eqn:Hfind; cbn; [|discriminate].
  intros H. injection H as <-. apply find_some in Hfind. destruct Hfind as [_ Hfind].
  now apply Mem_isSetting_spec.
Qed.

Lemma Mem_write_keeps_dashboards (cmd : UpdatePluginSettingVersionCmd.t) (w : Mem.World) :
  Mem.stored (snd (pluginsettings.UpdatePluginSettingVersion
                     (pluginSettingsService (Mem.updater registry bundled)) cmd w))
  = Mem.stored w.
Proof.
  cbn. unfold Mem.updatePluginSettingVersion. destruct (Mem.settingsReadOnly w);
    [reflexivity|]. destruct (existsb _ _); reflexivity.
Qed.

(** Looking a row up after the version of the rows of [(orgId, pluginId)]
    was set to [version]. *)
Lemma Mem_find_after_write (orgId o : Z) (pluginId p version : string)
      (l : list PluginSetting.t) :
  find (Mem.isSetting o p)
       (map (fun s => if Mem.isSetting orgId pluginId s
                      then {| PluginSetting.OrgId := PluginSetting.OrgId s;
                              PluginSetting.PluginId := PluginSetting.PluginId s;
                              PluginSetting.Enabled := PluginSetting.Enabled s;
                              PluginSetting.PluginVersion := version |}
                      else s) l)
  = option_map (fun s => if Mem.isSetting orgId pluginId s
                         then {| PluginSetting.OrgId := PluginSetting.OrgId s;
                                 PluginSetting.PluginId := PluginSetting.PluginId s;
                                 PluginSetting.Enabled := PluginSetting.Enabled s;
                                 PluginSetting.PluginVersion := version |}
                         else s)
               (find (Mem.isSetting o p) l).
Proof.
  induction l as [|s l IH]; [reflexivity|]. cbn [map find].
  assert (Hkey : Mem.isSetting o p
                   (if Mem.isSetting orgId pluginId s
                    then {| PluginSetting.OrgId := PluginSetting.OrgId s;
                            PluginSetting.PluginId := PluginSetting.PluginId s;
                            PluginSetting.Enabled := PluginSetting.Enabled s;
                            PluginSetting.PluginVersion := version |}
                    else s) = Mem.isSetting o p s).
  { destruct (Mem.isSetting orgId pluginId s); reflexivity. }
  rewrite Hkey. destruct (Mem.isSetting o p s); [reflexivity|exact IH].
Qed.

Lemma Mem_write_keeps_other_rows (cmd : UpdatePluginSettingVersionCmd.t) (w : Mem.World)
      (o : Z) (p : string) :
  o <> UpdatePluginSettingVersionCmd.OrgId cmd
  \/ p <> UpdatePluginSettingVersionCmd.PluginId cmd ->
  Mem.recorded (snd (pluginsettings.UpdatePluginSettingVersion
                       (pluginSettingsService (Mem.updater registry bundled)) cmd w)) o p
  = Mem.recorded w o p.
Proof.
  intros Hne. cbn. unfold Mem.updatePluginSettingVersion.
  destruct (Mem.settingsReadOnly w); [reflexivity|].
  destruct (existsb _ _); [|reflexivity].
  unfold Mem.recorded. cbn [snd Mem.withSettings Mem.settings].
  rewrite Mem_find_after_write.
  destruct (find (Mem.isSetting o p) (Mem.settings w)) as [s|] eqn:Hfind; [|reflexivity].
  apply find_some in Hfind. destruct Hfind as [_ Hfind].
  apply Mem_isSetting_spec in Hfind. destruct Hfind as [Ho Hp].
  cbn [option_map].
  destruct (Mem.isSetting _ _ s) eqn:Hs; [|reflexivity].
  apply Mem_isSetting_spec in Hs. destruct Hs as [Ho' Hp']. exfalso.
  destruct Hne as [Hne|Hne]; apply Hne; congruence.
Qed.

Lemma Mem_write_records_version (cmd : UpdatePluginSettingVersionCmd.t) (w : Mem.World) :
  fst (pluginsettings.UpdatePluginSettingVersion
         (pluginSettingsService (Mem.updater registry bundled)) cmd w) = None ->
  Mem.recorded (snd (pluginsettings.UpdatePluginSettingVersion
                       (pluginSettingsService (Mem.updater registry bundled)) cmd w))
               (UpdatePluginSettingVersionCmd.OrgId cmd)
               (UpdatePluginSettingVersionCmd.PluginId cmd)
  = Some (UpdatePluginSettingVersionCmd.PluginVersion cmd).
Proof.
  cbn. unfold Mem.updatePluginSettingVersion.
  destruct (Mem.settingsReadOnly w); [discriminate|].
  destruct (existsb _ _) eqn:Hex; [|discriminate]. intros _.
  unfold Mem.recorded. cbn [snd Mem.withSettings Mem.settings].
  rewrite Mem_find_after_write.
  apply existsb_exists in Hex. destruct Hex as (s0 & Hin & Hs0).
  destruct (find _ (Mem.settings w)) as [s|] eqn:Hfind.
  - apply find_some in Hfind. destruct Hfind as [_ Hfind].
    cbn [option_map]. now rewrite Hfind.
  - exfalso. pose proof (find_none _ _ Hfind s0 Hin) as Hno. congruence.
Qed.

Lemma Mem_failed_write_keeps_version (cmd : UpdatePluginSettingVersionCmd.t) (w : Mem.World)
      (e : error) :
  fst (pluginsettings.UpdatePluginSettingVersion
         (pluginSettingsService (Mem.updater registry bundled)) cmd w) = Some e ->
  Mem.recorded (snd (pluginsettings.UpdatePluginSettingVersion
                       (pluginSettingsService (Mem.updater registry bundled)) cmd w))
               (UpdatePluginSettingVersionCmd.OrgId cmd)
               (UpdatePluginSettingVersionCmd.PluginId cmd)
  = Mem.recorded w (UpdatePluginSettingVersionCmd.OrgId cmd)
                 (UpdatePluginSettingVersionCmd.PluginId cmd).
Proof.
  cbn. unfold Mem.updatePluginSettingVersion.
  destruct (Mem.settingsReadOnly w); [reflexivity|].
  destruct (existsb _ _); [discriminate|reflexivity].
Qed.

End MemContracts.

(** * The theorems on the example installation *)

(** A sync pass on the example installation converges: the dashboard the
    plugin no longer bundles is gone, both bundled dashboards are stored at
    their revision, and the plugin's version is recorded. *)
Example sync_converges_on_example :
  let w := worldOf (syncPluginDashboards Mem.du Mem.app 1 Mem.start) in
  map (fun s => (Mem.Stored.Id s, Mem.Stored.Reference s, Mem.Stored.Revision s)) (Mem.stored w)
  = [(11, "dashboards/overview.json", 3); (12, "dashboards/nodes.json", 1)]
  /\ Mem.recorded w 1 "app" = Some "2.0.0"
  /\ Mem.recorded w 3 "app" = Some "2.0.0"
  /\ Mem.recorded w 1 "gone" = Some "0.1.0".
Proof. vm_compute. repeat split. Qed.

(** C1 at work: the import of the first record is rejected; the second record
    and the removed dashboard are not touched, and no version is written. *)
Lemma sync_step2_failure_stops_pass_witness :
  let tr := traceOf (syncPluginDashboards Mem.du Mem.app 1 Mem.overviewRejected) in
  tr = firstn 4 tr
       ++ Called (CallImportDashboard Mem.overviewImport) (Some "dashboard validation failed")
       :: skipn 5 tr
  /\ isStep2 (CallImportDashboard Mem.overviewImport) = true
  /\ forallb isLog (skipn 5 tr) = true
  /\ forallb (fun c' => negb (isVersionWrite c')) (calls tr) = true
  /\ worldOf (syncPluginDashboards Mem.du Mem.app 1 Mem.overviewRejected)
     = exec Mem.du (CallImportDashboard Mem.overviewImport)
            (replay Mem.du (firstn 4 tr) Mem.overviewRejected).
Proof.
  cbv zeta.
  assert (H1 : traceOf (syncPluginDashboards Mem.du Mem.app 1 Mem.overviewRejected)
               = firstn 4 (traceOf (syncPluginDashboards Mem.du Mem.app 1 Mem.overviewRejected))
                 ++ Called (CallImportDashboard Mem.overviewImport)
                           (Some "dashboard validation failed")
                 :: skipn 5 (traceOf (syncPluginDashboards Mem.du Mem.app 1 Mem.overviewRejected)))
    by (vm_compute; reflexivity).
  assert (H2 : isStep2 (CallImportDashboard Mem.overviewImport) = true) by reflexivity.
  exact (conj H1 (conj H2
           (sync_step2_failure_stops_pass Mem.du Mem.app 1 Mem.overviewRejected _ _ _ _ H1 H2))).
Defined.

(** The sentence of the specification fails on the code: with the catalog
    down, the sync pass an enabled notification starts logs the error of the
    catalog query, and the handler returns nil. *)
Lemma enabled_sync_error_not_returned :
  ~ PropagatesFirstError Mem.du Mem.enableApp Mem.catalogOffline.
Proof.
  intros H. specialize (H "catalog unavailable" eq_refl). vm_compute in H. discriminate.
Qed.

(** C3 at work: disabling the plugin deletes the two dashboards stored for it. *)
Lemma disable_deletes_stored_dashboards_witness :
  let r := handlePluginStateChanged Mem.du Mem.disableApp Mem.start in
  PluginStateChangedEvent.Enabled Mem.disableApp = false
  /\ deletions (traceOf r) = [(10, 1, None); (11, 1, None)]
  /\ imports (traceOf r) = []
  /\ worldOf r = replay Mem.du (traceOf r) Mem.start.
Proof.
  cbv zeta.
  assert (H1 : PluginStateChangedEvent.Enabled Mem.disableApp = false) by reflexivity.
  assert (H2 : dashboards.GetDashboardsByPluginID (dashboardPluginService Mem.du)
                 {| GetDashboardsByPluginIdQuery.PluginId :=
                      PluginStateChangedEvent.PluginId Mem.disableApp;
                    GetDashboardsByPluginIdQuery.OrgId :=
                      PluginStateChangedEvent.OrgId Mem.disableApp |} Mem.start
               = (Ok (map Mem.toDashboard (Mem.stored Mem.start)), Mem.start))
    by reflexivity.
  destruct (disable_deletes_stored_dashboards Mem.du Mem.disableApp Mem.start Mem.start _ H1 H2)
    as (_ & Hi & _ & Hw).
  split; [exact H1|]. split; [vm_compute; reflexivity|]. split; [exact Hi|exact Hw].
Defined.

(** C5 at work: of the four settings rows, only organization 1's row for the
    app plugin is enabled, known to the registry and behind its version. *)
Lemma sweep_syncs_outdated_enabled_plugins_witness :
  pluginsettings.GetPluginSettings (pluginSettingsService Mem.du) 0 Mem.start
  = (Ok (Mem.settings Mem.start), Mem.start)
  /\ syncPasses (traceOf (updateAppDashboards Mem.du Mem.start)) = [(1, "app")].
Proof.
  assert (H : pluginsettings.GetPluginSettings (pluginSettingsService Mem.du) 0 Mem.start
              = (Ok (Mem.settings Mem.start), Mem.start)) by reflexivity.
  split; [exact H|].
  exact (proj1 (sweep_syncs_outdated_enabled_plugins Mem.du
                  (Mem.lookupPlugin Mem.theRegistry)
                  (fun id w => eq_refl)
                  (Mem_registry_keyed Mem.theRegistry)
                  Mem.start Mem.start (Mem.settings Mem.start) H)).
Defined.

(** C7 at work: enabling a plugin the registry does not know. *)
Lemma enable_unknown_plugin_not_found_witness :
  let r := handlePluginStateChanged Mem.du Mem.enableGone Mem.start in
  PluginStateChangedEvent.Enabled Mem.enableGone = true
  /\ fst (plugins.Plugin (pluginStore Mem.du) "gone" Mem.start) = None
  /\ valueOf r = Some "plugin gone not found. Could not sync plugin dashboards"
  /\ calls (traceOf r) = [CallPlugin "gone"]
  /\ worldOf r = Mem.start.
Proof.
  cbv zeta.
  assert (H1 : PluginStateChangedEvent.Enabled Mem.enableGone = true) by reflexivity.
  assert (H2 : fst (plugins.Plugin (pluginStore Mem.du)
                      (PluginStateChangedEvent.PluginId Mem.enableGone) Mem.start) = None)
    by reflexivity.
  destruct (enable_unknown_plugin_not_found Mem.du Mem.enableGone Mem.start H1 H2)
    as (Hv & Hc & _ & Hw).
  split; [exact H1|]. split; [exact H2|]. split; [exact Hv|]. split; [exact Hc|exact Hw].
Defined.

(** C8 at work: a plugin that bundles no dashboard still has its version
    recorded. *)
Lemma sync_of_no_records_writes_version_witness :
  let r := syncPluginDashboards Mem.du Mem.bare 1 Mem.bareWorld in
  deletions (traceOf r) = []
  /\ imports (traceOf r) = []
  /\ calls (traceOf r)
     = [ CallListPluginDashboards
           {| ListPluginDashboardsRequest.OrgID := 1;
              ListPluginDashboardsRequest.PluginID := "bare" |};
         CallGetPluginSettingById
           {| GetPluginSettingByIdQuery.PluginId := "bare";
              GetPluginSettingByIdQuery.OrgId := 1 |};
         CallUpdatePluginSettingVersion
           {| UpdatePluginSettingVersionCmd.OrgId := 1;
              UpdatePluginSettingVersionCmd.PluginId := "bare";
              UpdatePluginSettingVersionCmd.PluginVersion := "0.2.0" |} ]
  /\ Mem.recorded (worldOf r) 1 "bare" = Some "0.2.0".
Proof.
  cbv zeta.
  destruct (sync_of_no_records_writes_version Mem.du Mem.bare 1
              Mem.bareWorld Mem.bareWorld Mem.bareWorld Mem.bareSetting eq_refl eq_refl)
    as (Hd & Hi & Hc & Hw).
  split; [exact Hd|]. split; [exact Hi|]. split; [exact Hc|].
  rewrite Hw. reflexivity.
Defined.

(** C9 at work: the settings store refuses the version write after step 2 has
    imported two dashboards and deleted one. *)
Lemma sync_settings_failure_keeps_step2_witness :
  let r := syncPluginDashboards Mem.du Mem.app 1 Mem.settingsFrozen in
  let c := CallUpdatePluginSettingVersion
             {| UpdatePluginSettingVersionCmd.OrgId := 1;
                UpdatePluginSettingVersionCmd.PluginId := "app";
                UpdatePluginSettingVersionCmd.PluginVersion := "2.0.0" |} in
  traceOf r = firstn 11 (traceOf r)
              ++ Called c (Some "settings store unavailable") :: skipn 12 (traceOf r)
  /\ isSettingsCall c = true
  /\ forallb isLog (skipn 12 (traceOf r)) = true
  /\ List.length (deletions (traceOf r)) = 1%nat
  /\ List.length (imports (traceOf r)) = 2%nat
  /\ worldOf r = exec Mem.du c (replay Mem.du (firstn 11 (traceOf r)) Mem.settingsFrozen)
  /\ map Mem.Stored.Id (Mem.stored (worldOf r)) = [11; 12].
Proof.
  cbv zeta.
  assert (H1 : traceOf (syncPluginDashboards Mem.du Mem.app 1 Mem.settingsFrozen)
               = firstn 11 (traceOf (syncPluginDashboards Mem.du Mem.app 1 Mem.settingsFrozen))
                 ++ Called (CallUpdatePluginSettingVersion
                              {| UpdatePluginSettingVersionCmd.OrgId := 1;
                                 UpdatePluginSettingVersionCmd.PluginId := "app";
                                 UpdatePluginSettingVersionCmd.PluginVersion := "2.0.0" |})
                           (Some "settings store unavailable")
                 :: skipn 12 (traceOf (syncPluginDashboards Mem.du Mem.app 1 Mem.settingsFrozen)))
    by (vm_compute; reflexivity).
  destruct (sync_settings_failure_keeps_step2 Mem.du Mem.app 1 Mem.settingsFrozen _ _ _ _
              H1 eq_refl)
    as (_ & Hpost & _ & _ & _ & Hw).
  split; [exact H1|]. split; [reflexivity|]. split; [exact Hpost|].
  split; [vm_compute; reflexivity|]. split; [vm_compute; reflexivity|].
  split; [exact Hw|]. vm_compute. reflexivity.
Defined.

(** * More of the updater *)

(** ** The sync pass, call by call *)

Lemma registryLookups_app (t1 t2 : list Event) :
  registryLookups (t1 ++ t2) = registryLookups t1 ++ registryLookups t2.
Proof.
  induction t1 as [|[c o|l m x] t1 IH]; simpl; [reflexivity| |assumption].
  destruct c; simpl; now rewrite IH.
Qed.

Lemma settingsListings_app (t1 t2 : list Event) :
  settingsListings (t1 ++ t2) = settingsListings t1 ++ settingsListings t2.
Proof.
  induction t1 as [|[c o|l m x] t1 IH]; simpl; [reflexivity| |assumption].
  destruct c; simpl; now rewrite IH.
Qed.

Lemma loaded_app (t1 t2 : list Event) : loaded (t1 ++ t2) = loaded t1 ++ loaded t2.
Proof.
  induction t1 as [|[c [e|]|l m x] t1 IH]; simpl; auto;
    destruct c; simpl; now rewrite ?IH.
Qed.

Lemma imported_app (t1 t2 : list Event) : imported (t1 ++ t2) = imported t1 ++ imported t2.
Proof. unfold imported. now rewrite imports_app, map_app. Qed.

Lemma okStep2_no_versionWrite (tr : list Event) :
  forallb okStep2 tr = true -> forallb (fun ev => negb (isVersionWriteEvent ev)) tr = true.
Proof.
  induction tr as [|[c [e|]|l m x] tr IH]; simpl; intros H;
    try discriminate; try reflexivity; auto.
  apply andb_true_iff in H. destruct H as [H1 H2]. rewrite (IH H2).
  destruct c; simpl in *; congruence.
Qed.

Lemma okStep2_filter_isFailure (tr : list Event) :
  forallb okStep2 tr = true -> filter isFailure tr = [].
Proof.
  induction tr as [|[c [e|]|l m x] tr IH]; simpl; intros H;
    try discriminate; try reflexivity; auto.
  apply andb_true_iff in H. now apply IH.
Qed.

Lemma okStep2_no_error (tr : list Event) :
  forallb okStep2 tr = true -> firstError tr = None.
Proof.
  intros H. pose proof (okStep2_firstError tr [] H) as X. now rewrite app_nil_r in X.
Qed.

(** The catalog query failing ends the sync pass on the spot: the pass logs
    the error, makes no other call, and leaves the world as the query left
    it. *)
Theorem sync_catalog_failure_makes_no_other_call
        {W : Type} (du : DashboardUpdater W) (plugin : PluginDTO.t) (orgID : Z)
        (w w1 : W) (e : error) :
  plugindashboards.ListPluginDashboards (pluginDashboardService du)
    (listRequest plugin orgID) w = (Err e, w1) ->
  traceOf (syncPluginDashboards du plugin orgID w)
  = [ Logged Info "Syncing plugin dashboards to DB" [("pluginId", LStr (PluginDTO.ID plugin))];
      Called (CallListPluginDashboards (listRequest plugin orgID)) (Some e);
      Logged Error "Failed to load app dashboards" [("error", LErr e)] ]
  /\ worldOf (syncPluginDashboards du plugin orgID w) = w1.
Proof.
  intros Hlist. unfold syncPluginDashboards. unfold_calls. cbn.
  unfold listRequest in Hlist. rewrite Hlist. cbn. split; reflexivity.
Qed.

(** The calls of a sync pass come in three phases: the catalog query first,
    then step-2 calls only (deletions, loads, imports), then at most the
    settings read followed by at most one version write.  The pass never asks
    the registry, never lists the settings, never looks stored dashboards up
    by plugin, and makes no deletion or import once it has read the
    setting. *)
Theorem sync_calls_in_three_phases
        {W : Type} (du : DashboardUpdater W) (plugin : PluginDTO.t) (orgID : Z) (w : W) :
  exists step2 last,
    calls (traceOf (syncPluginDashboards du plugin orgID w))
    = CallListPluginDashboards (listRequest plugin orgID) :: step2 ++ last
    /\ forallb isStep2 step2 = true
    /\ (last = []
        \/ last = [CallGetPluginSettingById (settingQuery plugin orgID)]
        \/ exists appSetting,
             last = [CallGetPluginSettingById (settingQuery plugin orgID);
                     CallUpdatePluginSettingVersion (versionCmd plugin appSetting)]).
Proof.
  destruct (syncPluginDashboards_trace du plugin orgID w)
    as [e|body c e Hb Hc|body e Hb|body s e Hb|body s Hb].
  - exists [], []. simpl. auto.
  - exists (calls body ++ [c]), [].
    unfold syncHeader, step2Failure. cbn [app calls]. rewrite calls_app, app_nil_r.
    split; [reflexivity|]. split; [|auto].
    rewrite forallb_app, (okStep2_calls body Hb). simpl. now rewrite Hc.
  - exists (calls body), [CallGetPluginSettingById (settingQuery plugin orgID)].
    unfold syncHeader. cbn [app calls]. rewrite calls_app.
    split; [reflexivity|]. split; [now apply okStep2_calls|auto].
  - exists (calls body), [CallGetPluginSettingById (settingQuery plugin orgID);
                          CallUpdatePluginSettingVersion (versionCmd plugin s)].
    unfold syncHeader. cbn [app calls]. rewrite calls_app.
    split; [reflexivity|]. split; [now apply okStep2_calls|]. right. right. now exists s.
  - exists (calls body), [CallGetPluginSettingById (settingQuery plugin orgID);
                          CallUpdatePluginSettingVersion (versionCmd plugin s)].
    unfold syncHeader. cbn [app calls]. rewrite calls_app.
    split; [reflexivity|]. split; [now apply okStep2_calls|]. right. right. now exists s.
Qed.

(** A sync pass stops at its first failure, whichever call fails: every call
    before the failed one succeeded, only log lines follow it, and it is the
    only failed call of the pass. *)
Theorem sync_stops_at_first_failure
        {W : Type} (du : DashboardUpdater W) (plugin : PluginDTO.t) (orgID : Z) (w : W)
        (pre post : list Event) (c : Call) (e : error) :
  traceOf (syncPluginDashboards du plugin orgID w) = pre ++ Called c (Some e) :: post ->
  firstError pre = None
  /\ forallb isLog post = true
  /\ filter isFailure (traceOf (syncPluginDashboards du plugin orgID w)) = [Called c (Some e)].
Proof.
  intros Htr.
  pose proof (syncPluginDashboards_trace du plugin orgID w) as S. rewrite Htr in *.
  assert (HQ : isFailure (Called c (Some e)) = true) by reflexivity.
  inversion S as [e0 Heq|body c0 e0 Hb Hc0 Heq|body e0 Hb Heq
                  |body s e0 Hb Heq|body s Hb Heq].
  - destruct (@split_at_failure isFailure
                [Logged Info "Syncing plugin dashboards to DB"
                        [("pluginId", LStr (PluginDTO.ID plugin))]]
                [Logged Error "Failed to load app dashboards" [("error", LErr e0)]]
                pre post
                (Called (CallListPluginDashboards (listRequest plugin orgID)) (Some e0))
                (Called c (Some e)))
      as (-> & Hev & ->); [exact Heq|reflexivity|reflexivity|exact HQ|].
    injection Hev as -> ->. repeat split; reflexivity.
  - destruct (@split_at_failure isFailure
                (syncHeader plugin orgID None ++ body)
                [Logged Error "Failed to auto update app dashboard"
                        [("pluginId", LStr (PluginDTO.ID plugin)); ("error", LErr e0)]]
                pre post (Called c0 (Some e0)) (Called c (Some e)))
      as (-> & Hev & ->); [exact Heq|unfold isFailure; none_failed|reflexivity|exact HQ|].
    injection Hev as -> ->. split; [|split; [reflexivity|]].
    + simpl. now apply okStep2_no_error.
    + simpl. rewrite filter_app, (okStep2_filter_isFailure body Hb). reflexivity.
  - destruct (@split_at_failure isFailure
                (syncHeader plugin orgID None ++ body)
                [Logged Error "Failed to read plugin setting by ID" [("error", LErr e0)]]
                pre post
                (Called (CallGetPluginSettingById (settingQuery plugin orgID)) (Some e0))
                (Called c (Some e)))
      as (-> & Hev & ->); [exact Heq|unfold isFailure; none_failed|reflexivity|exact HQ|].
    injection Hev as -> ->. split; [|split; [reflexivity|]].
    + simpl. now apply okStep2_no_error.
    + simpl. rewrite filter_app, (okStep2_filter_isFailure body Hb). reflexivity.
  - destruct (@split_at_failure isFailure
                (syncHeader plugin orgID None ++ body
                 ++ [Called (CallGetPluginSettingById (settingQuery plugin orgID)) None])
                [Logged Error "Failed to update plugin setting version" [("error", LErr e0)]]
                pre post
                (Called (CallUpdatePluginSettingVersion (versionCmd plugin s)) (Some e0))
                (Called c (Some e)))
      as (-> & Hev & ->); [|unfold isFailure; none_failed|reflexivity|exact HQ|].
    + rewrite <- Heq. simpl. now rewrite <- app_assoc.
    + injection Hev as -> ->. split; [|split; [reflexivity|]].
      * simpl. rewrite okStep2_firstError by assumption. reflexivity.
      * simpl. rewrite filter_app, (okStep2_filter_isFailure body Hb). reflexivity.
  - exfalso. eapply (@no_failure_in isFailure); [|exact Heq|exact HQ].
    change (forallb (fun ev => negb (isFailure ev))
                    (syncHeader plugin orgID None ++ body ++
                     [Called (CallGetPluginSettingById (settingQuery plugin orgID)) None;
                      Called (CallUpdatePluginSettingVersion (versionCmd plugin s)) None]) = true).
    unfold isFailure. none_failed.
Qed.

(** The version is written only at the very end of a pass that went well: the
    write carries the plugin's current version, comes right after the
    successful read of the plugin setting, every call before it succeeded, and
    only a log line can follow it. *)
Theorem sync_writes_version_last_and_only_after_success
        {W : Type} (du : DashboardUpdater W) (plugin : PluginDTO.t) (orgID : Z) (w : W)
        (pre post : list Event) (cmd : UpdatePluginSettingVersionCmd.t) (o : option error) :
  traceOf (syncPluginDashboards du plugin orgID w)
  = pre ++ Called (CallUpdatePluginSettingVersion cmd) o :: post ->
  firstError pre = None
  /\ UpdatePluginSettingVersionCmd.PluginVersion cmd = Info.Version (PluginDTO.Info plugin)
  /\ (exists before,
         pre = before ++ [Called (CallGetPluginSettingById (settingQuery plugin orgID)) None])
  /\ forallb isLog post = true.
Proof.
  intros Htr.
  pose proof (syncPluginDashboards_trace du plugin orgID w) as S. rewrite Htr in S.
  assert (HQ : isVersionWriteEvent (Called (CallUpdatePluginSettingVersion cmd) o) = true)
    by reflexivity.
  assert (Hbody : forall body tail,
             forallb okStep2 body = true ->
             forallb (fun ev => negb (isVersionWriteEvent ev)) tail = true ->
             forallb (fun ev => negb (isVersionWriteEvent ev))
                     (syncHeader plugin orgID None ++ body ++ tail) = true).
  { intros body tail Hb Ht. rewrite !forallb_app, (okStep2_no_versionWrite body Hb), Ht.
    reflexivity. }
  inversion S as [e0 Heq|body c0 e0 Hb Hc0 Heq|body e0 Hb Heq
                  |body s e0 Hb Heq|body s Hb Heq].
  - exfalso. eapply (@no_failure_in isVersionWriteEvent); [|exact Heq|exact HQ]. reflexivity.
  - exfalso. eapply (@no_failure_in isVersionWriteEvent); [|exact Heq|exact HQ].
    apply (Hbody body (step2Failure plugin c0 e0) Hb).
    destruct c0; simpl in *; congruence.
  - exfalso. eapply (@no_failure_in isVersionWriteEvent); [|exact Heq|exact HQ].
    now apply (Hbody body _ Hb).
  - destruct (@split_at_failure isVersionWriteEvent
                (syncHeader plugin orgID None ++ body
                 ++ [Called (CallGetPluginSettingById (settingQuery plugin orgID)) None])
                [Logged Error "Failed to update plugin setting version" [("error", LErr e0)]]
                pre post
                (Called (CallUpdatePluginSettingVersion (versionCmd plugin s)) (Some e0))
                (Called (CallUpdatePluginSettingVersion cmd) o))
      as (-> & Hev & ->); [|now apply (Hbody body _ Hb)|reflexivity|exact HQ|].
    + rewrite <- Heq. simpl. now rewrite <- app_assoc.
    + injection Hev as -> ->. split; [|split; [reflexivity|split; [|reflexivity]]].
      * simpl. rewrite okStep2_firstError by assumption. reflexivity.
      * exists (syncHeader plugin orgID None ++ body). now rewrite <- app_assoc.
  - destruct (@split_at_failure isVersionWriteEvent
                (syncHeader plugin orgID None ++ body
                 ++ [Called (CallGetPluginSettingById (settingQuery plugin orgID)) None])
                []
                pre post
                (Called (CallUpdatePluginSettingVersion (versionCmd plugin s)) None)
                (Called (CallUpdatePluginSettingVersion cmd) o))
      as (-> & Hev & ->); [|now apply (Hbody body _ Hb)|reflexivity|exact HQ|].
    + rewrite <- Heq. simpl. now rewrite <- app_assoc.
    + injection Hev as -> ->. split; [|split; [reflexivity|split; [|reflexivity]]].
      * simpl. rewrite okStep2_firstError by assumption. reflexivity.
      * exists (syncHeader plugin orgID None ++ body). now rewrite <- app_assoc.
Qed.

(** ** Step 2, record by record *)

Lemma autoUpdateAppDashboard_loaded_imported
      {W : Type} (du : DashboardUpdater W) (dash : PluginDashboard.t) (orgID : Z) (w : W) :
  let r := autoUpdateAppDashboard du dash orgID w in
  imported (traceOf r) = loaded (traceOf r)
  /\ deletions (traceOf r) = []
  /\ (valueOf r = None ->
      imported (traceOf r)
      = [(PluginDashboard.PluginId dash, PluginDashboard.Reference dash)]).
Proof.
  unfold autoUpdateAppDashboard. unfold_calls. cbn.
  step_call. destruct r as [resp|err]; cbn.
  - step_call. repeat split; reflexivity.
  - repeat split; try reflexivity. discriminate.
Qed.

Lemma syncDashboard_deletions
      {W : Type} (du : DashboardUpdater W) (plugin : PluginDTO.t) (orgID : Z)
      (dash : PluginDashboard.t) (w : W) :
  let r := syncDashboard du plugin orgID dash w in
  (deletions (traceOf r) = []
   \/ exists o, PluginDashboard.Removed dash = true
                /\ deletions (traceOf r) = [(PluginDashboard.DashboardId dash, orgID, o)])
  /\ imported (traceOf r) = loaded (traceOf r)
  /\ (valueOf r = true ->
      deletions (traceOf r)
      = (if PluginDashboard.Removed dash
         then [(PluginDashboard.DashboardId dash, orgID, None)] else [])
      /\ imported (traceOf r)
         = (if stale dash
            then [(PluginDashboard.PluginId dash, PluginDashboard.Reference dash)] else [])).
Proof.
  unfold syncDashboard, stale. destruct (PluginDashboard.Removed dash) eqn:Hrem; cbn [negb andb].
  - unfold_calls. cbn. step_call. destruct r as [err|]; cbn.
    + split; [right; eexists; split; reflexivity|]. split; [reflexivity|]. discriminate.
    + split; [right; eexists; split; reflexivity|]. split; [reflexivity|]. auto.
  - destruct (negb _).
    + cbv zeta. rewrite valueOf_bind, traceOf_bind.
      destruct (autoUpdateAppDashboard_loaded_imported du dash orgID w) as (Hil & Hd & Hi).
      cbv zeta in Hil, Hd, Hi.
      remember (autoUpdateAppDashboard du dash orgID w) as r eqn:Hr. clear Hr.
      destruct (valueOf r) as [err|]; cbn;
        rewrite ?deletions_app, ?imported_app, ?loaded_app, ?Hd, ?app_nil_r.
      * split; [now left|]. split; [exact Hil|]. discriminate.
      * split; [now left|]. split; [exact Hil|]. intros _. split; [reflexivity|].
        now apply Hi.
    + cbn. split; [now left|]. split; [reflexivity|]. auto.
Qed.

Lemma syncDashboards_steps
      {W : Type} (du : DashboardUpdater W) (plugin : PluginDTO.t) (orgID : Z)
      (items : list PluginDashboard.t) (w : W) :
  let r := syncDashboards du plugin orgID items w in
  Forall (fun d => snd (fst d) = orgID
                   /\ exists dash, In dash items
                                   /\ PluginDashboard.Removed dash = true
                                   /\ PluginDashboard.DashboardId dash = fst (fst d))
         (deletions (traceOf r))
  /\ imported (traceOf r) = loaded (traceOf r)
  /\ (valueOf r = true ->
      deletions (traceOf r)
      = map (fun dash => (PluginDashboard.DashboardId dash, orgID, None))
            (filter PluginDashboard.Removed items)
      /\ imported (traceOf r)
         = map (fun dash => (PluginDashboard.PluginId dash, PluginDashboard.Reference dash))
               (filter stale items)).
Proof.
  revert w. induction items as [|dash rest IH]; intros w; cbv zeta.
  - cbn. repeat split; constructor.
  - cbn [syncDashboards]. rewrite valueOf_bind, traceOf_bind.
    destruct (syncDashboard_deletions du plugin orgID dash w) as (Hd & Hil & Hdone).
    cbv zeta in Hd, Hil, Hdone.
    remember (syncDashboard du plugin orgID dash w) as r eqn:Hr. clear Hr.
    rewrite deletions_app, imported_app, loaded_app, Hil.
    destruct (valueOf r).
    + destruct (IH (worldOf r)) as (IHd & IHil & IHdone). cbv zeta in IHd, IHil, IHdone.
      split; [|split].
      * apply Forall_app. split.
        -- destruct Hd as [->|(o & Hrem & ->)]; constructor; [|constructor].
           cbn. split; [reflexivity|]. exists dash. cbn. auto.
        -- eapply Forall_impl; [|exact IHd]. cbv beta.
           intros d (Ho & dash' & Hin & Hrem & Hid). split; [assumption|].
           exists dash'. cbn. auto.
      * now rewrite IHil.
      * intros Hv. destruct (Hdone eq_refl) as [Hd1 Hi1]. destruct (IHdone Hv) as [Hd2 Hi2].
        rewrite <- Hil, Hd1, Hi1, Hd2, Hi2. cbn [filter].
        destruct (PluginDashboard.Removed dash), (stale dash); split; reflexivity.
    + cbn [ret Monad_Run traceOf valueOf fst snd deletions imported imports loaded map].
      rewrite !app_nil_r. split; [|split; [reflexivity|discriminate]].
      destruct Hd as [->|(o & Hrem & ->)]; constructor; [|constructor].
      cbn. split; [reflexivity|]. exists dash. cbn. auto.
Qed.

(** A sync pass whose catalog query succeeded: the query, then the loop over
    the records listed, then, when the loop ran to its end, the final block. *)
Lemma syncPluginDashboards_listed
      {W : Type} (du : DashboardUpdater W) (plugin : PluginDTO.t) (orgID : Z) (w wa : W)
      (resp : ListPluginDashboardsResponse.t) :
  plugindashboards.ListPluginDashboards (pluginDashboardService du)
    (listRequest plugin orgID) w = (Ok resp, wa) ->
  let loop := syncDashboards du plugin orgID (ListPluginDashboardsResponse.Items resp) wa in
  traceOf (syncPluginDashboards du plugin orgID w)
  = syncHeader plugin orgID None
    ++ traceOf loop
    ++ (if valueOf loop then traceOf (markProcessed du plugin orgID (worldOf loop)) else []).
Proof.
  intros Hlist. cbv zeta. unfold syncPluginDashboards.
  rewrite traceOf_bind, traceOf_bind.
  unfold ListPluginDashboards. rewrite !run_call.
  cbn [log valueOf worldOf traceOf fst snd app].
  unfold listRequest in Hlist. rewrite Hlist. cbn [errorOf fst snd].
  rewrite traceOf_bind. unfold syncHeader. cbn [app].
  destruct (valueOf (syncDashboards du plugin orgID _ wa)); reflexivity.
Qed.

Lemma markProcessed_no_step2
      {W : Type} (du : DashboardUpdater W) (plugin : PluginDTO.t) (orgID : Z) (w : W) :
  deletions (traceOf (markProcessed du plugin orgID w)) = []
  /\ imported (traceOf (markProcessed du plugin orgID w)) = []
  /\ loaded (traceOf (markProcessed du plugin orgID w)) = [].
Proof.
  destruct (markProcessed_trace du plugin orgID w) as [(e & ->)|[(s & e & ->)|(s & ->)]];
    repeat split; reflexivity.
Qed.

(** In a sync pass every deletion is made in the pass's organization and is
    the stored dashboard of a record the catalog listed as removed, whether
    the pass completes or not. *)
Theorem sync_deletes_only_removed_records_in_its_organization
        {W : Type} (du : DashboardUpdater W) (plugin : PluginDTO.t) (orgID : Z) (w wa : W)
        (resp : ListPluginDashboardsResponse.t) :
  plugindashboards.ListPluginDashboards (pluginDashboardService du)
    (listRequest plugin orgID) w = (Ok resp, wa) ->
  Forall (fun d => snd (fst d) = orgID
                   /\ exists dash, In dash (ListPluginDashboardsResponse.Items resp)
                                   /\ PluginDashboard.Removed dash = true
                                   /\ PluginDashboard.DashboardId dash = fst (fst d))
         (deletions (traceOf (syncPluginDashboards du plugin orgID w))).
Proof.
  intros Hlist. rewrite (syncPluginDashboards_listed du plugin orgID w wa resp Hlist).
  cbv zeta. unfold syncHeader. cbn [app deletions]. rewrite deletions_app.
  apply Forall_app. split.
  - apply (syncDashboards_steps du plugin orgID).
  - destruct (valueOf _); [|constructor].
    destruct (markProcessed_no_step2 du plugin orgID
                (worldOf (syncDashboards du plugin orgID
                            (ListPluginDashboardsResponse.Items resp) wa))) as (-> & _).
    constructor.
Qed.

(** A sync pass that reached the read of the plugin setting has gone through
    the whole list: its deletions are the records listed as removed, in the
    catalog's order, each deleted successfully in the pass's organization; its
    imports are the records not removed whose imported revision differs from
    their revision, in order, each at its reference; records in sync caused no
    call. *)
Theorem sync_that_reaches_settings_handled_every_record
        {W : Type} (du : DashboardUpdater W) (plugin : PluginDTO.t) (orgID : Z) (w wa : W)
        (resp : ListPluginDashboardsResponse.t) :
  plugindashboards.ListPluginDashboards (pluginDashboardService du)
    (listRequest plugin orgID) w = (Ok resp, wa) ->
  In (CallGetPluginSettingById (settingQuery plugin orgID))
     (calls (traceOf (syncPluginDashboards du plugin orgID w))) ->
  deletions (traceOf (syncPluginDashboards du plugin orgID w))
  = map (fun dash => (PluginDashboard.DashboardId dash, orgID, None))
        (filter PluginDashboard.Removed (ListPluginDashboardsResponse.Items resp))
  /\ imported (traceOf (syncPluginDashboards du plugin orgID w))
     = map (fun dash => (PluginDashboard.PluginId dash, PluginDashboard.Reference dash))
           (filter stale (ListPluginDashboardsResponse.Items resp)).
Proof.
  intros Hlist Hread.
  rewrite (syncPluginDashboards_listed du plugin orgID w wa resp Hlist) in *.
  cbv zeta in *.
  destruct (syncDashboards_steps du plugin orgID (ListPluginDashboardsResponse.Items resp) wa)
    as (_ & _ & Hdone). cbv zeta in Hdone.
  destruct (syncDashboards_shape du plugin orgID (ListPluginDashboardsResponse.Items resp) wa)
    as (body & Hb & [[Hv Ht]|[Hv (c & e & Hc & Ht)]]).
  - rewrite Hv in *. destruct (Hdone eq_refl) as [Hd Hi].
    destruct (markProcessed_no_step2 du plugin orgID
                (worldOf (syncDashboards du plugin orgID
                            (ListPluginDashboardsResponse.Items resp) wa))) as (Hd' & Hi' & _).
    unfold syncHeader. cbn [app deletions]. unfold imported at 1. cbn [imports].
    fold (imported (traceOf (syncDashboards du plugin orgID
                               (ListPluginDashboardsResponse.Items resp) wa)
                    ++ traceOf (markProcessed du plugin orgID
                                  (worldOf (syncDashboards du plugin orgID
                                              (ListPluginDashboardsResponse.Items resp) wa))))).
    rewrite deletions_app, imported_app, Hd, Hi, Hd', Hi', !app_nil_r. auto.
  - exfalso. rewrite Hv, Ht in Hread. unfold syncHeader, step2Failure in Hread.
    rewrite app_nil_r in Hread. cbn [app calls] in Hread.
    rewrite calls_app in Hread. cbn [calls] in Hread.
    destruct Hread as [Hread|Hread]; [discriminate|].
    apply in_app_or in Hread. destruct Hread as [Hread|[Hread|[]]].
    + pose proof (okStep2_calls body Hb) as Hall. rewrite forallb_forall in Hall.
      specialize (Hall _ Hread). discriminate.
    + subst c. discriminate.
Qed.

(** A sync pass imports exactly what it loaded: the import requests of a pass
    are, in order, for the (plugin, reference) pairs whose payload was loaded
    successfully; a failed load is never followed by an import of that
    dashboard, and no import is made without its load. *)
Theorem sync_imports_exactly_what_it_loaded
        {W : Type} (du : DashboardUpdater W) (plugin : PluginDTO.t) (orgID : Z) (w : W) :
  imported (traceOf (syncPluginDashboards du plugin orgID w))
  = loaded (traceOf (syncPluginDashboards du plugin orgID w)).
Proof.
  destruct (plugindashboards.ListPluginDashboards (pluginDashboardService du)
              (listRequest plugin orgID) w) as [[resp|e] wa] eqn:Hlist.
  - rewrite (syncPluginDashboards_listed du plugin orgID w wa resp Hlist). cbv zeta.
    unfold syncHeader. unfold imported at 1. cbn [app imports loaded].
    fold (imported (traceOf (syncDashboards du plugin orgID
                               (ListPluginDashboardsResponse.Items resp) wa)
                    ++ (if valueOf (syncDashboards du plugin orgID
                                      (ListPluginDashboardsResponse.Items resp) wa)
                        then traceOf (markProcessed du plugin orgID
                                        (worldOf (syncDashboards du plugin orgID
                                                    (ListPluginDashboardsResponse.Items resp) wa)))
                        else []))).
    rewrite imported_app, loaded_app.
    destruct (syncDashboards_steps du plugin orgID (ListPluginDashboardsResponse.Items resp) wa)
      as (_ & Hil & _). cbv zeta in Hil. rewrite Hil. f_equal.
    destruct (valueOf _); [|reflexivity].
    destruct (markProcessed_no_step2 du plugin orgID
                (worldOf (syncDashboards du plugin orgID
                            (ListPluginDashboardsResponse.Items resp) wa))) as (_ & -> & ->).
    reflexivity.
  - unfold syncPluginDashboards. unfold_calls. cbn.
    unfold listRequest in Hlist. rewrite Hlist. reflexivity.
Qed.

(** The loop of step 2 over two lists in a row: when the loop over the first
    list runs to its end, the loop over the second goes on from the world it
    left; when it stops at a failure, the records that come after have no
    effect at all. *)
Theorem syncDashboards_over_two_lists
        {W : Type} (du : DashboardUpdater W) (plugin : PluginDTO.t) (orgID : Z)
        (l1 l2 : list PluginDashboard.t) (w : W) :
  syncDashboards du plugin orgID (l1 ++ l2) w
  = let r1 := syncDashboards du plugin orgID l1 w in
    if valueOf r1
    then let r2 := syncDashboards du plugin orgID l2 (worldOf r1) in
         (valueOf r2, worldOf r2, traceOf r1 ++ traceOf r2)
    else r1.
Proof.
  revert w. induction l1 as [|dash l1 IH]; intros w; cbv zeta.
  - cbn. destruct (syncDashboards du plugin orgID l2 w) as [[v w'] t]. reflexivity.
  - cbn [app syncDashboards].
    change (syncDashboards du plugin orgID (dash :: l1) w)
      with (bind (syncDashboard du plugin orgID dash)
                 (fun go : bool => if go then syncDashboards du plugin orgID l1 else ret false) w).
    cbn [bind Monad_Run].
    remember (syncDashboard du plugin orgID dash w) as rd eqn:Hrd. clear Hrd.
    destruct (valueOf rd).
    + rewrite IH. cbv zeta.
      remember (syncDashboards du plugin orgID l1 (worldOf rd)) as r1 eqn:Hr1. clear Hr1.
      cbn [valueOf worldOf traceOf fst snd].
      destruct (valueOf r1) eqn:Hv1.
      * cbn [valueOf worldOf traceOf fst snd]. now rewrite app_assoc.
      * rewrite Hv1. reflexivity.
    + reflexivity.
Qed.

(** ** The startup sweep, call by call *)

Lemma SyncTrace_no_lookup (plugin : PluginDTO.t) (orgID : Z) (tr : list Event) :
  SyncTrace plugin orgID tr -> registryLookups tr = [] /\ settingsListings tr = [].
Proof.
  assert (Hb : forall body, forallb okStep2 body = true ->
                            registryLookups body = [] /\ settingsListings body = []).
  { induction body as [|[c [e|]|l m x] body IH]; simpl; intros H;
      try discriminate; auto.
    apply andb_true_iff in H. destruct H as [H1 H2].
    destruct c; simpl in *; try discriminate; auto. }
  intros S. destruct S as [e|body c e Hok Hc|body e Hok|body s e Hok|body s Hok];
    try (split; reflexivity);
    destruct (Hb body Hok) as [H1 H2];
    unfold syncHeader; cbn [app registryLookups settingsListings];
    rewrite registryLookups_app, settingsListings_app, H1, H2;
    try (split; reflexivity).
  destruct c; simpl in *; try discriminate; split; reflexivity.
Qed.

Lemma updateAppDashboard_lookups
      {W : Type} (du : DashboardUpdater W) (s : PluginSetting.t) (w : W) :
  registryLookups (traceOf (updateAppDashboard du s w))
  = (if PluginSetting.Enabled s then [PluginSetting.PluginId s] else [])
  /\ settingsListings (traceOf (updateAppDashboard du s w)) = []
  /\ failuresLogged (traceOf (updateAppDashboard du s w)) = true.
Proof.
  unfold updateAppDashboard. destruct (PluginSetting.Enabled s); cbn [negb];
    [|repeat split; reflexivity].
  unfold Plugin. rewrite traceOf_bind, run_call. cbn [valueOf worldOf traceOf fst snd app].
  destruct (fst (plugins.Plugin (pluginStore du) (PluginSetting.PluginId s) w)) as [p|];
    [|repeat split; reflexivity].
  destruct (negb _); [|repeat split; reflexivity].
  cbn [registryLookups settingsListings failuresLogged].
  pose proof (syncPluginDashboards_trace du p (PluginSetting.OrgId s)
                (snd (plugins.Plugin (pluginStore du) (PluginSetting.PluginId s) w))) as S.
  destruct (SyncTrace_no_lookup _ _ _ S) as [-> ->].
  rewrite (SyncTrace_failuresLogged _ _ _ S). repeat split; reflexivity.
Qed.

Lemma failuresLogged_app (t1 t2 : list Event) :
  failuresLogged t1 = true -> failuresLogged (t1 ++ t2) = failuresLogged t2.
Proof.
  induction t1 as [|ev t1 IH]; [reflexivity|].
  destruct ev as [c [e|]|l m x]; cbn [app failuresLogged]; auto.
  destruct t1 as [|[c' o'|[| |] m' x'] t1']; cbn [app]; try discriminate.
  intros H. apply IH. exact H.
Qed.

Lemma forEachSetting_lookups
      {W : Type} (du : DashboardUpdater W) (rows : list PluginSetting.t) (w : W) :
  registryLookups (traceOf (forEachSetting du rows w))
  = map PluginSetting.PluginId (filter PluginSetting.Enabled rows)
  /\ settingsListings (traceOf (forEachSetting du rows w)) = []
  /\ failuresLogged (traceOf (forEachSetting du rows w)) = true.
Proof.
  revert w. induction rows as [|s rows IH]; intros w; [repeat split; reflexivity|].
  cbn [forEachSetting filter]. rewrite traceOf_bind.
  destruct (updateAppDashboard_lookups du s w) as (Hl & Hs & Hf).
  destruct (IH (worldOf (updateAppDashboard du s w))) as (IHl & IHs & IHf).
  rewrite registryLookups_app, settingsListings_app, (failuresLogged_app _ _ Hf).
  rewrite Hl, Hs, IHl, IHs, IHf.
  destruct (PluginSetting.Enabled s); repeat split; reflexivity.
Qed.

(** When the settings list cannot be read the sweep stops there: it logs the
    error, looks no plugin up, starts no sync pass, and leaves the world as
    the failed read left it. *)
Theorem sweep_stops_when_settings_cannot_be_listed
        {W : Type} (du : DashboardUpdater W) (w w1 : W) (e : error) :
  pluginsettings.GetPluginSettings (pluginSettingsService du) 0 w = (Err e, w1) ->
  traceOf (updateAppDashboards du w)
  = [ Logged Debug "Looking for app dashboard updates" [];
      Called (CallGetPluginSettings 0) (Some e);
      Logged Error "Failed to get all plugin settings" [("error", LErr e)] ]
  /\ worldOf (updateAppDashboards du w) = w1.
Proof.
  intros Hget. unfold updateAppDashboards. unfold_calls. cbn. rewrite Hget. cbn.
  split; reflexivity.
Qed.

(** The sweep reads the settings list once, for all organizations (filter 0),
    and asks the registry about the enabled rows only, once each, in the order
    of the list; a disabled row is never looked up. *)
Theorem sweep_looks_up_enabled_rows_only
        {W : Type} (du : DashboardUpdater W) (w w1 : W) (rows : list PluginSetting.t) :
  pluginsettings.GetPluginSettings (pluginSettingsService du) 0 w = (Ok rows, w1) ->
  settingsListings (traceOf (updateAppDashboards du w)) = [0]
  /\ registryLookups (traceOf (updateAppDashboards du w))
     = map PluginSetting.PluginId (filter PluginSetting.Enabled rows).
Proof.
  intros Hget. unfold updateAppDashboards, GetPluginSettings, log.
  rewrite !traceOf_bind. unfold call. cbn [log valueOf worldOf traceOf fst snd].
  rewrite Hget. cbn [valueOf worldOf traceOf fst snd app settingsListings registryLookups errorOf].
  destruct (forEachSetting_lookups du rows w1) as (Hl & Hs & _).
  rewrite Hl, Hs. split; reflexivity.
Qed.

(** The sweep swallows errors but not silently: every call that returned an
    error during the sweep, in the settings read or inside any sync pass, is
    directly followed by a log line at level Error. *)
Theorem sweep_logs_every_failure
        {W : Type} (du : DashboardUpdater W) (w : W) :
  failuresLogged (traceOf (updateAppDashboards du w)) = true.
Proof.
  unfold updateAppDashboards, GetPluginSettings, log.
  rewrite !traceOf_bind. unfold call. cbn [log valueOf worldOf traceOf fst snd].
  destruct (pluginsettings.GetPluginSettings (pluginSettingsService du) 0 w) as [[rows|e] w1];
    cbn [valueOf worldOf traceOf fst snd app errorOf failuresLogged]; [|reflexivity].
  apply (forEachSetting_lookups du rows w1).
Qed.

(** A sweep that finds every plugin up to date is read-only: with a registry
    that answers by identifier, when no row is enabled, known and behind the
    registry's version, the sweep's trace is the settings read followed by the
    registry lookups of the enabled rows; it writes nothing and logs no
    error. *)
Theorem sweep_of_up_to_date_plugins_only_reads
        {W : Type} (du : DashboardUpdater W) (registry : string -> option PluginDTO.t)
        (w w1 : W) (rows : list PluginSetting.t) :
  (forall id w, fst (plugins.Plugin (pluginStore du) id w) = registry id) ->
  pluginsettings.GetPluginSettings (pluginSettingsService du) 0 w = (Ok rows, w1) ->
  filter (needsSync registry) rows = [] ->
  traceOf (updateAppDashboards du w)
  = Logged Debug "Looking for app dashboard updates" []
    :: Called (CallGetPluginSettings 0) None
    :: map (fun s => Called (CallPlugin (PluginSetting.PluginId s)) None)
           (filter PluginSetting.Enabled rows).
Proof.
  intros Hreg Hget Hnone. unfold updateAppDashboards, GetPluginSettings, log.
  rewrite !traceOf_bind. unfold call. cbn [log valueOf worldOf traceOf fst snd].
  rewrite Hget. cbn [valueOf worldOf traceOf fst snd app errorOf]. do 2 f_equal.
  clear Hget. revert w1 Hnone. induction rows as [|s rows IH]; intros w1 Hnone; [reflexivity|].
  cbn [forEachSetting filter] in *. rewrite traceOf_bind.
  rewrite (updateAppDashboard_trace du registry Hreg s w1).
  destruct (needsSync registry s) eqn:Hs; [discriminate|].
  rewrite (IH _ Hnone). unfold needsSync in Hs.
  destruct (PluginSetting.Enabled s); [|reflexivity]. cbn [andb] in Hs.
  destruct (registry (PluginSetting.PluginId s)) as [p|]; [|reflexivity].
  destruct (String.eqb _ _); [reflexivity|discriminate].
Qed.

(** ** The handler, call by call *)

(** On a disabled notification, when the lookup of the plugin's stored
    dashboards fails, the handler returns that error at once: no dashboard is
    deleted, and the world is the one the lookup left. *)
Theorem disable_lookup_failure_is_returned
        {W : Type} (du : DashboardUpdater W) (event : PluginStateChangedEvent.t)
        (w w1 : W) (e : error) :
  PluginStateChangedEvent.Enabled event = false ->
  dashboards.GetDashboardsByPluginID (dashboardPluginService du) (teardownQuery event) w
  = (Err e, w1) ->
  valueOf (handlePluginStateChanged du event w) = Some e
  /\ traceOf (handlePluginStateChanged du event w)
     = [ stateChangedLine event;
         Called (CallGetDashboardsByPluginID (teardownQuery event)) (Some e) ]
  /\ worldOf (handlePluginStateChanged du event w) = w1.
Proof.
  intros Hdis Hget. unfold handlePluginStateChanged, stateChangedLine. rewrite Hdis.
  unfold_calls. cbn. unfold teardownQuery in Hget. rewrite Hget. cbn.
  repeat split; reflexivity.
Qed.

(** On an enabled notification for a plugin the registry knows, the handler
    is the registry lookup followed by one sync pass for the event's
    organization and the registry's descriptor, run from the world the lookup
    left; it starts the pass without reading the plugin settings first,
    whatever version is recorded, and returns nil. *)
Theorem enable_known_plugin_runs_one_sync_pass
        {W : Type} (du : DashboardUpdater W) (event : PluginStateChangedEvent.t)
        (w w1 : W) (p : PluginDTO.t) :
  PluginStateChangedEvent.Enabled event = true ->
  plugins.Plugin (pluginStore du) (PluginStateChangedEvent.PluginId event) w = (Some p, w1) ->
  let pass := syncPluginDashboards du p (PluginStateChangedEvent.OrgId event) w1 in
  valueOf (handlePluginStateChanged du event w) = None
  /\ traceOf (handlePluginStateChanged du event w)
     = stateChangedLine event
       :: Called (CallPlugin (PluginStateChangedEvent.PluginId event)) None
       :: traceOf pass
  /\ worldOf (handlePluginStateChanged du event w) = worldOf pass
  /\ syncPasses (traceOf (handlePluginStateChanged du event w))
     = [(PluginStateChangedEvent.OrgId event, PluginDTO.ID p)]
  /\ settingsListings (traceOf (handlePluginStateChanged du event w)) = [].
Proof.
  intros Hen Hplugin. cbv zeta.
  assert (Htr : traceOf (handlePluginStateChanged du event w)
                = stateChangedLine event
                  :: Called (CallPlugin (PluginStateChangedEvent.PluginId event)) None
                  :: traceOf (syncPluginDashboards du p (PluginStateChangedEvent.OrgId event) w1)).
  { unfold handlePluginStateChanged, stateChangedLine. rewrite Hen.
    unfold Plugin, call, log. rewrite !traceOf_bind. cbn [valueOf worldOf traceOf fst snd app].
    rewrite Hplugin. cbn [valueOf worldOf traceOf fst snd app].
    rewrite traceOf_bind. cbn [ret Monad_Run traceOf snd]. now rewrite app_nil_r. }
  split; [|split; [exact Htr|split; [|split]]].
  - unfold handlePluginStateChanged. rewrite Hen.
    unfold Plugin, call, log. rewrite !valueOf_bind. cbn [valueOf worldOf traceOf fst snd].
    rewrite Hplugin. reflexivity.
  - unfold handlePluginStateChanged. rewrite Hen.
    unfold Plugin, call, log. rewrite !worldOf_bind. cbn [valueOf worldOf traceOf fst snd].
    rewrite Hplugin. reflexivity.
  - rewrite Htr. unfold stateChangedLine. cbn [syncPasses].
    apply syncPluginDashboards_syncPasses.
  - rewrite Htr. unfold stateChangedLine. cbn [settingsListings].
    apply (SyncTrace_no_lookup p (PluginStateChangedEvent.OrgId event)).
    apply syncPluginDashboards_trace.
Qed.

(** The sweep goes through every row, whatever happens in a row's sync pass:
    the sweep over two lists of rows in a row is the sweep over the first
    followed by the sweep over the second from the world the first left.  A
    pass that fails for one plugin does not keep the rows after it from being
    processed. *)
Theorem sweep_over_two_lists_of_rows
        {W : Type} (du : DashboardUpdater W) (l1 l2 : list PluginSetting.t) (w : W) :
  let r1 := forEachSetting du l1 w in
  let r2 := forEachSetting du l2 (worldOf r1) in
  forEachSetting du (l1 ++ l2) w = (tt, worldOf r2, traceOf r1 ++ traceOf r2).
Proof.
  revert w. induction l1 as [|s l1 IH]; intros w; cbv zeta.
  - cbn. destruct (forEachSetting du l2 w) as [[[] w'] t]. reflexivity.
  - cbn [app forEachSetting].
    change (forEachSetting du (s :: l1) w)
      with (bind (updateAppDashboard du s) (fun _ : unit => forEachSetting du l1) w).
    cbn [bind Monad_Run].
    remember (updateAppDashboard du s w) as rs eqn:Hrs. clear Hrs.
    rewrite IH. cbv zeta. cbn [valueOf worldOf traceOf fst snd].
    now rewrite app_assoc.
Qed.

(** ** The import helper *)

(** Once the payload of a record is loaded, [autoUpdateAppDashboard] passes
    that payload on unchanged, in one import request for the record's plugin
    and reference in the given organization; what it returns is what the
    import returned, and the world is the one the import left. *)
Theorem auto_update_imports_the_loaded_payload
        {W : Type} (du : DashboardUpdater W) (dash : PluginDashboard.t) (orgID : Z)
        (w w1 : W) (resp : LoadPluginDashboardResponse.t) :
  plugindashboards.LoadPluginDashboard (pluginDashboardService du) (loadRequest dash) w
  = (Ok resp, w1) ->
  let imp := dashboardimport.ImportDashboard (dashboardImportService du)
               (importRequest dash orgID resp) w1 in
  calls (traceOf (autoUpdateAppDashboard du dash orgID w))
  = [CallLoadPluginDashboard (loadRequest dash);
     CallImportDashboard (importRequest dash orgID resp)]
  /\ valueOf (autoUpdateAppDashboard du dash orgID w) = errorOf (fst imp)
  /\ worldOf (autoUpdateAppDashboard du dash orgID w) = snd imp.
Proof.
  intros Hload. cbv zeta. unfold autoUpdateAppDashboard. unfold_calls. cbn.
  unfold loadRequest in Hload. rewrite Hload. cbn.
  unfold importRequest.
  destruct (dashboardimport.ImportDashboard _ _ w1) as [r w2]. cbn. repeat split; reflexivity.
Qed.

(** * The further theorems on the example installation *)

(** With the catalog down, the pass is the query and its error's log line. *)
Lemma sync_catalog_failure_makes_no_other_call_witness :
  calls (traceOf (syncPluginDashboards Mem.du Mem.app 1 Mem.catalogOffline))
  = [CallListPluginDashboards (listRequest Mem.app 1)]
  /\ worldOf (syncPluginDashboards Mem.du Mem.app 1 Mem.catalogOffline) = Mem.catalogOffline.
Proof.
  destruct (sync_catalog_failure_makes_no_other_call Mem.du Mem.app 1
              Mem.catalogOffline Mem.catalogOffline "catalog unavailable" eq_refl)
    as [Htr Hw].
  split; [rewrite Htr; reflexivity|exact Hw].
Defined.

(** With the catalog down, the failed query is the pass's only failure. *)
Lemma sync_stops_at_first_failure_witness :
  let tr := traceOf (syncPluginDashboards Mem.du Mem.app 1 Mem.catalogOffline) in
  tr = firstn 1 tr
       ++ Called (CallListPluginDashboards (listRequest Mem.app 1)) (Some "catalog unavailable")
       :: skipn 2 tr
  /\ firstError (firstn 1 tr) = None
  /\ forallb isLog (skipn 2 tr) = true
  /\ filter isFailure tr
     = [Called (CallListPluginDashboards (listRequest Mem.app 1)) (Some "catalog unavailable")].
Proof.
  cbv zeta.
  assert (H : traceOf (syncPluginDashboards Mem.du Mem.app 1 Mem.catalogOffline)
              = firstn 1 (traceOf (syncPluginDashboards Mem.du Mem.app 1 Mem.catalogOffline))
                ++ Called (CallListPluginDashboards (listRequest Mem.app 1))
                          (Some "catalog unavailable")
                :: skipn 2 (traceOf (syncPluginDashboards Mem.du Mem.app 1 Mem.catalogOffline)))
    by (vm_compute; reflexivity).
  exact (conj H (sync_stops_at_first_failure Mem.du Mem.app 1 Mem.catalogOffline _ _ _ _ H)).
Defined.

(** On the example installation the version write is the twelfth and last
    event of the pass. *)
Lemma sync_writes_version_last_and_only_after_success_witness :
  let tr := traceOf (syncPluginDashboards Mem.du Mem.app 1 Mem.start) in
  let cmd := {| UpdatePluginSettingVersionCmd.OrgId := 1;
                UpdatePluginSettingVersionCmd.PluginId := "app";
                UpdatePluginSettingVersionCmd.PluginVersion := "2.0.0" |} in
  tr = firstn 11 tr ++ Called (CallUpdatePluginSettingVersion cmd) None :: skipn 12 tr
  /\ firstError (firstn 11 tr) = None
  /\ UpdatePluginSettingVersionCmd.PluginVersion cmd = Info.Version (PluginDTO.Info Mem.app)
  /\ forallb isLog (skipn 12 tr) = true.
Proof.
  cbv zeta.
  assert (H : traceOf (syncPluginDashboards Mem.du Mem.app 1 Mem.start)
              = firstn 11 (traceOf (syncPluginDashboards Mem.du Mem.app 1 Mem.start))
                ++ Called (CallUpdatePluginSettingVersion
                             {| UpdatePluginSettingVersionCmd.OrgId := 1;
                                UpdatePluginSettingVersionCmd.PluginId := "app";
                                UpdatePluginSettingVersionCmd.PluginVersion := "2.0.0" |}) None
                :: skipn 12 (traceOf (syncPluginDashboards Mem.du Mem.app 1 Mem.start)))
    by (vm_compute; reflexivity).
  destruct (sync_writes_version_last_and_only_after_success
              Mem.du Mem.app 1 Mem.start _ _ _ _ H) as (H1 & H2 & _ & H3).
  exact (conj H (conj H1 (conj H2 H3))).
Defined.

(** On the example installation the only deletion is the dashboard the plugin
    no longer bundles, in organization 1. *)
Lemma sync_deletes_only_removed_records_in_its_organization_witness :
  plugindashboards.ListPluginDashboards (pluginDashboardService Mem.du)
    (listRequest Mem.app 1) Mem.start = (Ok startRecords, Mem.start)
  /\ deletions (traceOf (syncPluginDashboards Mem.du Mem.app 1 Mem.start)) = [(10, 1, None)]
  /\ Forall (fun d => snd (fst d) = 1
                      /\ exists dash, In dash (ListPluginDashboardsResponse.Items startRecords)
                                      /\ PluginDashboard.Removed dash = true
                                      /\ PluginDashboard.DashboardId dash = fst (fst d))
            (deletions (traceOf (syncPluginDashboards Mem.du Mem.app 1 Mem.start))).
Proof.
  assert (H : plugindashboards.ListPluginDashboards (pluginDashboardService Mem.du)
                (listRequest Mem.app 1) Mem.start = (Ok startRecords, Mem.start))
    by (vm_compute; reflexivity).
  split; [exact H|]. split; [vm_compute; reflexivity|].
  exact (sync_deletes_only_removed_records_in_its_organization
           Mem.du Mem.app 1 Mem.start Mem.start startRecords H).
Defined.

(** On the example installation the pass deletes the one removed record and
    imports the two stale ones. *)
Lemma sync_that_reaches_settings_handled_every_record_witness :
  plugindashboards.ListPluginDashboards (pluginDashboardService Mem.du)
    (listRequest Mem.app 1) Mem.start = (Ok startRecords, Mem.start)
  /\ map PluginDashboard.Removed (ListPluginDashboardsResponse.Items startRecords)
     = [false; false; true]
  /\ map stale (ListPluginDashboardsResponse.Items startRecords) = [true; true; false]
  /\ deletions (traceOf (syncPluginDashboards Mem.du Mem.app 1 Mem.start))
     = map (fun dash => (PluginDashboard.DashboardId dash, 1, None))
           (filter PluginDashboard.Removed (ListPluginDashboardsResponse.Items startRecords))
  /\ imported (traceOf (syncPluginDashboards Mem.du Mem.app 1 Mem.start))
     = map (fun dash => (PluginDashboard.PluginId dash, PluginDashboard.Reference dash))
           (filter stale (ListPluginDashboardsResponse.Items startRecords)).
Proof.
  assert (H : plugindashboards.ListPluginDashboards (pluginDashboardService Mem.du)
                (listRequest Mem.app 1) Mem.start = (Ok startRecords, Mem.start))
    by (vm_compute; reflexivity).
  assert (Hread : In (CallGetPluginSettingById (settingQuery Mem.app 1))
                     (calls (traceOf (syncPluginDashboards Mem.du Mem.app 1 Mem.start)))).
  { vm_compute. repeat (first [left; reflexivity | right]). }
  split; [exact H|]. split; [vm_compute; reflexivity|]. split; [vm_compute; reflexivity|].
  exact (sync_that_reaches_settings_handled_every_record
           Mem.du Mem.app 1 Mem.start Mem.start startRecords H Hread).
Defined.

(** With the settings store down the sweep is three events long. *)
Lemma sweep_stops_when_settings_cannot_be_listed_witness :
  calls (traceOf (updateAppDashboards Mem.du Mem.settingsOffline)) = [CallGetPluginSettings 0]
  /\ syncPasses (traceOf (updateAppDashboards Mem.du Mem.settingsOffline)) = []
  /\ worldOf (updateAppDashboards Mem.du Mem.settingsOffline) = Mem.settingsOffline.
Proof.
  destruct (sweep_stops_when_settings_cannot_be_listed Mem.du
              Mem.settingsOffline Mem.settingsOffline "settings store unavailable" eq_refl)
    as [Htr Hw].
  split; [rewrite Htr; reflexivity|]. split; [rewrite Htr; reflexivity|exact Hw].
Defined.

(** Of the four rows of the example installation, three are enabled. *)
Lemma sweep_looks_up_enabled_rows_only_witness :
  settingsListings (traceOf (updateAppDashboards Mem.du Mem.start)) = [0]
  /\ registryLookups (traceOf (updateAppDashboards Mem.du Mem.start)) = ["app"; "gone"; "app"].
Proof.
  exact (sweep_looks_up_enabled_rows_only Mem.du Mem.start Mem.start
           (Mem.settings Mem.start) eq_refl).
Defined.

(** After the sync pass of the example installation nothing is left to do:
    the sweep reads the settings and asks the registry three times. *)
Lemma sweep_of_up_to_date_plugins_only_reads_witness :
  filter (needsSync (Mem.lookupPlugin Mem.theRegistry)) (Mem.settings synced) = []
  /\ traceOf (updateAppDashboards Mem.du synced)
     = [ Logged Debug "Looking for app dashboard updates" [];
         Called (CallGetPluginSettings 0) None;
         Called (CallPlugin "app") None;
         Called (CallPlugin "gone") None;
         Called (CallPlugin "app") None ].
Proof.
  assert (H : filter (needsSync (Mem.lookupPlugin Mem.theRegistry)) (Mem.settings synced) = [])
    by (vm_compute; reflexivity).
  split; [exact H|].
  rewrite (sweep_of_up_to_date_plugins_only_reads Mem.du (Mem.lookupPlugin Mem.theRegistry)
             synced synced (Mem.settings synced) (fun id w => eq_refl) eq_refl H).
  vm_compute. reflexivity.
Defined.

(** With the lookup by plugin failing, disabling the plugin deletes nothing. *)
Lemma disable_lookup_failure_is_returned_witness :
  valueOf (handlePluginStateChanged lookupDown Mem.disableApp Mem.start)
  = Some "dashboard store unavailable"
  /\ deletions (traceOf (handlePluginStateChanged lookupDown Mem.disableApp Mem.start)) = []
  /\ worldOf (handlePluginStateChanged lookupDown Mem.disableApp Mem.start) = Mem.start.
Proof.
  destruct (disable_lookup_failure_is_returned lookupDown Mem.disableApp
              Mem.start Mem.start "dashboard store unavailable" eq_refl eq_refl)
    as (Hv & Htr & Hw).
  split; [exact Hv|]. split; [rewrite Htr; reflexivity|exact Hw].
Defined.

(** Enabling the app plugin in organization 1 starts one pass for it. *)
Lemma enable_known_plugin_runs_one_sync_pass_witness :
  valueOf (handlePluginStateChanged Mem.du Mem.enableApp Mem.start) = None
  /\ worldOf (handlePluginStateChanged Mem.du Mem.enableApp Mem.start) = synced
  /\ syncPasses (traceOf (handlePluginStateChanged Mem.du Mem.enableApp Mem.start))
     = [(1, "app")].
Proof.
  destruct (enable_known_plugin_runs_one_sync_pass Mem.du Mem.enableApp
              Mem.start Mem.start Mem.app eq_refl eq_refl)
    as (Hv & _ & Hw & Hp & _).
  split; [exact Hv|]. split; [exact Hw|exact Hp].
Defined.

(** The payload loaded for the first bundled dashboard is the one imported. *)
Lemma auto_update_imports_the_loaded_payload_witness :
  plugindashboards.LoadPluginDashboard (pluginDashboardService Mem.du)
    (loadRequest overviewRecord) Mem.start = (Ok overviewPayload, Mem.start)
  /\ calls (traceOf (autoUpdateAppDashboard Mem.du overviewRecord 1 Mem.start))
     = [CallLoadPluginDashboard (loadRequest overviewRecord);
        CallImportDashboard Mem.overviewImport]
  /\ valueOf (autoUpdateAppDashboard Mem.du overviewRecord 1 Mem.start) = None.
Proof.
  assert (H : plugindashboards.LoadPluginDashboard (pluginDashboardService Mem.du)
                (loadRequest overviewRecord) Mem.start = (Ok overviewPayload, Mem.start))
    by reflexivity.
  destruct (auto_update_imports_the_loaded_payload Mem.du overviewRecord 1
              Mem.start Mem.start overviewPayload H) as (Hc & Hv & _).
  split; [exact H|]. split; [exact Hc|]. rewrite Hv. reflexivity.
Defined.

(** * A removed record in a sync pass *)

(** The record loop over two lists in a row, when the loop over the first
    list runs to its end. *)
Lemma syncDashboards_reaches
      {W : Type} (du : DashboardUpdater W) (plugin : PluginDTO.t) (orgID : Z)
      (l1 l2 : list PluginDashboard.t) (w : W) :
  valueOf (syncDashboards du plugin orgID l1 w) = true ->
  let r1 := syncDashboards du plugin orgID l1 w in
  let r2 := syncDashboards du plugin orgID l2 (worldOf r1) in
  syncDashboards du plugin orgID (l1 ++ l2) w = (valueOf r2, worldOf r2, traceOf r1 ++ traceOf r2).
Proof.
  revert w. induction l1 as [|dash l1 IH]; intros w Hv; cbv zeta.
  - cbn. destruct (syncDashboards du plugin orgID l2 w) as [[v w'] t]. reflexivity.
  - cbn [app syncDashboards].
    change (syncDashboards du plugin orgID (dash :: l1) w)
      with (bind (syncDashboard du plugin orgID dash)
                 (fun go : bool => if go then syncDashboards du plugin orgID l1 else ret false) w)
      in Hv |- *.
    cbn [bind Monad_Run] in Hv |- *.
    remember (syncDashboard du plugin orgID dash w) as rd eqn:Hrd. clear Hrd.
    destruct (valueOf rd).
    + cbn [valueOf fst] in Hv. rewrite (IH _ Hv). cbv zeta.
      cbn [valueOf worldOf traceOf fst snd]. now rewrite app_assoc.
    + cbn in Hv. discriminate.
Qed.

(** The record loop at a removed record: the deletion, then the error's log
    line when it failed, the loop over the records after it when it
    succeeded. *)
Lemma syncDashboards_removed_head
      {W : Type} (du : DashboardUpdater W) (plugin : PluginDTO.t) (orgID : Z)
      (dash : PluginDashboard.t) (after : list PluginDashboard.t) (w : W) :
  PluginDashboard.Removed dash = true ->
  let deletion := dashboards.DeleteDashboard (dashboardService du)
                    (PluginDashboard.DashboardId dash) orgID w in
  syncDashboards du plugin orgID (dash :: after) w
  = match fst deletion with
    | Some e =>
        (false, snd deletion,
         [deletingLine plugin dash;
          Called (CallDeleteDashboard (PluginDashboard.DashboardId dash) orgID) (Some e);
          step2ErrorLine plugin e])
    | None =>
        let r := syncDashboards du plugin orgID after (snd deletion) in
        (valueOf r, worldOf r,
         deletingLine plugin dash
           :: Called (CallDeleteDashboard (PluginDashboard.DashboardId dash) orgID) None
           :: traceOf r)
    end.
Proof.
  intros Hrem. cbv zeta. cbn [syncDashboards]. unfold syncDashboard. rewrite Hrem.
  unfold deletingLine, step2ErrorLine. unfold_calls. cbn.
  destruct (dashboards.DeleteDashboard (dashboardService du)
              (PluginDashboard.DashboardId dash) orgID w) as [[e|] w1]; cbn; reflexivity.
Qed.

(** A sync pass whose catalog query succeeded is the query followed by the
    rest of the pass over the records listed. *)
Lemma syncPluginDashboards_restOfPass
      {W : Type} (du : DashboardUpdater W) (plugin : PluginDTO.t) (orgID : Z) (w wa : W)
      (resp : ListPluginDashboardsResponse.t) :
  plugindashboards.ListPluginDashboards (pluginDashboardService du)
    (listRequest plugin orgID) w = (Ok resp, wa) ->
  traceOf (syncPluginDashboards du plugin orgID w)
  = syncHeader plugin orgID None
    ++ traceOf (restOfPass du plugin orgID (ListPluginDashboardsResponse.Items resp) wa).
Proof.
  intros Hlist. unfold syncPluginDashboards, restOfPass.
  rewrite traceOf_bind, traceOf_bind.
  unfold ListPluginDashboards. rewrite !run_call.
  cbn [log valueOf worldOf traceOf fst snd app].
  unfold listRequest in Hlist. rewrite Hlist. reflexivity.
Qed.

(** C4.  In a sync pass, a listed record whose removed flag is set and that
    the pass gets to (the loop over the records before it ran to its end) is
    deleted and never imported, whatever its revisions are: right after the
    events of the records before it, the pass logs the deletion and calls
    DeleteDashboard for the record's stored dashboard in the pass's
    organization; what follows is the error's log line when the deletion
    failed, and the rest of the pass over the records after it when it
    succeeded; no load and no import is made for the record.  Every import
    request of the pass is for a listed record that is not removed. *)
Theorem removed_record_deleted_never_imported
        {W : Type} (du : DashboardUpdater W) (plugin : PluginDTO.t) (orgID : Z) (w wa : W)
        (resp : ListPluginDashboardsResponse.t)
        (before after : list PluginDashboard.t) (dash : PluginDashboard.t) :
  plugindashboards.ListPluginDashboards (pluginDashboardService du)
    (listRequest plugin orgID) w = (Ok resp, wa) ->
  ListPluginDashboardsResponse.Items resp = before ++ dash :: after ->
  PluginDashboard.Removed dash = true ->
  valueOf (syncDashboards du plugin orgID before wa) = true ->
  let reached := syncDashboards du plugin orgID before wa in
  let deletion := dashboards.DeleteDashboard (dashboardService du)
                    (PluginDashboard.DashboardId dash) orgID (worldOf reached) in
  traceOf (syncPluginDashboards du plugin orgID w)
  = syncHeader plugin orgID None
    ++ traceOf reached
    ++ deletingLine plugin dash
    :: Called (CallDeleteDashboard (PluginDashboard.DashboardId dash) orgID) (fst deletion)
    :: match fst deletion with
       | Some e => [step2ErrorLine plugin e]
       | None => traceOf (restOfPass du plugin orgID after (snd deletion))
       end
  /\ Forall (fun req => exists d,
                 In d (ListPluginDashboardsResponse.Items resp)
                 /\ PluginDashboard.Removed d = false
                 /\ PluginDashboard.ImportedRevision d <> PluginDashboard.Revision d
                 /\ ImportDashboardRequest.PluginId req = PluginDashboard.PluginId d
                 /\ ImportDashboardRequest.Path req = PluginDashboard.Reference d)
            (imports (traceOf (syncPluginDashboards du plugin orgID w))).
Proof.
  intros Hlist Hitems Hrem Hreached. cbv zeta. split.
  - rewrite (syncPluginDashboards_restOfPass du plugin orgID w wa resp Hlist), Hitems.
    f_equal. unfold restOfPass at 1. rewrite traceOf_bind.
    rewrite (syncDashboards_reaches du plugin orgID before (dash :: after) wa Hreached).
    cbv zeta. cbn [valueOf worldOf traceOf fst snd]. rewrite <- app_assoc. f_equal.
    remember (worldOf (syncDashboards du plugin orgID before wa)) as w2 eqn:Hw2. clear Hw2.
    rewrite (syncDashboards_removed_head du plugin orgID dash after w2 Hrem). cbv zeta.
    destruct (dashboards.DeleteDashboard (dashboardService du)
                (PluginDashboard.DashboardId dash) orgID w2) as [[e|] w3];
      cbn [valueOf worldOf traceOf fst snd app ret Monad_Run].
    + reflexivity.
    + unfold restOfPass. rewrite traceOf_bind. reflexivity.
  - clear Hreached.
    rewrite (syncPluginDashboards_listed du plugin orgID w wa resp Hlist). cbv zeta.
    unfold syncHeader. cbn [app imports]. rewrite imports_app. apply Forall_app. split.
    + eapply Forall_impl; [|apply syncDashboards_imports]. cbv beta. now intros req [_ H].
    + destruct (valueOf (syncDashboards du plugin orgID
                           (ListPluginDashboardsResponse.Items resp) wa)); [|constructor].
      destruct (markProcessed_trace du plugin orgID
                  (worldOf (syncDashboards du plugin orgID
                              (ListPluginDashboardsResponse.Items resp) wa)))
        as [(e & ->)|[(s & e & ->)|(s & ->)]]; constructor.
Qed.

(** C4 at work: the catalog lists a removed record whose revisions differ,
    then a record to import; the pass deletes the first and imports only the
    second. *)
Lemma removed_record_deleted_never_imported_witness :
  PluginDashboard.Removed Mem.staleRemoved = true
  /\ PluginDashboard.ImportedRevision Mem.staleRemoved
     <> PluginDashboard.Revision Mem.staleRemoved
  /\ valueOf (syncDashboards staleCatalog Mem.app 1 [] Mem.start) = true
  /\ calls (traceOf (syncPluginDashboards staleCatalog Mem.app 1 Mem.start))
     = [ CallListPluginDashboards (listRequest Mem.app 1);
         CallDeleteDashboard 10 1;
         CallLoadPluginDashboard (loadRequest overviewRecord);
         CallImportDashboard Mem.overviewImport;
         CallGetPluginSettingById (settingQuery Mem.app 1);
         CallUpdatePluginSettingVersion
           {| UpdatePluginSettingVersionCmd.OrgId := 1;
              UpdatePluginSettingVersionCmd.PluginId := "app";
              UpdatePluginSettingVersionCmd.PluginVersion := "2.0.0" |} ]
  /\ imported (traceOf (syncPluginDashboards staleCatalog Mem.app 1 Mem.start))
     = [("app", "dashboards/overview.json")].
Proof.
  assert (Hrem : PluginDashboard.Removed Mem.staleRemoved = true) by reflexivity.
  assert (Hreached : valueOf (syncDashboards staleCatalog Mem.app 1 [] Mem.start) = true)
    by reflexivity.
  destruct (removed_record_deleted_never_imported staleCatalog Mem.app 1 Mem.start Mem.start
              {| ListPluginDashboardsResponse.Items := [Mem.staleRemoved; overviewRecord] |}
              [] [overviewRecord] Mem.staleRemoved eq_refl eq_refl Hrem Hreached)
    as [Htr _].
  split; [exact Hrem|]. split; [discriminate|]. split; [exact Hreached|].
  rewrite Htr. split; vm_compute; reflexivity.
Defined.

(** * Running a sync pass twice *)

(** A sync pass none of whose calls failed listed the records, ran the
    record loop to its end, read the setting and wrote the version. *)
Lemma syncPluginDashboards_success_run {W : Type} (du : DashboardUpdater W)
      (plugin : PluginDTO.t) (orgID : Z) (w : W) :
  firstError (traceOf (syncPluginDashboards du plugin orgID w)) = None ->
  exists resp wa appSetting wc,
    plugindashboards.ListPluginDashboards (pluginDashboardService du)
      (listRequest plugin orgID) w = (Ok resp, wa)
    /\ valueOf (syncDashboards du plugin orgID (ListPluginDashboardsResponse.Items resp) wa)
       = true
    /\ pluginsettings.GetPluginSettingById (pluginSettingsService du)
         (settingQuery plugin orgID)
         (worldOf (syncDashboards du plugin orgID (ListPluginDashboardsResponse.Items resp) wa))
       = (Ok appSetting, wc)
    /\ pluginsettings.UpdatePluginSettingVersion (pluginSettingsService du)
         (versionCmd plugin appSetting) wc
       = (None, worldOf (syncPluginDashboards du plugin orgID w)).
Proof.
  unfold syncPluginDashboards, listRequest.
  rewrite traceOf_bind, traceOf_bind, worldOf_bind, worldOf_bind.
  unfold ListPluginDashboards. rewrite !run_call.
  cbn [log valueOf worldOf traceOf fst snd app firstError].
  destruct (plugindashboards.ListPluginDashboards _ _ w) as [[resp|err] wa];
    cbn [errorOf fst snd firstError]; [|discriminate].
  rewrite traceOf_bind, worldOf_bind.
  destruct (syncDashboards_shape du plugin orgID (ListPluginDashboardsResponse.Items resp) wa)
    as (body & Hb & [[Hv Ht]|[Hv (c & e & Hc & Ht)]]); rewrite Hv, Ht.
  - rewrite (okStep2_firstError _ _ Hb).
    unfold markProcessed, GetPluginSettingById, UpdatePluginSettingVersion.
    rewrite traceOf_bind, worldOf_bind, !run_call.
    cbn [valueOf worldOf traceOf fst snd app].
    fold (settingQuery plugin orgID).
    destruct (pluginsettings.GetPluginSettingById _ _ _) as [[appSetting|err] wc] eqn:Hget;
      cbn [errorOf fst snd firstError app]; [|discriminate].
    rewrite traceOf_bind, worldOf_bind, !run_call.
    cbn [valueOf worldOf traceOf fst snd app].
    fold (versionCmd plugin appSetting).
    destruct (pluginsettings.UpdatePluginSettingVersion _ _ wc) as [[err|] wd] eqn:Hup;
      cbn [fst snd firstError app]; [discriminate|].
    intros _. exists resp, wa, appSetting, wc. repeat split; assumption.
  - rewrite <- app_assoc, (okStep2_firstError _ _ Hb). discriminate.
Qed.

Section SyncTwice.

Context {W : Type}.
Variable du : DashboardUpdater W.
Variable plugin : PluginDTO.t.
Variable orgID : Z.

(** The worlds the collaborators keep well formed, and what the catalog
    lists in a world for the pass's (organization, plugin) pair. *)
Variable WF : W -> Prop.
Variable catalogOf : W -> list PluginDashboard.t.

(** The contracts of the catalog and of the dashboard store, call by call:
    the listing returns the catalog's records, none of them twice; a call that
    is neither a deletion nor an import changes no record; the successful
    deletion of a removed record takes it off the catalog and changes no other
    record; the successful import of a record replaces it by a record in sync
    and changes no other record. *)
Hypothesis listing_is_catalog :
  forall w resp w',
    WF w ->
    plugindashboards.ListPluginDashboards (pluginDashboardService du)
      (listRequest plugin orgID) w = (Ok resp, w') ->
    ListPluginDashboardsResponse.Items resp = catalogOf w.
Hypothesis catalog_lists_once : forall w, WF w -> NoDup (catalogOf w).
Hypothesis reads_keep_catalog :
  forall c w,
    isDashboardWrite c = false -> WF w ->
    WF (exec du c w) /\ catalogOf (exec du c w) = catalogOf w.
Hypothesis deletion_unlists :
  forall dash w w',
    WF w -> In dash (catalogOf w) -> PluginDashboard.Removed dash = true ->
    dashboards.DeleteDashboard (dashboardService du)
      (PluginDashboard.DashboardId dash) orgID w = (None, w') ->
    WF w' /\ forall r, In r (catalogOf w') <-> In r (catalogOf w) /\ r <> dash.
Hypothesis import_syncs :
  forall dash payload resp w w',
    WF w -> In dash (catalogOf w) -> PluginDashboard.Removed dash = false ->
    dashboardimport.ImportDashboard (dashboardImportService du)
      (importRequest dash orgID payload) w = (Ok resp, w') ->
    WF w'
    /\ (forall r, In r (catalogOf w') -> inSync r = true \/ (In r (catalogOf w) /\ r <> dash))
    /\ (forall r, In r (catalogOf w) -> r <> dash -> In r (catalogOf w')).

(** One turn of the record loop that goes on leaves the rest of the records
    to bring in sync. *)
Lemma syncDashboard_progress (dash : PluginDashboard.t) (rest : list PluginDashboard.t)
      (w : W) :
  LeftToSync WF catalogOf (dash :: rest) w ->
  valueOf (syncDashboard du plugin orgID dash w) = true ->
  LeftToSync WF catalogOf rest (worldOf (syncDashboard du plugin orgID dash w)).
Proof.
  intros (Hwf & Hnd & Hin & Hcov) Hv.
  apply NoDup_cons_iff in Hnd. destruct Hnd as [Hnotin Hnd].
  assert (Hd : In dash (catalogOf w)) by (apply Hin; left; reflexivity).
  revert Hv. unfold syncDashboard.
  destruct (PluginDashboard.Removed dash) eqn:Hrem.
  - unfold_calls. cbn.
    destruct (dashboards.DeleteDashboard (dashboardService du)
                (PluginDashboard.DashboardId dash) orgID w) as [[e|] w'] eqn:Hdel;
      cbn; [discriminate|]. intros _.
    destruct (deletion_unlists dash w w' Hwf Hd Hrem Hdel) as [Hwf' Hcat].
    split; [exact Hwf'|]. split; [exact Hnd|]. split.
    + intros r Hr. apply Hcat. split; [apply Hin; right; exact Hr|].
      intros ->. contradiction.
    + intros r Hr. apply Hcat in Hr. destruct Hr as [Hr Hne].
      destruct (Hcov r Hr) as [Hs|[Heq|Hrest]];
        [left; exact Hs|exfalso; congruence|right; exact Hrest].
  - destruct (PluginDashboard.ImportedRevision dash =? PluginDashboard.Revision dash)
      eqn:Hrev; cbn [negb].
    + cbn. intros _. split; [exact Hwf|]. split; [exact Hnd|]. split.
      * intros r Hr. apply Hin. right. exact Hr.
      * intros r Hr. destruct (Hcov r Hr) as [Hs|[<-|Hrest]];
          [left; exact Hs| |right; exact Hrest].
        left. unfold inSync. now rewrite Hrem, Hrev.
    + pose proof (reads_keep_catalog (CallLoadPluginDashboard (loadRequest dash)) w
                    eq_refl Hwf) as Hload.
      pose proof (import_syncs dash) as Himport.
      unfold importRequest in Himport. unfold loadRequest in Hload. cbn [exec] in Hload.
      unfold autoUpdateAppDashboard. unfold_calls. cbn.
      destruct (plugindashboards.LoadPluginDashboard (pluginDashboardService du) _ w)
        as [[payload|err] w1]; cbn in *; [|discriminate].
      destruct Hload as [Hwf1 Hcat1].
      specialize (Himport payload).
      destruct (dashboardimport.ImportDashboard (dashboardImportService du) _ w1)
        as [[resp|err] w2] eqn:Himp; cbn; [|discriminate]. intros _.
      rewrite <- Hcat1 in Hd.
      destruct (Himport resp w1 w2 Hwf1 Hd Hrem Himp) as (Hwf2 & Hnew & Hold).
      split; [exact Hwf2|]. split; [exact Hnd|]. split.
      * intros r Hr. apply Hold; [rewrite Hcat1; apply Hin; right; exact Hr|].
        intros ->. contradiction.
      * intros r Hr. destruct (Hnew r Hr) as [Hs|[Hr1 Hne]]; [left; exact Hs|].
        rewrite Hcat1 in Hr1.
        destruct (Hcov r Hr1) as [Hs|[Heq|Hrest]];
          [left; exact Hs|exfalso; congruence|right; exact Hrest].
Qed.

(** The record loop that ran to its end leaves a catalog whose records are
    all in sync. *)
Lemma syncDashboards_converges (items : list PluginDashboard.t) (w : W) :
  LeftToSync WF catalogOf items w ->
  valueOf (syncDashboards du plugin orgID items w) = true ->
  WF (worldOf (syncDashboards du plugin orgID items w))
  /\ forall r, In r (catalogOf (worldOf (syncDashboards du plugin orgID items w))) ->
               inSync r = true.
Proof.
  revert w. induction items as [|dash rest IH]; intros w Hleft Hv.
  - destruct Hleft as (Hwf & _ & _ & Hcov). split; [exact Hwf|].
    intros r Hr. destruct (Hcov r Hr) as [Hs|[]]. exact Hs.
  - cbn [syncDashboards] in *. rewrite valueOf_bind in Hv. rewrite worldOf_bind.
    pose proof (syncDashboard_progress dash rest w Hleft) as Hstep.
    destruct (valueOf (syncDashboard du plugin orgID dash w)); [|discriminate Hv].
    apply IH; [apply Hstep; reflexivity|exact Hv].
Qed.

(** A sync pass none of whose calls failed leaves a catalog whose records
    are all in sync. *)
Lemma syncPluginDashboards_converges (w : W) :
  WF w ->
  firstError (traceOf (syncPluginDashboards du plugin orgID w)) = None ->
  WF (worldOf (syncPluginDashboards du plugin orgID w))
  /\ forall r, In r (catalogOf (worldOf (syncPluginDashboards du plugin orgID w))) ->
               inSync r = true.
Proof.
  intros Hwf Hok.
  destruct (syncPluginDashboards_success_run du plugin orgID w Hok)
    as (resp & wa & s & wc & Hlist & Hv & Hget & Hup).
  pose proof (listing_is_catalog w resp wa Hwf Hlist) as Hitems.
  pose proof (reads_keep_catalog (CallListPluginDashboards (listRequest plugin orgID)) w
                eq_refl Hwf) as Hframe.
  cbn [exec] in Hframe. rewrite Hlist in Hframe. cbn [snd] in Hframe.
  destruct Hframe as [Hwfa Hcata].
  assert (Hleft : LeftToSync WF catalogOf (ListPluginDashboardsResponse.Items resp) wa).
  { split; [exact Hwfa|]. rewrite Hitems, Hcata. split; [now apply catalog_lists_once|].
    split; intros r Hr; [exact Hr|right; exact Hr]. }
  destruct (syncDashboards_converges _ wa Hleft Hv) as [Hwfl Hsync].
  pose proof (reads_keep_catalog (CallGetPluginSettingById (settingQuery plugin orgID)) _
                eq_refl Hwfl) as Hframe.
  cbn [exec] in Hframe. rewrite Hget in Hframe. cbn [snd] in Hframe.
  destruct Hframe as [Hwfc Hcatc].
  pose proof (reads_keep_catalog (CallUpdatePluginSettingVersion (versionCmd plugin s)) wc
                eq_refl Hwfc) as Hframe.
  cbn [exec] in Hframe. rewrite Hup in Hframe. cbn [snd] in Hframe.
  destruct Hframe as [Hwfd Hcatd].
  split; [exact Hwfd|]. intros r Hr. apply Hsync. now rewrite <- Hcatc, <- Hcatd.
Qed.

(** What is kept in the stores, and the contracts of the settings store, as
    the second pass relies on them. *)
Variable D : Type.
Variable storedOf : W -> D.
Variable versionOf : W -> Z -> string -> option string.

Hypothesis catalog_reads_only :
  forall req w,
    SameStores storedOf versionOf
      (snd (plugindashboards.ListPluginDashboards (pluginDashboardService du) req w)) w.
Hypothesis settings_read_only :
  forall query w,
    SameStores storedOf versionOf
      (snd (pluginsettings.GetPluginSettingById (pluginSettingsService du) query w)) w.
Hypothesis settings_read_by_key :
  forall query w s,
    fst (pluginsettings.GetPluginSettingById (pluginSettingsService du) query w) = Ok s ->
    PluginSetting.OrgId s = GetPluginSettingByIdQuery.OrgId query
    /\ PluginSetting.PluginId s = GetPluginSettingByIdQuery.PluginId query.
Hypothesis write_keeps_dashboards :
  forall cmd w,
    storedOf (snd (pluginsettings.UpdatePluginSettingVersion (pluginSettingsService du) cmd w))
    = storedOf w.
Hypothesis write_keeps_other_rows :
  forall cmd w o p,
    o <> UpdatePluginSettingVersionCmd.OrgId cmd
    \/ p <> UpdatePluginSettingVersionCmd.PluginId cmd ->
    versionOf (snd (pluginsettings.UpdatePluginSettingVersion (pluginSettingsService du) cmd w))
              o p
    = versionOf w o p.
Hypothesis write_records_version :
  forall cmd w,
    fst (pluginsettings.UpdatePluginSettingVersion (pluginSettingsService du) cmd w) = None ->
    versionOf (snd (pluginsettings.UpdatePluginSettingVersion (pluginSettingsService du) cmd w))
              (UpdatePluginSettingVersionCmd.OrgId cmd)
              (UpdatePluginSettingVersionCmd.PluginId cmd)
    = Some (UpdatePluginSettingVersionCmd.PluginVersion cmd).
Hypothesis failed_write_keeps_version :
  forall cmd w e,
    fst (pluginsettings.UpdatePluginSettingVersion (pluginSettingsService du) cmd w) = Some e ->
    versionOf (snd (pluginsettings.UpdatePluginSettingVersion (pluginSettingsService du) cmd w))
              (UpdatePluginSettingVersionCmd.OrgId cmd)
              (UpdatePluginSettingVersionCmd.PluginId cmd)
    = versionOf w (UpdatePluginSettingVersionCmd.OrgId cmd)
                  (UpdatePluginSettingVersionCmd.PluginId cmd).

(** C6.  Running the sync pass a second time on the world a fully successful
    first pass left makes no deletion and no import, and ends in a world with
    the same stored dashboards and, for every (organization, plugin) pair, the
    same recorded version as after the first pass.  The collaborators are
    taken with their contracts, call by call; that the first pass left every
    record in sync is derived from the code of the pass. *)
Theorem sync_again_changes_nothing (w : W) :
  let first := syncPluginDashboards du plugin orgID w in
  let second := syncPluginDashboards du plugin orgID (worldOf first) in
  WF w ->
  firstError (traceOf first) = None ->
  deletions (traceOf second) = []
  /\ imports (traceOf second) = []
  /\ storedOf (worldOf second) = storedOf (worldOf first)
  /\ (forall o p, versionOf (worldOf second) o p = versionOf (worldOf first) o p).
Proof.
  cbv zeta. intros Hwf Hok.
  destruct (syncPluginDashboards_converges w Hwf Hok) as [Hwf1 Hsync].
  apply (second_pass_over_in_sync_catalog du D storedOf versionOf
           catalog_reads_only settings_read_only settings_read_by_key
           write_keeps_dashboards write_keeps_other_rows write_records_version
           failed_write_keeps_version plugin orgID w Hok).
  intros resp Hresp.
  destruct (plugindashboards.ListPluginDashboards (pluginDashboardService du)
              {| ListPluginDashboardsRequest.OrgID := orgID;
                 ListPluginDashboardsRequest.PluginID := PluginDTO.ID plugin |}
              (worldOf (syncPluginDashboards du plugin orgID w))) as [r w2] eqn:Hlist.
  cbn [fst] in Hresp. subst r.
  rewrite (listing_is_catalog _ resp w2 Hwf1 Hlist).
  apply forallb_forall. exact Hsync.
Qed.

End SyncTwice.

(** ** The in-memory catalog and dashboard store honour the contracts *)

(** Dropping stored dashboards keeps their identifiers distinct. *)
Lemma Mem_filter_uniqueIds (keep : Mem.Stored.t -> bool) (rows : list Mem.Stored.t) :
  NoDup (map Mem.Stored.Id rows) -> NoDup (map Mem.Stored.Id (filter keep rows)).
Proof.
  intros Hrows. induction rows as [|s rows IH]; cbn; [constructor|].
  cbn in Hrows. apply NoDup_cons_iff in Hrows. destruct Hrows as [Hfresh Hrows].
  destruct (keep s); cbn; [|auto]. constructor; [|auto].
  intros Hin. apply Hfresh. apply in_map_iff in Hin. destruct Hin as (x & Hx & Hin).
  apply filter_In in Hin. destruct Hin as [Hin _]. apply in_map_iff. eauto.
Qed.

Lemma NoDup_map_eq {A B : Type} (f : A -> B) (l : list A) (x y : A) :
  NoDup (map f l) -> In x l -> In y l -> f x = f y -> x = y.
Proof.
  induction l as [|a l IH]; cbn; intros H Hx Hy Heq; [contradiction|].
  apply NoDup_cons_iff in H. destruct H as [Hn H].
  destruct Hx as [->|Hx], Hy as [->|Hy]; auto.
  - exfalso. apply Hn. rewrite Heq. now apply in_map.
  - exfalso. apply Hn. rewrite <- Heq. now apply in_map.
Qed.

Lemma find_filter_keeps {A : Type} (p q : A -> bool) (l : list A) :
  (forall x, In x l -> p x = true -> q x = true) -> find p (filter q l) = find p l.
Proof.
  induction l as [|a l IH]; cbn; intros H; [reflexivity|].
  destruct (q a) eqn:Hq; cbn.
  - destruct (p a); [reflexivity|]. apply IH. intros x Hx. apply H. now right.
  - destruct (p a) eqn:Hp.
    + rewrite (H a) in Hq; [discriminate|now left|exact Hp].
    + apply IH. intros x Hx. apply H. now right.
Qed.

Lemma find_map_same {A : Type} (p : A -> bool) (f : A -> A) (l : list A) :
  (forall x, p (f x) = p x) -> find p (map f l) = option_map f (find p l).
Proof.
  intros H. induction l as [|a l IH]; cbn; [reflexivity|].
  rewrite H. destruct (p a); [reflexivity|exact IH].
Qed.

Lemma find_snoc {A : Type} (p : A -> bool) (l : list A) (x : A) :
  find p (l ++ [x])
  = match find p l with
    | Some y => Some y
    | None => if p x then Some x else None
    end.
Proof.
  induction l as [|a l IH]; cbn; [reflexivity|]. destruct (p a); [reflexivity|exact IH].
Qed.

Lemma Mem_isStoredAt_spec (o : Z) (p r : string) (s : Mem.Stored.t) :
  Mem.isStoredAt o p r s = true
  <-> Mem.Stored.OrgId s = o /\ Mem.Stored.PluginId s = p /\ Mem.Stored.Reference s = r.
Proof.
  unfold Mem.isStoredAt. rewrite !andb_true_iff, Z.eqb_eq, !String.eqb_eq. tauto.
Qed.

Lemma Mem_isBundled_spec (p r : string) (b : Mem.Bundled.t) :
  Mem.isBundled p r b = true <-> Mem.Bundled.PluginId b = p /\ Mem.Bundled.Reference b = r.
Proof.
  unfold Mem.isBundled. rewrite andb_true_iff, !String.eqb_eq. tauto.
Qed.

Lemma Mem_isRow_spec (id o : Z) (s : Mem.Stored.t) :
  Mem.isRow id o s = true <-> Mem.Stored.Id s = id /\ Mem.Stored.OrgId s = o.
Proof.
  unfold Mem.isRow. rewrite andb_true_iff, !Z.eqb_eq. tauto.
Qed.

Lemma Mem_bundledRecord_fields (w : Mem.World) (o : Z) (b : Mem.Bundled.t) :
  PluginDashboard.PluginId (Mem.bundledRecord w o b) = Mem.Bundled.PluginId b
  /\ PluginDashboard.Reference (Mem.bundledRecord w o b) = Mem.Bundled.Reference b
  /\ PluginDashboard.Removed (Mem.bundledRecord w o b) = false.
Proof.
  unfold Mem.bundledRecord. destruct (find _ _); repeat split; reflexivity.
Qed.

Lemma Mem_bundledRecord_stored (w w' : Mem.World) (o : Z) (b : Mem.Bundled.t) :
  find (Mem.isStoredAt o (Mem.Bundled.PluginId b) (Mem.Bundled.Reference b)) (Mem.stored w')
  = find (Mem.isStoredAt o (Mem.Bundled.PluginId b) (Mem.Bundled.Reference b)) (Mem.stored w) ->
  Mem.bundledRecord w' o b = Mem.bundledRecord w o b.
Proof.
  unfold Mem.bundledRecord. intros ->. reflexivity.
Qed.

Lemma Mem_bundledRecord_inSync (w : Mem.World) (o : Z) (b : Mem.Bundled.t)
      (s : Mem.Stored.t) :
  find (Mem.isStoredAt o (Mem.Bundled.PluginId b) (Mem.Bundled.Reference b)) (Mem.stored w)
  = Some s ->
  Mem.Stored.Revision s = Mem.Bundled.Revision b ->
  inSync (Mem.bundledRecord w o b) = true.
Proof.
  unfold Mem.bundledRecord, inSync. intros -> Hrev. cbn. rewrite Hrev. apply Z.eqb_refl.
Qed.

Section MemCatalog.

Variable registry : list PluginDTO.t.
Variable bundled : list Mem.Bundled.t.
Variable plugin : PluginDTO.t.
Variable orgID : Z.

Hypothesis bundle_refs : uniqueReferences bundled (PluginDTO.ID plugin).

Lemma Mem_isOrphan_spec (s : Mem.Stored.t) :
  Mem.isOrphan bundled orgID (PluginDTO.ID plugin) s = true
  <-> Mem.Stored.OrgId s = orgID /\ Mem.Stored.PluginId s = PluginDTO.ID plugin
      /\ existsb (Mem.isBundled (PluginDTO.ID plugin) (Mem.Stored.Reference s)) bundled = false.
Proof.
  unfold Mem.isOrphan. rewrite !andb_true_iff, Z.eqb_eq, String.eqb_eq, negb_true_iff. tauto.
Qed.

(** A stored dashboard at the key of a bundled one is no orphan. *)
Lemma Mem_bundled_not_orphan (b : Mem.Bundled.t) (s : Mem.Stored.t) :
  In b bundled -> Mem.Bundled.PluginId b = PluginDTO.ID plugin ->
  Mem.isStoredAt orgID (PluginDTO.ID plugin) (Mem.Bundled.Reference b) s = true ->
  Mem.isOrphan bundled orgID (PluginDTO.ID plugin) s = false.
Proof.
  intros Hb Hp Hs. apply Mem_isStoredAt_spec in Hs. destruct Hs as (_ & _ & Href).
  destruct (Mem.isOrphan bundled orgID (PluginDTO.ID plugin) s) eqn:Ho; [|reflexivity].
  apply Mem_isOrphan_spec in Ho. destruct Ho as (_ & _ & Hex).
  assert (Hex' : existsb (Mem.isBundled (PluginDTO.ID plugin) (Mem.Stored.Reference s))
                         bundled = true).
  { apply existsb_exists. exists b. split; [exact Hb|]. apply Mem_isBundled_spec. auto. }
  congruence.
Qed.

(** A plugin bundles one dashboard per reference. *)
Lemma Mem_bundle_unique (b b' : Mem.Bundled.t) :
  In b bundled -> In b' bundled ->
  Mem.Bundled.PluginId b = PluginDTO.ID plugin ->
  Mem.Bundled.PluginId b' = PluginDTO.ID plugin ->
  Mem.Bundled.Reference b = Mem.Bundled.Reference b' -> b = b'.
Proof.
  intros Hb Hb' Hp Hp' Href.
  apply (NoDup_map_eq Mem.Bundled.Reference _ b b' bundle_refs);
    [apply filter_In; split; [exact Hb|now apply String.eqb_eq]
    |apply filter_In; split; [exact Hb'|now apply String.eqb_eq]
    |exact Href].
Qed.

Lemma memCatalog_In (w : Mem.World) (r : PluginDashboard.t) :
  In r (memCatalog bundled orgID (PluginDTO.ID plugin) w)
  <-> (exists b, In b bundled /\ Mem.Bundled.PluginId b = PluginDTO.ID plugin
                 /\ r = Mem.bundledRecord w orgID b)
      \/ (exists s, In s (Mem.stored w)
                    /\ Mem.isOrphan bundled orgID (PluginDTO.ID plugin) s = true
                    /\ r = Mem.removedRecord s).
Proof.
  unfold memCatalog. rewrite in_app_iff, !in_map_iff. split.
  - intros [(b & <- & Hb)|(s & <- & Hs)]; apply filter_In in Hb || apply filter_In in Hs.
    + left. exists b. destruct Hb as [Hb Hp]. apply String.eqb_eq in Hp. auto.
    + right. exists s. destruct Hs as [Hs Ho]. auto.
  - intros [(b & Hb & Hp & ->)|(s & Hs & Ho & ->)].
    + left. exists b. split; [reflexivity|]. apply filter_In. split; [exact Hb|].
      now apply String.eqb_eq.
    + right. exists s. split; [reflexivity|]. apply filter_In. auto.
Qed.

Lemma memCatalog_stored (w w' : Mem.World) :
  Mem.stored w' = Mem.stored w ->
  memCatalog bundled orgID (PluginDTO.ID plugin) w'
  = memCatalog bundled orgID (PluginDTO.ID plugin) w.
Proof.
  intros H. unfold memCatalog. rewrite H. f_equal. apply map_ext. intros b.
  apply Mem_bundledRecord_stored. now rewrite H.
Qed.

Lemma Mem_listing_is_catalog (w : Mem.World) (resp : ListPluginDashboardsResponse.t)
      (w' : Mem.World) :
  uniqueIds w ->
  plugindashboards.ListPluginDashboards (pluginDashboardService (Mem.updater registry bundled))
    (listRequest plugin orgID) w = (Ok resp, w') ->
  ListPluginDashboardsResponse.Items resp = memCatalog bundled orgID (PluginDTO.ID plugin) w.
Proof.
  intros _. cbn. unfold Mem.listPluginDashboards. destruct (Mem.catalogDown w); [discriminate|].
  intros H. injection H as <- _. reflexivity.
Qed.

Lemma Mem_catalog_lists_once (w : Mem.World) :
  uniqueIds w -> NoDup (memCatalog bundled orgID (PluginDTO.ID plugin) w).
Proof.
  intros Hwf. unfold memCatalog. apply NoDup_app.
  - apply (NoDup_map_inv PluginDashboard.Reference). rewrite map_map.
    erewrite map_ext; [exact bundle_refs|]. intros b. cbv beta.
    apply (Mem_bundledRecord_fields w orgID b).
  - apply (NoDup_map_inv PluginDashboard.DashboardId). rewrite map_map.
    cbn [Mem.removedRecord PluginDashboard.DashboardId].
    apply Mem_filter_uniqueIds. exact Hwf.
  - intros r Hb Hs. apply in_map_iff in Hb, Hs.
    destruct Hb as (b & <- & _). destruct Hs as (s & Heq & _).
    apply (f_equal PluginDashboard.Removed) in Heq.
    destruct (Mem_bundledRecord_fields w orgID b) as (_ & _ & Hrem).
    rewrite Hrem in Heq. discriminate.
Qed.

Lemma Mem_reads_keep_stored (c : Call) (w : Mem.World) :
  isDashboardWrite c = false ->
  Mem.stored (exec (Mem.updater registry bundled) c w) = Mem.stored w.
Proof.
  destruct c; cbn; intros Hc; try discriminate; try reflexivity.
  - unfold Mem.getPluginSettings. destruct (Mem.settingsDown w); [reflexivity|].
    destruct (_ =? 0); reflexivity.
  - unfold Mem.listPluginDashboards. destruct (Mem.catalogDown w); reflexivity.
  - unfold Mem.loadPluginDashboard. destruct (Mem.catalogDown w); [reflexivity|].
    destruct (find _ _); reflexivity.
  - unfold Mem.getPluginSettingById. destruct (Mem.settingsDown w); [reflexivity|].
    destruct (find _ _); reflexivity.
  - unfold Mem.updatePluginSettingVersion. destruct (Mem.settingsReadOnly w); [reflexivity|].
    destruct (existsb _ _); reflexivity.
Qed.

Lemma Mem_reads_keep_catalog (c : Call) (w : Mem.World) :
  isDashboardWrite c = false -> uniqueIds w ->
  uniqueIds (exec (Mem.updater registry bundled) c w)
  /\ memCatalog bundled orgID (PluginDTO.ID plugin) (exec (Mem.updater registry bundled) c w)
     = memCatalog bundled orgID (PluginDTO.ID plugin) w.
Proof.
  intros Hc Hwf. pose proof (Mem_reads_keep_stored c w Hc) as Hs. split.
  - unfold uniqueIds. now rewrite Hs.
  - now apply memCatalog_stored.
Qed.

Lemma Mem_deletion_unlists (dash : PluginDashboard.t) (w w' : Mem.World) :
  uniqueIds w ->
  In dash (memCatalog bundled orgID (PluginDTO.ID plugin) w) ->
  PluginDashboard.Removed dash = true ->
  dashboards.DeleteDashboard (dashboardService (Mem.updater registry bundled))
    (PluginDashboard.DashboardId dash) orgID w = (None, w') ->
  uniqueIds w'
  /\ forall r, In r (memCatalog bundled orgID (PluginDTO.ID plugin) w')
               <-> In r (memCatalog bundled orgID (PluginDTO.ID plugin) w) /\ r <> dash.
Proof.
  intros Hwf Hin Hrem Hdel. apply memCatalog_In in Hin.
  destruct Hin as [(b & _ & _ & ->)|(s0 & Hs0 & Horph & ->)].
  { destruct (Mem_bundledRecord_fields w orgID b) as (_ & _ & H). congruence. }
  cbn in Hdel. unfold Mem.deleteDashboard in Hdel.
  destruct (existsb (Z.eqb _) _); [discriminate|].
  destruct (existsb (Mem.isRow _ _) _); [|discriminate]. injection Hdel as <-.
  pose proof Horph as Horph'. apply Mem_isOrphan_spec in Horph'.
  destruct Horph' as (Horg0 & _ & _).
  assert (Hsame : forall s, In s (Mem.stored w) ->
                            Mem.isRow (Mem.Stored.Id s0) orgID s = true -> s = s0).
  { intros s Hs Hrow. apply Mem_isRow_spec in Hrow. destruct Hrow as [Hid _].
    exact (NoDup_map_eq Mem.Stored.Id _ s s0 Hwf Hs Hs0 Hid). }
  assert (Hbundled : forall b, In b bundled ->
                               Mem.Bundled.PluginId b = PluginDTO.ID plugin ->
            Mem.bundledRecord
              (Mem.withStored w (filter (fun s => negb (Mem.isRow (Mem.Stored.Id s0) orgID s))
                                        (Mem.stored w))) orgID b
            = Mem.bundledRecord w orgID b).
  { intros b Hb Hp. apply Mem_bundledRecord_stored. cbn [Mem.withStored Mem.stored].
    apply find_filter_keeps. intros s Hs Hat.
    destruct (Mem.isRow (Mem.Stored.Id s0) orgID s) eqn:Hrow; [|reflexivity].
    rewrite (Hsame s Hs Hrow) in Hat. rewrite Hp in Hat.
    rewrite (Mem_bundled_not_orphan b s0 Hb Hp Hat) in Horph. discriminate. }
  split.
  - unfold uniqueIds. cbn [Mem.withStored Mem.stored]. now apply Mem_filter_uniqueIds.
  - intros r. rewrite !memCatalog_In. cbn [Mem.withStored Mem.stored]. split.
    + intros [(b & Hb & Hp & ->)|(s & Hs & Ho & ->)].
      * split; [left; exists b; rewrite (Hbundled b Hb Hp); auto|].
        intros Heq. apply (f_equal PluginDashboard.Removed) in Heq.
        destruct (Mem_bundledRecord_fields w orgID b) as (_ & _ & H).
        rewrite (Hbundled b Hb Hp), H in Heq. discriminate.
      * apply filter_In in Hs. destruct Hs as [Hs Hkeep].
        split; [right; exists s; auto|]. intros Heq.
        apply (f_equal PluginDashboard.DashboardId) in Heq. cbn in Heq.
        assert (Hrow : Mem.isRow (Mem.Stored.Id s0) orgID s = true).
        { apply Mem_isRow_spec. split; [exact Heq|].
          apply Mem_isOrphan_spec in Ho. tauto. }
        rewrite Hrow in Hkeep. discriminate.
    + intros [[(b & Hb & Hp & ->)|(s & Hs & Ho & ->)] Hne].
      * left. exists b. rewrite (Hbundled b Hb Hp). auto.
      * right. exists s. split; [|auto]. apply filter_In. split; [exact Hs|].
        destruct (Mem.isRow (Mem.Stored.Id s0) orgID s) eqn:Hrow; [|reflexivity].
        exfalso. apply Hne. now rewrite (Hsame s Hs Hrow).
Qed.

(** Every stored identifier is below the next one. *)
Lemma Mem_nextId_fresh (l : list Mem.Stored.t) (s : Mem.Stored.t) :
  In s l -> Mem.Stored.Id s < Mem.nextId l.
Proof.
  unfold Mem.nextId. induction l as [|a l IH]; cbn [In fold_right]; [contradiction|].
  intros [->|Hs]; [lia|]. specialize (IH Hs). lia.
Qed.

Lemma Mem_import_syncs (dash : PluginDashboard.t) (payload : LoadPluginDashboardResponse.t)
      (resp : ImportDashboardResponse.t) (w w' : Mem.World) :
  uniqueIds w ->
  In dash (memCatalog bundled orgID (PluginDTO.ID plugin) w) ->
  PluginDashboard.Removed dash = false ->
  dashboardimport.ImportDashboard (dashboardImportService (Mem.updater registry bundled))
    (importRequest dash orgID payload) w = (Ok resp, w') ->
  uniqueIds w'
  /\ (forall r, In r (memCatalog bundled orgID (PluginDTO.ID plugin) w') ->
                inSync r = true
                \/ (In r (memCatalog bundled orgID (PluginDTO.ID plugin) w) /\ r <> dash))
  /\ (forall r, In r (memCatalog bundled orgID (PluginDTO.ID plugin) w) -> r <> dash ->
                In r (memCatalog bundled orgID (PluginDTO.ID plugin) w')).
Proof.
  intros Hwf Hin Hrem Himp. apply memCatalog_In in Hin.
  destruct Hin as [(b0 & Hb0 & Hp0 & ->)|(s0 & _ & _ & ->)]; [|discriminate Hrem].
  destruct (Mem_bundledRecord_fields w orgID b0) as (Hpid & Href & _).
  rewrite Hp0 in Hpid.
  cbn [dashboardimport.ImportDashboard dashboardImportService Mem.updater] in Himp.
  unfold Mem.importDashboard, importRequest in Himp.
  cbn [ImportDashboardRequest.PluginId ImportDashboardRequest.User ImportDashboardRequest.Path
       ImportDashboardRequest.Overwrite ImportDashboardRequest.Dashboard SignedInUser.OrgId]
    in Himp.
  rewrite Hpid, Href in Himp.
  destruct (existsb _ (Mem.rejected w)); [discriminate|].
  destruct (find (Mem.isBundled _ _) bundled) as [b|] eqn:Hfind; [|discriminate].
  apply find_some in Hfind. destruct Hfind as [Hb Hbk].
  apply Mem_isBundled_spec in Hbk. destruct Hbk as [Hbp Hbr].
  assert (b = b0) by (apply Mem_bundle_unique; auto). subst b. clear Hbp Hbr Hb.
  assert (Hother : forall b, In b bundled -> Mem.Bundled.PluginId b = PluginDTO.ID plugin ->
                             Mem.bundledRecord w orgID b <> Mem.bundledRecord w orgID b0 ->
                             Mem.Bundled.Reference b <> Mem.Bundled.Reference b0).
  { intros b Hb Hp Hne Hr. apply Hne. f_equal. apply Mem_bundle_unique; auto. }
  destruct (find (Mem.isStoredAt orgID (PluginDTO.ID plugin) (Mem.Bundled.Reference b0))
                 (Mem.stored w)) as [old|] eqn:Hold.
  - injection Himp as _ <-.
    match goal with
    | |- context [Mem.withStored w (map ?f _)] => set (upd := f)
    end.
    assert (Hid : forall s, Mem.Stored.Id (upd s) = Mem.Stored.Id s).
    { intros s. unfold upd. destruct (Mem.isStoredAt _ _ _ s); reflexivity. }
    assert (Hkey : forall o p r s, Mem.isStoredAt o p r (upd s) = Mem.isStoredAt o p r s).
    { intros o p r s. unfold upd.
      destruct (Mem.isStoredAt orgID _ _ s) eqn:Hs; [|reflexivity].
      apply Mem_isStoredAt_spec in Hs. destruct Hs as (Ho & Hp & Hr).
      unfold Mem.isStoredAt. cbn. now rewrite Ho, Hp, Hr. }
    assert (Horphan : forall s, Mem.isOrphan bundled orgID (PluginDTO.ID plugin) (upd s)
                                = Mem.isOrphan bundled orgID (PluginDTO.ID plugin) s).
    { intros s. unfold upd.
      destruct (Mem.isStoredAt orgID _ _ s) eqn:Hs; [|reflexivity].
      apply Mem_isStoredAt_spec in Hs. destruct Hs as (Ho & Hp & Hr).
      unfold Mem.isOrphan. cbn. now rewrite Ho, Hp, Hr. }
    assert (Hkeep : forall s, Mem.isOrphan bundled orgID (PluginDTO.ID plugin) s = true ->
                              upd s = s).
    { intros s Ho. unfold upd.
      destruct (Mem.isStoredAt orgID _ _ s) eqn:Hs; [|reflexivity].
      rewrite (Mem_bundled_not_orphan b0 s Hb0 Hp0 Hs) in Ho. discriminate. }
    assert (Hremoved : forall l,
               filter (Mem.isOrphan bundled orgID (PluginDTO.ID plugin)) (map upd l)
               = filter (Mem.isOrphan bundled orgID (PluginDTO.ID plugin)) l).
    { induction l as [|s l IH]; cbn; [reflexivity|]. rewrite Horphan.
      destruct (Mem.isOrphan bundled orgID (PluginDTO.ID plugin) s) eqn:Ho;
        [rewrite (Hkeep s Ho), IH; reflexivity|exact IH]. }
    assert (Hsynced : inSync (Mem.bundledRecord (Mem.withStored w (map upd (Mem.stored w)))
                                                orgID b0) = true).
    { apply (Mem_bundledRecord_inSync _ orgID b0 (upd old)).
      - cbn [Mem.withStored Mem.stored]. rewrite Hp0.
        rewrite (find_map_same _ upd _ (Hkey _ _ _)), Hold. reflexivity.
      - apply find_some in Hold. destruct Hold as [_ Hold]. unfold upd. rewrite Hold.
        reflexivity. }
    assert (Hrest : forall b, In b bundled -> Mem.Bundled.PluginId b = PluginDTO.ID plugin ->
                              Mem.Bundled.Reference b <> Mem.Bundled.Reference b0 ->
                Mem.bundledRecord (Mem.withStored w (map upd (Mem.stored w))) orgID b
                = Mem.bundledRecord w orgID b).
    { intros b Hb Hp Hr. apply Mem_bundledRecord_stored. cbn [Mem.withStored Mem.stored].
      rewrite (find_map_same _ upd _ (Hkey _ _ _)).
      destruct (find (Mem.isStoredAt orgID (Mem.Bundled.PluginId b) (Mem.Bundled.Reference b))
                     (Mem.stored w)) as [s|] eqn:Hs; [|reflexivity]. cbn [option_map].
      apply find_some in Hs. destruct Hs as [_ Hs]. apply Mem_isStoredAt_spec in Hs.
      destruct Hs as (_ & _ & Hsr). unfold upd.
      destruct (Mem.isStoredAt orgID _ _ s) eqn:Hat; [|reflexivity].
      apply Mem_isStoredAt_spec in Hat. destruct Hat as (_ & _ & Hat). congruence. }
    split; [|split].
    + unfold uniqueIds. cbn [Mem.withStored Mem.stored]. rewrite map_map.
      erewrite map_ext; [exact Hwf|exact Hid].
    + intros r Hr. apply memCatalog_In in Hr. cbn [Mem.withStored Mem.stored] in Hr.
      destruct Hr as [(b & Hb & Hp & ->)|(s & Hs & Ho & ->)].
      * destruct (string_dec (Mem.Bundled.Reference b) (Mem.Bundled.Reference b0)) as [He|Hne].
        -- left. rewrite (Mem_bundle_unique b b0 Hb Hb0 Hp Hp0 He). exact Hsynced.
        -- right. rewrite (Hrest b Hb Hp Hne). split.
           ++ apply memCatalog_In. left. exists b. auto.
           ++ intros Heq. apply Hne. apply (f_equal PluginDashboard.Reference) in Heq.
              destruct (Mem_bundledRecord_fields w orgID b) as (_ & H1 & _).
              congruence.
      * right. split.
        -- apply memCatalog_In. right. exists s. split; [|auto].
           assert (Hs' : In s (filter (Mem.isOrphan bundled orgID (PluginDTO.ID plugin))
                                      (map upd (Mem.stored w))))
             by (apply filter_In; auto).
           rewrite (Hremoved (Mem.stored w)) in Hs'. apply filter_In in Hs'. tauto.
        -- intros Heq. apply (f_equal PluginDashboard.Removed) in Heq.
           destruct (Mem_bundledRecord_fields w orgID b0) as (_ & _ & H). rewrite H in Heq.
           discriminate.
    + intros r Hr Hne. apply memCatalog_In in Hr. apply memCatalog_In.
      cbn [Mem.withStored Mem.stored].
      destruct Hr as [(b & Hb & Hp & ->)|(s & Hs & Ho & ->)].
      * left. exists b. rewrite (Hrest b Hb Hp (Hother b Hb Hp Hne)). auto.
      * right. exists s. split; [|auto].
        assert (Hs' : In s (filter (Mem.isOrphan bundled orgID (PluginDTO.ID plugin))
                                   (Mem.stored w)))
          by (apply filter_In; auto).
        rewrite <- (Hremoved (Mem.stored w)) in Hs'. apply filter_In in Hs'. tauto.
  - injection Himp as _ <-.
    match goal with
    | |- context [Mem.withStored w (_ ++ [?x])] => set (new := x)
    end.
    assert (Hnew : Mem.isOrphan bundled orgID (PluginDTO.ID plugin) new = false).
    { apply (Mem_bundled_not_orphan b0 new Hb0 Hp0). apply Mem_isStoredAt_spec.
      repeat split; reflexivity. }
    assert (Hsynced : inSync (Mem.bundledRecord
                                (Mem.withStored w (Mem.stored w ++ [new])) orgID b0) = true).
    { apply (Mem_bundledRecord_inSync _ orgID b0 new); [|reflexivity].
      cbn [Mem.withStored Mem.stored]. rewrite Hp0, find_snoc, Hold.
      unfold Mem.isStoredAt. cbn. now rewrite Z.eqb_refl, !String.eqb_refl. }
    assert (Hrest : forall b, In b bundled -> Mem.Bundled.PluginId b = PluginDTO.ID plugin ->
                              Mem.Bundled.Reference b <> Mem.Bundled.Reference b0 ->
                Mem.bundledRecord (Mem.withStored w (Mem.stored w ++ [new])) orgID b
                = Mem.bundledRecord w orgID b).
    { intros b Hb Hp Hr. apply Mem_bundledRecord_stored. cbn [Mem.withStored Mem.stored].
      rewrite find_snoc.
      destruct (find (Mem.isStoredAt orgID (Mem.Bundled.PluginId b) (Mem.Bundled.Reference b))
                     (Mem.stored w)); [reflexivity|].
      destruct (Mem.isStoredAt orgID _ _ new) eqn:Hat; [|reflexivity].
      apply Mem_isStoredAt_spec in Hat. destruct Hat as (_ & _ & Hat). cbn in Hat.
      congruence. }
    assert (Hremoved : filter (Mem.isOrphan bundled orgID (PluginDTO.ID plugin))
                              (Mem.stored w ++ [new])
                       = filter (Mem.isOrphan bundled orgID (PluginDTO.ID plugin))
                                (Mem.stored w)).
    { rewrite filter_app. cbn [filter]. rewrite Hnew. apply app_nil_r. }
    split; [|split].
    + unfold uniqueIds. cbn [Mem.withStored Mem.stored]. rewrite map_app. cbn [map].
      apply NoDup_app; [exact Hwf|repeat constructor; intros []|].
      intros id Hid [<-|[]]. apply in_map_iff in Hid. destruct Hid as (s & Hid & Hs).
      pose proof (Mem_nextId_fresh _ s Hs) as Hlt. unfold new in Hid.
      cbn [Mem.Stored.Id] in Hid. lia.
    + intros r Hr. apply memCatalog_In in Hr. cbn [Mem.withStored Mem.stored] in Hr.
      destruct Hr as [(b & Hb & Hp & ->)|(s & Hs & Ho & ->)].
      * destruct (string_dec (Mem.Bundled.Reference b) (Mem.Bundled.Reference b0)) as [He|Hne].
        -- left. rewrite (Mem_bundle_unique b b0 Hb Hb0 Hp Hp0 He). exact Hsynced.
        -- right. rewrite (Hrest b Hb Hp Hne). split.
           ++ apply memCatalog_In. left. exists b. auto.
           ++ intros Heq. apply Hne. apply (f_equal PluginDashboard.Reference) in Heq.
              destruct (Mem_bundledRecord_fields w orgID b) as (_ & H1 & _).
              congruence.
      * right. split.
        -- apply memCatalog_In. right. exists s. split; [|auto].
           assert (Hs' : In s (filter (Mem.isOrphan bundled orgID (PluginDTO.ID plugin))
                                      (Mem.stored w ++ [new])))
             by (apply filter_In; auto).
           rewrite Hremoved in Hs'. apply filter_In in Hs'. tauto.
        -- intros Heq. apply (f_equal PluginDashboard.Removed) in Heq.
           destruct (Mem_bundledRecord_fields w orgID b0) as (_ & _ & H). rewrite H in Heq.
           discriminate.
    + intros r Hr Hne. apply memCatalog_In in Hr. apply memCatalog_In.
      cbn [Mem.withStored Mem.stored].
      destruct Hr as [(b & Hb & Hp & ->)|(s & Hs & Ho & ->)].
      * left. exists b. rewrite (Hrest b Hb Hp (Hother b Hb Hp Hne)). auto.
      * right. exists s. split; [|auto].
        assert (Hs' : In s (filter (Mem.isOrphan bundled orgID (PluginDTO.ID plugin))
                                   (Mem.stored w)))
          by (apply filter_In; auto).
        rewrite <- Hremoved in Hs'. apply filter_In in Hs'. tauto.
Qed.

End MemCatalog.

(** C6 at work: on the example installation the first pass deletes the
    dashboard the plugin no longer bundles and imports the two bundled ones;
    the second pass deletes and imports nothing and leaves the stores as the
    first pass left them. *)
Lemma sync_again_changes_nothing_witness :
  let first := syncPluginDashboards Mem.du Mem.app 1 Mem.start in
  let second := syncPluginDashboards Mem.du Mem.app 1 (worldOf first) in
  uniqueReferences Mem.theBundle (PluginDTO.ID Mem.app)
  /\ uniqueIds Mem.start
  /\ firstError (traceOf first) = None
  /\ deletions (traceOf first) = [(10, 1, None)]
  /\ imported (traceOf first)
     = [("app", "dashboards/overview.json"); ("app", "dashboards/nodes.json")]
  /\ deletions (traceOf second) = []
  /\ imports (traceOf second) = []
  /\ Mem.stored (worldOf second) = Mem.stored (worldOf first)
  /\ (forall o p, Mem.recorded (worldOf second) o p = Mem.recorded (worldOf first) o p).
Proof.
  cbv zeta.
  assert (Hrefs : uniqueReferences Mem.theBundle (PluginDTO.ID Mem.app)).
  { unfold uniqueReferences. cbn. repeat constructor; cbn; intuition discriminate. }
  assert (Hwf : uniqueIds Mem.start).
  { unfold uniqueIds. cbn. repeat constructor; cbn; intuition discriminate. }
  assert (Hok : firstError (traceOf (syncPluginDashboards Mem.du Mem.app 1 Mem.start)) = None)
    by (vm_compute; reflexivity).
  split; [exact Hrefs|]. split; [exact Hwf|]. split; [exact Hok|].
  split; [vm_compute; reflexivity|]. split; [vm_compute; reflexivity|].
  exact (sync_again_changes_nothing Mem.du Mem.app 1
           uniqueIds (memCatalog Mem.theBundle 1 (PluginDTO.ID Mem.app))
           (Mem_listing_is_catalog Mem.theRegistry Mem.theBundle Mem.app 1)
           (Mem_catalog_lists_once Mem.theBundle Mem.app 1 Hrefs)
           (Mem_reads_keep_catalog Mem.theRegistry Mem.theBundle Mem.app 1)
           (Mem_deletion_unlists Mem.theRegistry Mem.theBundle Mem.app 1)
           (Mem_import_syncs Mem.theRegistry Mem.theBundle Mem.app 1 Hrefs)
           _ Mem.stored Mem.recorded
           (Mem_catalog_reads_only Mem.theRegistry Mem.theBundle)
           (Mem_settings_read_only Mem.theRegistry Mem.theBundle)
           (Mem_settings_read_by_key Mem.theRegistry Mem.theBundle)
           (Mem_write_keeps_dashboards Mem.theRegistry Mem.theBundle)
           (Mem_write_keeps_other_rows Mem.theRegistry Mem.theBundle)
           (Mem_write_records_version Mem.theRegistry Mem.theBundle)
           (Mem_failed_write_keeps_version Mem.theRegistry Mem.theBundle)
           Mem.start Hwf Hok).
Defined.
